(** * libqdma device management (xdev.c): registry, handle validation and
      the open / close / online / offline life cycle.

    The development is a shallow embedding of
    [runtime_src/driver/xclng/drm/xocl/lib/libqdma/xdev.c].

    - Kernel memory is a total map from addresses to [xlnx_dma_dev]
      objects; a pointer is an address ([Z], [0] is [NULL]), and a device
      handle ([unsigned long dev_hndl]) is the address of its object.
    - [xdev_list] is the chain of [list_head] nodes, given as the list of
      the addresses of the linked objects, head first.
    - What the PCI core, the hardware and the companion subsystems answer
      is read from a [platform]; every call into them is appended to the
      [trace] of the [world]. *)

From Stdlib Require Import ZArith List Bool String Ascii Lia.
Import ListNotations.
Local Open Scope Z_scope.

(** ** Machine integers and kernel macros *)

Definition ptr := Z.
Definition NULL : ptr := 0.

Definition u32 (z : Z) : Z := z mod 2 ^ 32.

(** The value an [int] holds once [z] has been assigned to it: the low 32
    bits of [z], read as a signed number. *)
Definition i32 (z : Z) : Z := (z + 2 ^ 31) mod 2 ^ 32 - 2 ^ 31.

(** An enumeration without a negative enumerator is an unsigned type: its
    values, from 0 on, are taken as they are, and a negative [int] given
    for one arrives as its value modulo 2^32. *)
Definition enum_of_int (z : Z) : Z := if z <? 0 then u32 z else z.

(** [errno.h] *)
Definition EINVAL : Z := 22.

(** [PCI_SLOT] and [PCI_FUNC] of [uapi/linux/pci.h]. *)
Definition PCI_SLOT (devfn : Z) : Z := Z.land (Z.shiftr devfn 3) 31.
Definition PCI_FUNC (devfn : Z) : Z := Z.land devfn 7.

(** ** Formatting ([sprintf] with [%x]) *)

Definition hex_digit (d : Z) : ascii :=
  nth (Z.to_nat d)
      ["0"; "1"; "2"; "3"; "4"; "5"; "6"; "7";
       "8"; "9"; "a"; "b"; "c"; "d"; "e"; "f"]%char "0"%char.

(** Digits of [n], most significant first; [fuel] bounds their number
    (8 for an [unsigned int]). *)
Fixpoint hex_digits (fuel : nat) (n : Z) (acc : list ascii) : list ascii :=
  match fuel with
  | O => acc
  | S f =>
      let acc' := hex_digit (n mod 16) :: acc in
      if n / 16 =? 0 then acc' else hex_digits f (n / 16) acc'
  end.

Fixpoint zero_pad (k : nat) (l : list ascii) : list ascii :=
  match k with
  | O => l
  | S k' => "0"%char :: zero_pad k' l
  end.

(** [%0<width>x] applied to an [unsigned int]. *)
Definition fmt_x (width : nat) (n : Z) : list ascii :=
  let ds := hex_digits 8 (u32 n) [] in
  zero_pad (width - List.length ds) ds.

Definition chars (s : string) : list ascii := list_ascii_of_string s.

(** ** Data model *)

(** The part of [struct pci_dev] the file reads. *)
Record pci_dev := mk_pci_dev {
  bus_number : Z;      (* pdev->bus->number *)
  devfn : Z;           (* pdev->devfn *)
  device : Z;          (* pdev->device *)
  dev_name : string    (* dev_name(&pdev->dev) *)
}.

(** Modelled from the spec: [struct qdma_dev_conf] is declared in a header
    of the library that is not part of the sources at hand; the fields are
    the ones the configuration snapshot is said to carry (bus reference,
    bus address, assigned index, config and user bar index, queue-set and
    virtualization limits, configuration state, display name). *)
Record qdma_dev_conf := mk_conf {
  pdev : ptr;
  bdf : Z;
  idx : Z;
  bar_num_config : Z;
  bar_num_user : Z;
  qsets_max : Z;
  vf_max : Z;
  cur_cfg_state : Z;
  name : list ascii
}.

(** The fields of [struct xlnx_dma_dev] used by xdev.c.  The two
    spinlocks carry no data; the [list_head] is the position in
    [xdev_list]. *)
Record xlnx_dma_dev := mk_xdev {
  conf : qdma_dev_conf;
  mod_name : list ascii;
  regs : ptr;
  stm_regs : ptr;
  stm_en : Z;
  stm_rev : Z;
  flags : Z;
  flr_prsnt : Z;
  st_mode_en : Z;
  mm_mode_en : Z;
  mm_channel_max : Z
}.

Definition set_conf (c : qdma_dev_conf) (x : xlnx_dma_dev) : xlnx_dma_dev :=
  mk_xdev c (mod_name x) (regs x) (stm_regs x) (stm_en x) (stm_rev x)
          (flags x) (flr_prsnt x) (st_mode_en x) (mm_mode_en x)
          (mm_channel_max x).

Definition set_mod_name (s : list ascii) (x : xlnx_dma_dev) : xlnx_dma_dev :=
  mk_xdev (conf x) s (regs x) (stm_regs x) (stm_en x) (stm_rev x)
          (flags x) (flr_prsnt x) (st_mode_en x) (mm_mode_en x)
          (mm_channel_max x).

Definition set_regs (r : ptr) (x : xlnx_dma_dev) : xlnx_dma_dev :=
  mk_xdev (conf x) (mod_name x) r (stm_regs x) (stm_en x) (stm_rev x)
          (flags x) (flr_prsnt x) (st_mode_en x) (mm_mode_en x)
          (mm_channel_max x).

Definition set_stm_regs (r : ptr) (x : xlnx_dma_dev) : xlnx_dma_dev :=
  mk_xdev (conf x) (mod_name x) (regs x) r (stm_en x) (stm_rev x)
          (flags x) (flr_prsnt x) (st_mode_en x) (mm_mode_en x)
          (mm_channel_max x).

Definition set_stm (en rev : Z) (x : xlnx_dma_dev) : xlnx_dma_dev :=
  mk_xdev (conf x) (mod_name x) (regs x) (stm_regs x) en rev
          (flags x) (flr_prsnt x) (st_mode_en x) (mm_mode_en x)
          (mm_channel_max x).

Definition set_flags (f : Z) (x : xlnx_dma_dev) : xlnx_dma_dev :=
  mk_xdev (conf x) (mod_name x) (regs x) (stm_regs x) (stm_en x) (stm_rev x)
          f (flr_prsnt x) (st_mode_en x) (mm_mode_en x)
          (mm_channel_max x).

Definition set_caps (flr st mm ch : Z) (x : xlnx_dma_dev) : xlnx_dma_dev :=
  mk_xdev (conf x) (mod_name x) (regs x) (stm_regs x) (stm_en x) (stm_rev x)
          (flags x) flr st mm ch.

Definition conf_set_bdf (v : Z) (c : qdma_dev_conf) : qdma_dev_conf :=
  mk_conf (pdev c) v (idx c) (bar_num_config c) (bar_num_user c)
          (qsets_max c) (vf_max c) (cur_cfg_state c) (name c).

Definition conf_set_idx (v : Z) (c : qdma_dev_conf) : qdma_dev_conf :=
  mk_conf (pdev c) (bdf c) v (bar_num_config c) (bar_num_user c)
          (qsets_max c) (vf_max c) (cur_cfg_state c) (name c).

Definition conf_set_bars (cfg usr : Z) (c : qdma_dev_conf) : qdma_dev_conf :=
  mk_conf (pdev c) (bdf c) (idx c) cfg usr
          (qsets_max c) (vf_max c) (cur_cfg_state c) (name c).

Definition conf_set_bar_num_config (cfg : Z) (c : qdma_dev_conf)
  : qdma_dev_conf :=
  mk_conf (pdev c) (bdf c) (idx c) cfg (bar_num_user c)
          (qsets_max c) (vf_max c) (cur_cfg_state c) (name c).

Definition conf_set_cur_cfg_state (v : Z) (c : qdma_dev_conf)
  : qdma_dev_conf :=
  mk_conf (pdev c) (bdf c) (idx c) (bar_num_config c) (bar_num_user c)
          (qsets_max c) (vf_max c) v (name c).

Definition conf_set_name (s : list ascii) (c : qdma_dev_conf)
  : qdma_dev_conf :=
  mk_conf (pdev c) (bdf c) (idx c) (bar_num_config c) (bar_num_user c)
          (qsets_max c) (vf_max c) (cur_cfg_state c) s.

(** [kzalloc] hands out zeroed memory. *)
Definition zero_conf : qdma_dev_conf := mk_conf NULL 0 0 0 0 0 0 0 [].
Definition zero_xdev : xlnx_dma_dev :=
  mk_xdev zero_conf [] NULL NULL 0 0 0 0 0 0 0.

(** ** Build configuration, header constants, platform *)

(** The preprocessor switches of the file: [__QDMA_VF__] for the virtual
    function driver, otherwise the physical function driver with or
    without [CONFIG_PCI_IOV]. *)
Inductive build_cfg :=
| QDMA_VF
| QDMA_PF (CONFIG_PCI_IOV : bool).

(** Constants, enumerators and error codes that xdev.c takes from headers
    ([xdev.h], [qdma_regs.h], [libqdma_export.h]) which are not among the
    sources at hand; the functions below take them as a parameter. *)
Record header := mk_header {
  PCI_SHIFT_BUS : Z;
  PCI_SHIFT_DEV : Z;
  CFG_UNCONFIGURED : Z;
  CFG_USER : Z;
  XDEV_FLAG_OFFLINE : Z;
  QDMA_CONFIG_BAR : Z;
  QDMA_MAX_BAR_LEN_MAPPED : Z;
  QDMA_DEV_NAME_MAXLEN : Z;
  STM_BAR : Z;
  STM_ENABLED_DEVICE : Z;
  STM_REG_BASE : Z;
  STM_REG_REV : Z;
  STM_REG_H2C_MODE : Z;
  STM_SUPPORTED_REV : Z;
  STM_PORT_MAP : Z;
  QDMA_OPERATION_SUCCESSFUL : Z;
  QDMA_ERR_INVALID_INPUT_PARAM : Z;
  QDMA_ERR_INVALID_PCI_DEV : Z;
  QDMA_ERR_PCI_DEVICE_ALREADY_ATTACHED : Z;
  QDMA_ERR_INTERFACE_NOT_ENABLED_IN_DEVICE : Z
}.

(** What the world outside xdev.c answers: the PCI core, the allocator,
    the device registers and the companion subsystems (device init,
    mailbox, SR-IOV). *)
Record platform := mk_platform {
  pci_dev_at : ptr -> pci_dev;                 (* the pci_dev behind a pointer *)
  pci_request_regions_rv : ptr -> Z;
  pci_enable_device_rv : ptr -> Z;
  pci_set_dma_mask_rv : ptr -> Z -> Z;         (* pdev, mask width *)
  kzalloc_rv : ptr;
  pci_resource_len_rv : ptr -> Z -> Z;         (* pdev, bar *)
  pci_iomap_rv : ptr -> Z -> Z -> ptr;         (* pdev, bar, length *)
  readl_rv : ptr -> Z;                         (* register address *)
  attributes_rv : ptr -> Z * Z * Z;            (* st_mode_en, mm_mode_en,
                                                  mm_channel_max *)
  qdma_device_init_rv : ptr -> Z;
  xdev_sriov_vf_online_rv : ptr -> Z;
  xdev_sriov_enable_rv : ptr -> Z -> Z
}.

Inductive event :=
| EvPciRequestRegions (p : ptr)
| EvPciReleaseRegions (p : ptr)
| EvPciEnableDevice (p : ptr)
| EvPciDisableDevice (p : ptr)
| EvPciRelaxedOrdering (p : ptr)
| EvPciSetMaster (p : ptr)
| EvPciSetDmaMask (p : ptr) (bits : Z)
| EvPciSetConsistentDmaMask (p : ptr) (bits : Z)
| EvPciIomap (p : ptr) (bar len : Z)
| EvPciIounmap (p : ptr) (addr : ptr)
| EvWritel (v : Z) (addr : ptr)
| EvKzalloc
| EvKfree (a : ptr)
| EvAttributesGet (a : ptr)
| EvDeviceInit (a : ptr)
| EvDeviceCleanup (a : ptr)
| EvMboxInit (a : ptr)
| EvMboxStart (a : ptr)
| EvMboxCleanup (a : ptr)
| EvSriovVfOnline (a : ptr)
| EvSriovVfOffline (a : ptr)
| EvSriovEnable (a : ptr) (n : Z)
| EvSriovDisable (a : ptr).

Record world := mk_world {
  mem : ptr -> xlnx_dma_dev;   (* kernel memory holding the device objects *)
  xdev_list : list ptr;        (* static LIST_HEAD(xdev_list) *)
  pci_regions : list ptr;      (* pdevs whose regions are held *)
  pci_enabled : list ptr;      (* pdevs enabled by pci_enable_device *)
  iomapped : list ptr;         (* live pci_iomap cookies *)
  trace : list event           (* calls leaving the file, oldest first *)
}.

Definition with_mem (m : ptr -> xlnx_dma_dev) (w : world) : world :=
  mk_world m (xdev_list w) (pci_regions w) (pci_enabled w) (iomapped w)
           (trace w).

Definition with_xdev_list (l : list ptr) (w : world) : world :=
  mk_world (mem w) l (pci_regions w) (pci_enabled w) (iomapped w) (trace w).

Definition with_pci_regions (l : list ptr) (w : world) : world :=
  mk_world (mem w) (xdev_list w) l (pci_enabled w) (iomapped w) (trace w).

Definition with_pci_enabled (l : list ptr) (w : world) : world :=
  mk_world (mem w) (xdev_list w) (pci_regions w) l (iomapped w) (trace w).

Definition with_iomapped (l : list ptr) (w : world) : world :=
  mk_world (mem w) (xdev_list w) (pci_regions w) (pci_enabled w) l (trace w).

Definition emit (e : event) (w : world) : world :=
  mk_world (mem w) (xdev_list w) (pci_regions w) (pci_enabled w)
           (iomapped w) (trace w ++ [e]).

(** Store through a pointer: [xdev-><field> = ...]. *)
Definition store (a : ptr) (f : xlnx_dma_dev -> xlnx_dma_dev) (w : world)
  : world :=
  with_mem (fun b => if b =? a then f (mem w a) else mem w b) w.

(** Remove one occurrence, the first, of [a]. *)
Fixpoint remove_one (a : ptr) (l : list ptr) : list ptr :=
  match l with
  | [] => []
  | b :: l' => if b =? a then l' else b :: remove_one a l'
  end.

(** ** The functions of xdev.c *)

Section Xdev.

Variable hdr : header.
Variable build : build_cfg.
Variable pf : platform.

(** *** Calls that leave the file *)

Definition pci_request_regions (p : ptr) (w : world) : world * Z :=
  let rv := pci_request_regions_rv pf p in
  let w := emit (EvPciRequestRegions p) w in
  (if rv =? 0 then with_pci_regions (p :: pci_regions w) w else w, rv).

Definition pci_release_regions (p : ptr) (w : world) : world :=
  emit (EvPciReleaseRegions p)
       (with_pci_regions (remove_one p (pci_regions w)) w).

Definition pci_enable_device (p : ptr) (w : world) : world * Z :=
  let rv := pci_enable_device_rv pf p in
  let w := emit (EvPciEnableDevice p) w in
  (if rv =? 0 then with_pci_enabled (p :: pci_enabled w) w else w, rv).

Definition pci_disable_device (p : ptr) (w : world) : world :=
  emit (EvPciDisableDevice p)
       (with_pci_enabled (remove_one p (pci_enabled w)) w).

Definition pci_set_master (p : ptr) (w : world) : world :=
  emit (EvPciSetMaster p) w.

Definition pci_set_dma_mask (p : ptr) (bits : Z) (w : world) : world * Z :=
  (emit (EvPciSetDmaMask p bits) w, pci_set_dma_mask_rv pf p bits).

Definition pci_set_consistent_dma_mask (p : ptr) (bits : Z) (w : world)
  : world :=
  emit (EvPciSetConsistentDmaMask p bits) w.

(** [len] is the value of the [int] the caller passes for [maxlen]. *)
Definition pci_iomap (p : ptr) (bar len : Z) (w : world) : world * ptr :=
  let c := pci_iomap_rv pf p bar len in
  let w := emit (EvPciIomap p bar len) w in
  (if c =? NULL then w else with_iomapped (c :: iomapped w) w, c).

Definition pci_iounmap (p : ptr) (addr : ptr) (w : world) : world :=
  emit (EvPciIounmap p addr)
       (with_iomapped (remove_one addr (iomapped w)) w).

Definition readl (addr : ptr) : Z := u32 (readl_rv pf addr).

Definition writel (v : Z) (addr : ptr) (w : world) : world :=
  emit (EvWritel v addr) w.

Definition kfree (a : ptr) (w : world) : world := emit (EvKfree a) w.

(** [qdma_device_attributes_get]: reads the capabilities of the device
    into the object. *)
Definition qdma_device_attributes_get (xdev : ptr) (w : world) : world :=
  let '(st, mm, ch) := attributes_rv pf xdev in
  store xdev (fun x => set_caps (flr_prsnt x) st mm ch x)
        (emit (EvAttributesGet xdev) w).

Definition qdma_device_init (xdev : ptr) (w : world) : world * Z :=
  (emit (EvDeviceInit xdev) w, qdma_device_init_rv pf xdev).

Definition qdma_device_cleanup (xdev : ptr) (w : world) : world :=
  emit (EvDeviceCleanup xdev) w.

Definition qdma_mbox_init (xdev : ptr) (w : world) : world :=
  emit (EvMboxInit xdev) w.

Definition qdma_mbox_start (xdev : ptr) (w : world) : world :=
  emit (EvMboxStart xdev) w.

Definition qdma_mbox_cleanup (xdev : ptr) (w : world) : world :=
  emit (EvMboxCleanup xdev) w.

Definition xdev_sriov_vf_online (xdev : ptr) (w : world) : world * Z :=
  (emit (EvSriovVfOnline xdev) w, xdev_sriov_vf_online_rv pf xdev).

Definition xdev_sriov_vf_offline (xdev : ptr) (w : world) : world :=
  emit (EvSriovVfOffline xdev) w.

Definition xdev_sriov_enable (xdev : ptr) (n : Z) (w : world) : world * Z :=
  (emit (EvSriovEnable xdev n) w, xdev_sriov_enable_rv pf xdev n).

Definition xdev_sriov_disable (xdev : ptr) (w : world) : world :=
  emit (EvSriovDisable xdev) w.

(** Modelled from the spec: [xdev_flag_set] and [xdev_flag_clear] are
    inline helpers of xdev.h, which is not among the sources at hand; the
    offline/online flag is one bit of the object's flag word, set by the
    first and cleared by the second. *)
Definition xdev_flag_set (xdev : ptr) (f : Z) (w : world) : world :=
  store xdev (fun x => set_flags (Z.lor (flags x) f) x) w.

Definition xdev_flag_clear (xdev : ptr) (f : Z) (w : world) : world :=
  store xdev (fun x => set_flags (Z.ldiff (flags x) f) x) w.

Definition xdev_flag_check (x : xlnx_dma_dev) (f : Z) : bool :=
  negb (Z.land (flags x) f =? 0).

(** *** xdev_list_dump *)

(** One [sprintf] of ["qdma%05x\t%02x:%02x.%02x\n"]. *)
Definition dump_line (x : xlnx_dma_dev) : list ascii :=
  let pd := pci_dev_at pf (pdev (conf x)) in
  chars "qdma" ++ fmt_x 5 (bdf (conf x)) ++ [ascii_of_nat 9]
    ++ fmt_x 2 (bus_number pd) ++ chars ":"
    ++ fmt_x 2 (PCI_SLOT (devfn pd)) ++ chars "."
    ++ fmt_x 2 (PCI_FUNC (devfn pd)) ++ [ascii_of_nat 10].

(** The loop of [xdev_list_dump]: [out] is what has been written to
    [buf[0 .. len-1]]; [sprintf] writes the whole line at [buf + len]
    before [len] is compared with [buflen]. *)
Fixpoint dump_loop (w : world) (buflen : Z) (l : list ptr)
         (out : list ascii) (len : Z) : list ascii * Z :=
  match l with
  | [] => (out, len)
  | xdev :: l' =>
      let line := dump_line (mem w xdev) in
      let out := out ++ line in
      let len := len + Z.of_nat (List.length line) in
      if len >=? buflen then (out, len) else dump_loop w buflen l' out len
  end.

(** Result of [xdev_list_dump]: the characters left in [buf[0 .. len-1]],
    and [len], which is both the return value and the offset at which the
    terminating ['\0'] is stored ([buf[len] = '\0']). *)
Definition xdev_list_dump (buflen : Z) (w : world) : list ascii * Z :=
  dump_loop w buflen (xdev_list w) [] 0.

(** *** xdev_list_add, xdev_list_remove *)

(** The test "are we dealing with a different card?". *)
Definition different_card (last_bus last_dev : Z) (_pd : pci_dev) : bool :=
  match build with
  | QDMA_VF => negb (last_bus =? bus_number _pd)
  | QDMA_PF _ =>
      negb (last_bus =? bus_number _pd)
      || negb (last_dev =? PCI_SLOT (devfn _pd))
  end.

(** One iteration of the loop of [xdev_list_add] over the entry [_xdev];
    the locals are [last_bus] and [last_dev]. *)
Definition list_add_body (xdev : ptr) (st : world * Z * Z) (_xdev : ptr)
  : world * Z * Z :=
  let '(w, last_bus, last_dev) := st in
  let _pd := pci_dev_at pf (pdev (conf (mem w _xdev))) in
  let w :=
    if different_card last_bus last_dev _pd
    then store xdev (fun x => set_conf (conf_set_idx 0 (conf x)) x) w
    else w in
  let w :=
    store xdev
          (fun x => set_conf (conf_set_idx (u32 (idx (conf x) + 1)) (conf x)) x)
          w in
  (w, bus_number _pd,
   PCI_SLOT (devfn (pci_dev_at pf (pdev (conf (mem w xdev)))))).

Definition xdev_list_add (xdev : ptr) (w : world) : world :=
  let pd := pci_dev_at pf (pdev (conf (mem w xdev))) in
  let bdf :=
    u32 (Z.lor (Z.lor (Z.shiftl (bus_number pd) (PCI_SHIFT_BUS hdr))
                      (Z.shiftl (PCI_SLOT (devfn pd)) (PCI_SHIFT_DEV hdr)))
               (PCI_FUNC (devfn pd))) in
  let w := store xdev (fun x => set_conf (conf_set_bdf bdf (conf x)) x) w in
  let w := with_xdev_list (xdev_list w ++ [xdev]) w in
  let '(w, _, _) := fold_left (list_add_body xdev) (xdev_list w) (w, 0, 0) in
  store xdev
        (fun x =>
           set_conf (conf_set_cur_cfg_state (CFG_UNCONFIGURED hdr) (conf x)) x)
        w.

(** [list_del]: the node of [xdev] is unlinked. *)
Definition xdev_list_remove (xdev : ptr) (w : world) : world :=
  with_xdev_list (remove_one xdev (xdev_list w)) w.

(** *** Lookups and handle validation *)

Fixpoint find_by_pdev_from (m : ptr -> xlnx_dma_dev) (l : list ptr)
         (p : ptr) : ptr :=
  match l with
  | [] => NULL
  | xdev :: l' =>
      if pdev (conf (m xdev)) =? p then xdev else find_by_pdev_from m l' p
  end.

Definition xdev_find_by_pdev (w : world) (p : ptr) : ptr :=
  find_by_pdev_from (mem w) (xdev_list w) p.

(** The argument of [xdev_find_by_idx] is an [int] and [conf.bdf] a
    [u32]: the comparison converts the argument to unsigned. *)
Fixpoint find_by_idx_from (m : ptr -> xlnx_dma_dev) (l : list ptr)
         (i : Z) : ptr :=
  match l with
  | [] => NULL
  | xdev :: l' =>
      if bdf (conf (m xdev)) =? u32 i then xdev
      else find_by_idx_from m l' i
  end.

Definition xdev_find_by_idx (w : world) (i : Z) : ptr :=
  find_by_idx_from (mem w) (xdev_list w) i.

Definition xdev_check_hndl (w : world) (p : ptr) (hndl : Z) : Z :=
  if p =? NULL then - EINVAL
  else
    let xdev := xdev_find_by_pdev w p in
    if xdev =? NULL then - EINVAL
    else if negb (xdev =? hndl) then - EINVAL
    else if negb (pdev (conf (mem w xdev)) =? p) then - EINVAL
    else 0.

(** *** PCI-level functions *)

Definition xdev_unmap_bars (xdev : ptr) (p : ptr) (w : world) : world :=
  let w :=
    if regs (mem w xdev) =? NULL then w
    else store xdev (set_regs NULL) (pci_iounmap p (regs (mem w xdev)) w) in
  if stm_regs (mem w xdev) =? NULL then w
  else store xdev (set_stm_regs NULL) (pci_iounmap p (stm_regs (mem w xdev)) w).

(** The identification word of the config bar; compiled out of the
    virtual function driver. *)
Definition config_bar_id_ok (w : world) (xdev : ptr) : bool :=
  match build with
  | QDMA_VF => true
  | QDMA_PF _ =>
      Z.land (readl (regs (mem w xdev))) 0xFFFF0000 =? 0x1FD30000
  end.

Definition stm_rev_ok (rev : Z) : bool :=
  (Z.shiftr rev 24 =? 83)                          (* 'S' *)
  && (Z.land (Z.shiftr rev 16) 255 =? 84)          (* 'T' *)
  && (Z.land (Z.shiftr rev 8) 255 =? 77)           (* 'M' *)
  && (Z.land rev 255 <=? STM_SUPPORTED_REV hdr).

(** [map_len] is an [int]: the resource length is cut to its low 32 bits
    and read as signed before it is compared with
    [QDMA_MAX_BAR_LEN_MAPPED], and what [pci_iomap] is called with is the
    value of that [int]. *)
Definition xdev_map_bars (xdev : ptr) (p : ptr) (w : world) : world * Z :=
  let w :=
    store xdev
      (fun x => set_conf (conf_set_bar_num_config (QDMA_CONFIG_BAR hdr) (conf x)) x)
      w in
  let map_len := i32 (pci_resource_len_rv pf p (QDMA_CONFIG_BAR hdr)) in
  let map_len :=
    if map_len >? QDMA_MAX_BAR_LEN_MAPPED hdr
    then QDMA_MAX_BAR_LEN_MAPPED hdr else map_len in
  let '(w, r) := pci_iomap p (QDMA_CONFIG_BAR hdr) map_len w in
  let w := store xdev (set_regs r) w in
  if regs (mem w xdev) =? NULL then (w, - EINVAL)
  else if negb (config_bar_id_ok w xdev)
  then (xdev_unmap_bars xdev p w, - EINVAL)
  else if device (pci_dev_at pf p) =? STM_ENABLED_DEVICE hdr then
    let map_len := i32 (pci_resource_len_rv pf p (STM_BAR hdr)) in
    let '(w, r) := pci_iomap p (STM_BAR hdr) map_len w in
    let w := store xdev (set_stm_regs r) w in
    if stm_regs (mem w xdev) =? NULL then (w, - EINVAL)
    else
      let rev :=
        readl (stm_regs (mem w xdev) + STM_REG_BASE hdr + STM_REG_REV hdr) in
      if negb (stm_rev_ok rev) then (xdev_unmap_bars xdev p w, - EINVAL)
      else (store xdev (set_stm 1 (Z.land rev 255)) w, 0)
  else (store xdev (fun x => set_stm 0 (stm_rev x) x) w, 0).

Definition xdev_alloc (c : qdma_dev_conf) (w : world) : world * ptr :=
  let xdev := kzalloc_rv pf in
  let w := emit EvKzalloc w in
  if xdev =? NULL then (w, NULL)
  else
    let w := store xdev (fun _ => zero_xdev) w in
    let w := store xdev (set_conf c) w in
    let w := store xdev (set_caps 1 1 1 1) w in
    (w, xdev).

Definition pci_dma_mask_set (p : ptr) (w : world) : world * Z :=
  let '(w, rv64) := pci_set_dma_mask p 64 w in
  if rv64 =? 0 then (pci_set_consistent_dma_mask p 32 w, 0)
  else
    let '(w, rv32) := pci_set_dma_mask p 32 w in
    if rv32 =? 0 then (pci_set_consistent_dma_mask p 32 w, 0)
    else (w, - EINVAL).

Definition pci_enable_relaxed_ordering (p : ptr) (w : world) : world :=
  emit (EvPciRelaxedOrdering p) w.

(** *** Online, offline *)

Definition qdma_device_offline (p : ptr) (dev_hndl : Z) (w : world) : world :=
  let xdev := dev_hndl in
  if dev_hndl =? 0 then w
  else if xdev_check_hndl w p dev_hndl <? 0 then w
  else
    let w := xdev_flag_set xdev (XDEV_FLAG_OFFLINE hdr) w in
    let w :=
      match build with
      | QDMA_VF => xdev_sriov_vf_offline xdev w
      | QDMA_PF true => xdev_sriov_disable xdev w
      | QDMA_PF false => w
      end in
    let w := qdma_device_cleanup xdev w in
    qdma_mbox_cleanup xdev w.

(** The label [cleanup_qdma] of [qdma_device_online]. *)
Definition online_cleanup_qdma (xdev : ptr) (rv : Z) (w : world) : world * Z :=
  (qdma_device_cleanup xdev w, rv).

Definition qdma_device_online (p : ptr) (dev_hndl : Z) (w : world)
  : world * Z :=
  let xdev := dev_hndl in
  if dev_hndl =? 0 then (w, - EINVAL)
  else if xdev_check_hndl w p dev_hndl <? 0 then (w, - EINVAL)
  else
    let '(w, rv) := qdma_device_init xdev w in
    if rv <? 0 then online_cleanup_qdma xdev rv w
    else
      let w := xdev_flag_clear xdev (XDEV_FLAG_OFFLINE hdr) w in
      let w := qdma_mbox_init xdev w in
      match build with
      | QDMA_VF =>
          let w := qdma_mbox_start xdev w in
          let '(w, rv) := xdev_sriov_vf_online xdev w in
          if rv <? 0 then online_cleanup_qdma xdev rv w else (w, 0)
      | QDMA_PF true =>
          if negb (vf_max (conf (mem w xdev)) =? 0) then
            let '(w, rv) :=
              xdev_sriov_enable xdev (vf_max (conf (mem w xdev))) w in
            if rv <? 0 then online_cleanup_qdma xdev rv w else (w, 0)
          else (w, 0)
      | QDMA_PF false => (w, 0)
      end.

(** *** Open, close *)

(** What [qdma_device_open] hands back: the return value, [*dev_hndl] and
    the caller's [*conf]. *)
Record open_result := mk_open_result {
  open_rv : Z;
  open_hndl : Z;
  open_conf : qdma_dev_conf
}.

(** The labels at the end of [qdma_device_open]; each falls through to
    the next. *)
Definition open_release_regions (p : ptr) (rv : Z) (w : world) : world * Z :=
  (pci_release_regions p w, rv).

Definition open_disable_device (p : ptr) (rv : Z) (w : world) : world * Z :=
  open_release_regions p rv (pci_disable_device p w).

Definition open_unmap_bars (xdev p : ptr) (rv : Z) (w : world) : world * Z :=
  let w := xdev_unmap_bars xdev p w in
  let w := xdev_list_remove xdev w in
  let w := kfree xdev w in
  open_disable_device p rv w.

Definition open_cleanup_qdma (xdev p : ptr) (rv : Z) (w : world) : world * Z :=
  open_unmap_bars xdev p rv (qdma_device_offline p xdev w).

(** Lines 628 to 636: the object is allocated, named after the module,
    flagged offline and put on the list. *)
Definition open_create (mn : list ascii) (c : qdma_dev_conf) (w : world)
  : world * ptr :=
  let '(w, xdev) := xdev_alloc c w in
  if xdev =? NULL then (w, NULL)
  else
    let w :=
      store xdev
        (set_mod_name (firstn (Z.to_nat (QDMA_DEV_NAME_MAXLEN hdr - 1)) mn))
        w in
    let w := xdev_flag_set xdev (XDEV_FLAG_OFFLINE hdr) w in
    (xdev_list_add xdev w, xdev).

(** "program STM port map" *)
Definition program_stm_port_map (xdev : ptr) (w : world) : world :=
  if negb (stm_en (mem w xdev) =? 0) then
    let addr :=
      stm_regs (mem w xdev) + STM_REG_BASE hdr + STM_REG_H2C_MODE hdr in
    let v := readl addr in
    let v := Z.land v 0x0000FFFF in
    let v := u32 (Z.lor v (Z.shiftl (STM_PORT_MAP hdr) 16)) in
    writel v addr w
  else w.

(** Where [qdma_device_open] stands when it reaches the call of
    [qdma_device_online] (line 668): it has returned already, or the
    object [xdev] of the device [p] is on the list, its bars are mapped
    and [c] has been copied back to the caller. *)
Inductive open_stage :=
| OpenReturned (w : world) (res : open_result)
| OpenReady (w : world) (p xdev : ptr) (c : qdma_dev_conf).

(** Lines 567 to 666 of [qdma_device_open].  The function reads
    [conf->pdev] on entry (line 570), before it tests [mod_name] and
    before the test of [conf] at line 581: called with a null [conf] it
    faults and returns nothing.  The model therefore starts from the
    configuration [c] that [conf] points to; for it the test of line 581
    cannot fire. *)
Definition open_setup (mod_name : option (list ascii))
           (c : qdma_dev_conf) (w : world) : open_stage :=
  let p := pdev c in
  match mod_name with
  | None =>
      OpenReturned w (mk_open_result (QDMA_ERR_INVALID_INPUT_PARAM hdr) 0 c)
  | Some mn =>
  if p =? NULL
  then OpenReturned w (mk_open_result (QDMA_ERR_INVALID_PCI_DEV hdr) 0 c)
  else
  let c := conf_set_bars (-1) (-1) c in
  let fail (r : world * Z) :=
    OpenReturned (fst r) (mk_open_result (snd r) 0 c) in
  if negb (xdev_find_by_pdev w p =? NULL)
  then fail (w, QDMA_ERR_PCI_DEVICE_ALREADY_ATTACHED hdr)
  else
  let '(w, rv) := pci_request_regions p w in
  if negb (rv =? 0) then fail (w, rv)
  else
  let '(w, rv) := pci_enable_device p w in
  if negb (rv =? 0) then fail (open_release_regions p rv w)
  else
  let w := pci_enable_relaxed_ordering p w in
  let w := pci_set_master p w in
  let '(w, rv) := pci_dma_mask_set p w in
  if negb (rv =? 0) then fail (open_disable_device p rv w)
  else
  let '(w, xdev) := open_create mn c w in
  if xdev =? NULL then fail (open_disable_device p rv w)
  else
  let w :=
    store xdev
      (fun x =>
         set_conf
           (conf_set_name
              (chars "qdma" ++ fmt_x 5 (bdf (conf x)) ++ chars "-p"
                 ++ chars (dev_name (pci_dev_at pf (pdev (conf x)))))
              (conf x)) x)
      w in
  let '(w, rv) := xdev_map_bars xdev p w in
  if negb (rv =? 0) then fail (open_unmap_bars xdev p rv w)
  else
  let w := program_stm_port_map xdev w in
  let w :=
    match build with
    | QDMA_VF => w
    | QDMA_PF _ => qdma_device_attributes_get xdev w
    end in
  if match build with
     | QDMA_VF => false
     | QDMA_PF _ =>
         (mm_mode_en (mem w xdev) =? 0) && (st_mode_en (mem w xdev) =? 0)
     end
  then
    fail (open_unmap_bars xdev p
            (QDMA_ERR_INTERFACE_NOT_ENABLED_IN_DEVICE hdr) w)
  else OpenReady w p xdev (conf (mem w xdev))
  end.

(** [qdma_device_open]: the setup, then lines 668 to 696. *)
Definition qdma_device_open (mod_name : option (list ascii))
           (c : qdma_dev_conf) (w : world)
  : world * open_result :=
  match open_setup mod_name c w with
  | OpenReturned w res => (w, res)
  | OpenReady w p xdev c =>
      let '(w, rv) := qdma_device_online p xdev w in
      if rv <? 0
      then (fst (open_cleanup_qdma xdev p rv w), mk_open_result rv 0 c)
      else (w, mk_open_result (QDMA_OPERATION_SUCCESSFUL hdr) xdev c)
  end.

Definition qdma_device_close (p : ptr) (dev_hndl : Z) (w : world) : world :=
  let xdev := dev_hndl in
  if dev_hndl =? 0 then w
  else if xdev_check_hndl w p dev_hndl <? 0 then w
  else
    let w := qdma_device_offline p dev_hndl w in
    let w := xdev_unmap_bars xdev p w in
    let w := pci_release_regions p w in
    let w := pci_disable_device p w in
    let w := xdev_list_remove xdev w in
    kfree xdev w.

(** *** Configuration access *)

(** [qdma_device_get_config]: the return value and the caller's [*conf]
    after the call. *)
Definition qdma_device_get_config (dev_hndl : Z) (conf_out : qdma_dev_conf)
           (w : world) : Z * qdma_dev_conf :=
  let xdev := dev_hndl in
  if xdev_check_hndl w (pdev (conf (mem w xdev))) dev_hndl <? 0
  then (- EINVAL, conf_out)
  else (0, conf (mem w xdev)).

Definition qdma_device_set_config (dev_hndl : Z)
           (conf_in : option qdma_dev_conf) (w : world) : world * Z :=
  let xdev := dev_hndl in
  match conf_in with
  | None => (w, - EINVAL)
  | Some c =>
      if xdev_check_hndl w (pdev (conf (mem w xdev))) dev_hndl <? 0
      then (w, - EINVAL)
      else (store xdev (set_conf c) w, 0)
  end.

(** [new_cfg_state] is an [enum cfg_state], compared with [CFG_USER] as
    an unsigned value. *)
Definition qdma_device_set_cfg_state (dev_hndl : Z) (new_cfg_state : Z)
           (w : world) : world * Z :=
  let xdev := dev_hndl in
  let new_cfg_state := enum_of_int new_cfg_state in
  if new_cfg_state >? CFG_USER hdr then (w, - EINVAL)
  else if xdev_check_hndl w (pdev (conf (mem w xdev))) dev_hndl <? 0
  then (w, - EINVAL)
  else
    (store xdev
       (fun x => set_conf (conf_set_cur_cfg_state new_cfg_state (conf x)) x)
       w, 0).

End Xdev.

(** ** Vocabulary of the statements *)

(** The bus reference an object stores: [xdev->conf.pdev]. *)
Definition stored_pdev (w : world) (a : ptr) : ptr := pdev (conf (mem w a)).

(** [a] is the first entry of the list, in list order, that stores the
    bus reference [p]. *)
Definition first_storing (w : world) (p a : ptr) : Prop :=
  exists l1 l2,
    xdev_list w = l1 ++ a :: l2 /\
    stored_pdev w a = p /\
    forall b, In b l1 -> stored_pdev w b <> p.

(** The list holds real objects, each with a bus reference of its own. *)
Definition registry_ok (w : world) : Prop :=
  ~ In NULL (xdev_list w) /\
  (forall a, In a (xdev_list w) -> stored_pdev w a <> NULL) /\
  (forall a b, In a (xdev_list w) -> In b (xdev_list w) ->
               stored_pdev w a = stored_pdev w b -> a = b).

(** A snapshot that can be stored in the object [hndl]: it names a bus
    reference, and no other object on the list stores that reference. *)
Definition valid_snapshot (w : world) (hndl : Z) (x : qdma_dev_conf) : Prop :=
  pdev x <> NULL /\
  forall b, In b (xdev_list w) -> b <> hndl -> stored_pdev w b <> pdev x.

(** The offline flag of an object. *)
Definition offline (hdr : header) (w : world) (a : ptr) : bool :=
  xdev_flag_check (mem w a) (XDEV_FLAG_OFFLINE hdr).

(** Every component of the world but the memory is the same. *)
Definition same_platform_state (w w' : world) : Prop :=
  xdev_list w' = xdev_list w /\ pci_regions w' = pci_regions w /\
  pci_enabled w' = pci_enabled w /\ iomapped w' = iomapped w /\
  trace w' = trace w.

(** [xdev->conf.idx = i] *)
Definition upd_idx (i : Z) (x : xlnx_dma_dev) : xlnx_dma_dev :=
  set_conf (conf_set_idx i (conf x)) x.

(** The loop of [xdev_list_add] seen on its locals alone: the index
    being computed, [last_bus] and [last_dev]; [new_slot] is the slot of
    the device being added and [_pd] the [pci_dev] of the entry visited. *)
Definition scan_step (build : build_cfg) (new_slot : Z) (acc : Z * Z * Z)
           (_pd : pci_dev) : Z * Z * Z :=
  let '(i, last_bus, last_dev) := acc in
  let i := if different_card build last_bus last_dev _pd then 0 else i in
  (u32 (i + 1), bus_number _pd, new_slot).

(** The [pci_dev] behind the bus reference an object stores. *)
Definition pd_of (pf : platform) (w : world) (a : ptr) : pci_dev :=
  pci_dev_at pf (stored_pdev w a).

(** The device [pd] sits on the card at bus [b], slot [s]; the virtual
    function driver tells cards apart by the bus alone.  [slot_ok] is the
    condition under which a slot value kept in [last_dev] matches the
    card. *)
Definition card_ok (build : build_cfg) (b s : Z) (pd : pci_dev) : Prop :=
  bus_number pd = b /\
  match build with
  | QDMA_VF => True
  | QDMA_PF _ => PCI_SLOT (devfn pd) = s
  end.

Definition slot_ok (build : build_cfg) (s v : Z) : Prop :=
  match build with
  | QDMA_VF => True
  | QDMA_PF _ => v = s
  end.

(** The device behind the object [a] sits on the card at bus [b], slot
    [s]. *)
Definition on_card (build : build_cfg) (pf : platform) (b s : Z) (w : world)
           (a : ptr) : Prop :=
  card_ok build b s (pd_of pf w a).

(** The first pass over a card at bus [b], slot [s] starts the count
    afresh: [last_bus] and [last_dev] start at 0. *)
Definition first_pass_resets (build : build_cfg) (b s : Z) : Prop :=
  match build with
  | QDMA_VF => b <> 0
  | QDMA_PF _ => b <> 0 \/ s <> 0
  end.

(** The objects at the addresses [l] are put on the list one after the
    other. *)
Definition insert_all (hdr : header) (build : build_cfg) (pf : platform)
           (l : list ptr) (w : world) : world :=
  fold_left (fun w a => xdev_list_add hdr build pf a w) l w.

(** The [pci_iomap] cookies an object holds in [regs] and [stm_regs],
    the one mapped last first. *)
Definition cookies (r s : ptr) : list ptr :=
  (if s =? NULL then [] else [s]) ++ (if r =? NULL then [] else [r]).

(** [w] is [w0] with the resources [qdma_device_open] holds for the
    device [p] once its object [xdev] is on the list: the regions, the
    enabled device, the list entry and the bars recorded in the object. *)
Definition held (w0 : world) (p xdev : ptr) (w : world) : Prop :=
  xdev_list w = xdev_list w0 ++ [xdev] /\
  pci_regions w = p :: pci_regions w0 /\
  pci_enabled w = p :: pci_enabled w0 /\
  iomapped w
  = cookies (regs (mem w xdev)) (stm_regs (mem w xdev)) ++ iomapped w0 /\
  forall b, b <> xdev -> mem w b = mem w0 b.

(** [w] has the list, the regions, the enabled devices and the mappings
    of [w0], and the memory of [w0] outside [xdev]. *)
Definition restored (w0 : world) (xdev : ptr) (w : world) : Prop :=
  xdev_list w = xdev_list w0 /\
  pci_regions w = pci_regions w0 /\
  pci_enabled w = pci_enabled w0 /\
  iomapped w = iomapped w0 /\
  forall b, b <> xdev -> mem w b = mem w0 b.

(** The error codes of the library are negative. *)
Definition header_errors_negative (hdr : header) : Prop :=
  QDMA_ERR_INVALID_INPUT_PARAM hdr < 0 /\
  QDMA_ERR_INVALID_PCI_DEV hdr < 0 /\
  QDMA_ERR_PCI_DEVICE_ALREADY_ATTACHED hdr < 0 /\
  QDMA_ERR_INTERFACE_NOT_ENABLED_IN_DEVICE hdr < 0.

(** The PCI core answers 0 or a negative errno. *)
Definition errno_convention (pf : platform) : Prop :=
  forall p, pci_request_regions_rv pf p <= 0 /\ pci_enable_device_rv pf p <= 0.

(** ** Sample header, platform and worlds *)

Definition sample_header : header :=
  {| PCI_SHIFT_BUS := 12;
     PCI_SHIFT_DEV := 4;
     CFG_UNCONFIGURED := 0;
     CFG_USER := 2;
     XDEV_FLAG_OFFLINE := 1;
     QDMA_CONFIG_BAR := 0;
     QDMA_MAX_BAR_LEN_MAPPED := 4096;
     QDMA_DEV_NAME_MAXLEN := 32;
     STM_BAR := 2;
     STM_ENABLED_DEVICE := 0x6aa0;
     STM_REG_BASE := 0x02000000;
     STM_REG_REV := 0x18;
     STM_REG_H2C_MODE := 0x30;
     STM_SUPPORTED_REV := 0xFF;
     STM_PORT_MAP := 0xE1E1;
     QDMA_OPERATION_SUCCESSFUL := 0;
     QDMA_ERR_INVALID_INPUT_PARAM := -5;
     QDMA_ERR_INVALID_PCI_DEV := -6;
     QDMA_ERR_PCI_DEVICE_ALREADY_ATTACHED := -2;
     QDMA_ERR_INTERFACE_NOT_ENABLED_IN_DEVICE := -17 |}.

(** The [pci_dev] at address [1000 * bus + 10 * slot + function]. *)
Definition sample_pci_dev (p : ptr) : pci_dev :=
  {| bus_number := p / 1000;
     devfn := ((p / 10) mod 100) * 8 + p mod 10;
     device := 0x903f;
     dev_name := "0000:01:00.0" |}.

(** A platform on which every call succeeds; [kzalloc] returns [a]. *)
Definition sample_platform (a : ptr) : platform :=
  {| pci_dev_at := sample_pci_dev;
     pci_request_regions_rv := fun _ => 0;
     pci_enable_device_rv := fun _ => 0;
     pci_set_dma_mask_rv := fun _ _ => 0;
     kzalloc_rv := a;
     pci_resource_len_rv := fun _ _ => 65536;
     pci_iomap_rv := fun p bar _ => p + 100 + bar;
     readl_rv := fun _ => 0x1FD30000;
     attributes_rv := fun _ => (1, 1, 1);
     qdma_device_init_rv := fun _ => 0;
     xdev_sriov_vf_online_rv := fun _ => 0;
     xdev_sriov_enable_rv := fun _ _ => 0 |}.

Definition empty_world : world :=
  {| mem := fun _ => zero_xdev;
     xdev_list := [];
     pci_regions := [];
     pci_enabled := [];
     iomapped := [];
     trace := [] |}.

(** The configuration a caller passes to open for the device [p]. *)
Definition sample_conf (p : ptr) : qdma_dev_conf :=
  {| pdev := p; bdf := 0; idx := 0; bar_num_config := 0; bar_num_user := 0;
     qsets_max := 8; vf_max := 0; cur_cfg_state := 0; name := [] |}.

(** The world after the device [p] has been opened from [w], its object
    placed at [a]. *)
Definition opened (a p : ptr) (w : world) : world :=
  fst (qdma_device_open sample_header (QDMA_PF true) (sample_platform a)
         (Some (chars "qdma_pf")) (sample_conf p) w).

Definition one_device : world := opened 5000 1000 empty_world.
Definition two_devices : world := opened 6000 1001 one_device.

(** The object of the device [p] at [a], as [xdev_alloc] leaves it when
    the caller's configuration has [i0] in its index field, put on the
    list. *)
Definition attach (build : build_cfg) (a p i0 : Z) (w : world) : world :=
  xdev_list_add sample_header build (sample_platform a) a
    (fst (xdev_alloc (sample_platform a) (conf_set_idx i0 (sample_conf p)) w)).

(** Three objects, none on the list: two functions of the card at bus
    1, slot 0, and a device on bus 2. *)
Definition three_objects : world :=
  fst (xdev_alloc (sample_platform 7000) (sample_conf 2000)
    (fst (xdev_alloc (sample_platform 6000) (sample_conf 1001)
      (fst (xdev_alloc (sample_platform 5000) (sample_conf 1000)
         empty_world))))).

(** The sample platform with [qdma_device_init] failing. *)
Definition init_fails (a : ptr) : platform :=
  {| pci_dev_at := sample_pci_dev;
     pci_request_regions_rv := fun _ => 0;
     pci_enable_device_rv := fun _ => 0;
     pci_set_dma_mask_rv := fun _ _ => 0;
     kzalloc_rv := a;
     pci_resource_len_rv := fun _ _ => 65536;
     pci_iomap_rv := fun p bar _ => p + 100 + bar;
     readl_rv := fun _ => 0x1FD30000;
     attributes_rv := fun _ => (1, 1, 1);
     qdma_device_init_rv := fun _ => -5;
     xdev_sriov_vf_online_rv := fun _ => 0;
     xdev_sriov_enable_rv := fun _ _ => 0 |}.

(** The sample platform with [xdev_sriov_vf_online] failing. *)
Definition vf_online_fails (a : ptr) : platform :=
  {| pci_dev_at := sample_pci_dev;
     pci_request_regions_rv := fun _ => 0;
     pci_enable_device_rv := fun _ => 0;
     pci_set_dma_mask_rv := fun _ _ => 0;
     kzalloc_rv := a;
     pci_resource_len_rv := fun _ _ => 65536;
     pci_iomap_rv := fun p bar _ => p + 100 + bar;
     readl_rv := fun _ => 0x1FD30000;
     attributes_rv := fun _ => (1, 1, 1);
     qdma_device_init_rv := fun _ => 0;
     xdev_sriov_vf_online_rv := fun _ => -16;
     xdev_sriov_enable_rv := fun _ _ => 0 |}.

(** The sample platform with [kzalloc] failing. *)
Definition kzalloc_fails : platform := sample_platform NULL.

(** The object of the device 1000 as lines 628 to 636 of
    [qdma_device_open] create it in the virtual function driver. *)
Definition created : world :=
  fst (open_create sample_header QDMA_VF (sample_platform 5000)
         (chars "qdma_vf") (sample_conf 1000) empty_world).

(** The world a stage of [qdma_device_open] stands in. *)
Definition stage_world (s : open_stage) : world :=
  match s with
  | OpenReturned w _ => w
  | OpenReady w _ _ _ => w
  end.

(** The device 1000 set up by [qdma_device_open] on the platform whose
    [qdma_device_init] fails: the world in which online is called. *)
Definition ready_to_fail : world :=
  stage_world
    (open_setup sample_header (QDMA_PF true) (init_fails 5000)
       (Some (chars "qdma_pf")) (sample_conf 1000) empty_world).

(** ** Further vocabulary *)

(** The bus address [xdev_list_add] computes for a device: bus, slot and
    function packed into one word. *)
Definition pci_bdf (hdr : header) (pd : pci_dev) : Z :=
  u32 (Z.lor (Z.lor (Z.shiftl (bus_number pd) (PCI_SHIFT_BUS hdr))
                    (Z.shiftl (PCI_SLOT (devfn pd)) (PCI_SHIFT_DEV hdr)))
             (PCI_FUNC (devfn pd))).

(** The bus address an object stores: [xdev->conf.bdf]. *)
Definition stored_bdf (w : world) (a : ptr) : Z := bdf (conf (mem w a)).

(** The lines [xdev_list_dump] prints for the entries [l], one after the
    other. *)
Definition dump_lines (pf : platform) (w : world) (l : list ptr)
  : list ascii :=
  List.concat (map (fun a => dump_line pf (mem w a)) l).

(** The fields of an object fit the widths of the format: five hex digits
    of bus address, a byte of bus number. *)
Definition fits_format (pf : platform) (x : xlnx_dma_dev) : Prop :=
  0 <= bdf (conf x) < 2 ^ 20
  /\ 0 <= bus_number (pci_dev_at pf (pdev (conf x))) < 256.


(** The length [xdev_map_bars] asks [pci_iomap] for on the config bar:
    the resource length as the [int] [map_len] holds it, replaced by
    [QDMA_MAX_BAR_LEN_MAPPED] when it is above that; and the length it
    asks for on the STM bar. *)
Definition config_map_len (hdr : header) (pf : platform) (p : ptr) : Z :=
  if i32 (pci_resource_len_rv pf p (QDMA_CONFIG_BAR hdr))
     >? QDMA_MAX_BAR_LEN_MAPPED hdr
  then QDMA_MAX_BAR_LEN_MAPPED hdr
  else i32 (pci_resource_len_rv pf p (QDMA_CONFIG_BAR hdr)).

Definition stm_map_len (hdr : header) (pf : platform) (p : ptr) : Z :=
  i32 (pci_resource_len_rv pf p (STM_BAR hdr)).

(** What the platform answers to the calls of [xdev_map_bars] for the
    device [p]: the cookie of the config bar, whether its identification
    word carries the signature (the virtual function driver does not
    look), the cookie of the STM bar and the revision word read there. *)
Definition config_cookie (hdr : header) (pf : platform) (p : ptr) : ptr :=
  pci_iomap_rv pf p (QDMA_CONFIG_BAR hdr) (config_map_len hdr pf p).

Definition signature_ok (hdr : header) (build : build_cfg) (pf : platform)
           (p : ptr) : bool :=
  match build with
  | QDMA_VF => true
  | QDMA_PF _ =>
      Z.land (u32 (readl_rv pf (config_cookie hdr pf p))) 0xFFFF0000
      =? 0x1FD30000
  end.

Definition stm_cookie (hdr : header) (pf : platform) (p : ptr) : ptr :=
  pci_iomap_rv pf p (STM_BAR hdr) (stm_map_len hdr pf p).

Definition stm_rev_word (hdr : header) (pf : platform) (p : ptr) : Z :=
  u32 (readl_rv pf (stm_cookie hdr pf p + STM_REG_BASE hdr + STM_REG_REV hdr)).

Definition is_stm_device (hdr : header) (pf : platform) (p : ptr) : bool :=
  device (pci_dev_at pf p) =? STM_ENABLED_DEVICE hdr.

(** The sample platform with a config bar that does not carry the
    signature. *)
Definition no_signature (a : ptr) : platform :=
  {| pci_dev_at := sample_pci_dev;
     pci_request_regions_rv := fun _ => 0;
     pci_enable_device_rv := fun _ => 0;
     pci_set_dma_mask_rv := fun _ _ => 0;
     kzalloc_rv := a;
     pci_resource_len_rv := fun _ _ => 65536;
     pci_iomap_rv := fun p bar _ => p + 100 + bar;
     readl_rv := fun _ => 0x10EE0000;
     attributes_rv := fun _ => (1, 1, 1);
     qdma_device_init_rv := fun _ => 0;
     xdev_sriov_vf_online_rv := fun _ => 0;
     xdev_sriov_enable_rv := fun _ _ => 0 |}.

(** A platform whose devices have STM: the STM bar maps to [stm] (NULL
    when it cannot be mapped) and its revision register reads [rev]. *)
Definition stm_platform (a stm rev : Z) : platform :=
  {| pci_dev_at :=
       fun p => {| bus_number := p / 1000;
                   devfn := ((p / 10) mod 100) * 8 + p mod 10;
                   device := 0x6aa0;
                   dev_name := "0000:01:00.0" |};
     pci_request_regions_rv := fun _ => 0;
     pci_enable_device_rv := fun _ => 0;
     pci_set_dma_mask_rv := fun _ _ => 0;
     kzalloc_rv := a;
     pci_resource_len_rv := fun _ _ => 65536;
     pci_iomap_rv := fun p bar _ => if bar =? 2 then stm else p + 100 + bar;
     readl_rv := fun addr => if addr <? 0x02000000 then 0x1FD30000 else rev;
     attributes_rv := fun _ => (1, 1, 1);
     qdma_device_init_rv := fun _ => 0;
     xdev_sriov_vf_online_rv := fun _ => 0;
     xdev_sriov_enable_rv := fun _ _ => 0 |}.

(** [w'] differs from [w] in the flag word of the object [h] and in the
    trace at most. *)
Definition only_flags (h : ptr) (w w' : world) : Prop :=
  xdev_list w' = xdev_list w /\ pci_regions w' = pci_regions w /\
  pci_enabled w' = pci_enabled w /\ iomapped w' = iomapped w /\
  (forall a, a <> h -> mem w' a = mem w a) /\
  exists f, mem w' h = set_flags f (mem w h).

(** The step of [qdma_device_online] that depends on the role of the
    driver succeeds: the virtual function goes online, or the physical
    function enables the virtual functions asked for, if any. *)
Definition role_step_ok (build : build_cfg) (pf : platform) (w : world)
           (h : ptr) : Prop :=
  match build with
  | QDMA_VF => 0 <= xdev_sriov_vf_online_rv pf h
  | QDMA_PF true =>
      vf_max (conf (mem w h)) = 0
      \/ 0 <= xdev_sriov_enable_rv pf h (vf_max (conf (mem w h)))
  | QDMA_PF false => True
  end.

(** The calls [qdma_device_offline] makes for a valid handle. *)
Definition offline_calls (build : build_cfg) (h : ptr) : list event :=
  match build with
  | QDMA_VF => [EvSriovVfOffline h]
  | QDMA_PF true => [EvSriovDisable h]
  | QDMA_PF false => []
  end ++ [EvDeviceCleanup h; EvMboxCleanup h].
(** * Properties *)

(** ** Memory and list bookkeeping *)

Lemma mem_store a f w b :
  mem (store a f w) b = if b =? a then f (mem w a) else mem w b.
Proof. reflexivity. Qed.

Lemma mem_store_same a f w : mem (store a f w) a = f (mem w a).
Proof. rewrite mem_store, Z.eqb_refl. reflexivity. Qed.

Lemma mem_store_other a f w b : b <> a -> mem (store a f w) b = mem w b.
Proof.
  intros Hne. rewrite mem_store.
  destruct (Z.eqb_spec b a); [contradiction | reflexivity].
Qed.

Lemma enum_of_int_nonneg s : 0 <= s -> enum_of_int s = s.
Proof.
  intros Hs. unfold enum_of_int.
  destruct (Z.ltb_spec s 0); [lia | reflexivity].
Qed.

Lemma enum_of_int_neg s : - 2 ^ 32 <= s < 0 -> enum_of_int s = s + 2 ^ 32.
Proof.
  intros Hs. unfold enum_of_int, u32.
  destruct (Z.ltb_spec s 0); [| lia].
  replace s with (s + 2 ^ 32 + (-1) * 2 ^ 32) at 1 by ring.
  rewrite Z.mod_add by lia. apply Z.mod_small. lia.
Qed.

Lemma i32_small z : - 2 ^ 31 <= z < 2 ^ 31 -> i32 z = z.
Proof. intros Hz. unfold i32. rewrite Z.mod_small; lia. Qed.

Lemma i32_high z : 2 ^ 31 <= z < 2 ^ 32 -> i32 z = z - 2 ^ 32.
Proof.
  intros Hz. unfold i32.
  replace (z + 2 ^ 31) with (z - 2 ^ 31 + 1 * 2 ^ 32) by ring.
  rewrite Z.mod_add by lia. rewrite Z.mod_small; lia.
Qed.

Lemma remove_one_head a l : remove_one a (a :: l) = l.
Proof. simpl. rewrite Z.eqb_refl. reflexivity. Qed.

Lemma remove_one_absent a l : ~ In a l -> remove_one a l = l.
Proof.
  induction l as [| b l IH]; simpl; intros Hni; [reflexivity |].
  destruct (Z.eqb_spec b a) as [-> | Hne].
  - exfalso. apply Hni. now left.
  - f_equal. apply IH. intros Hin. apply Hni. now right.
Qed.

Lemma remove_one_snoc a l : ~ In a l -> remove_one a (l ++ [a]) = l.
Proof.
  induction l as [| b l IH]; simpl; intros Hni.
  - now rewrite Z.eqb_refl.
  - destruct (Z.eqb_spec b a) as [-> | Hne].
    + exfalso. apply Hni. now left.
    + f_equal. apply IH. intros Hin. apply Hni. now right.
Qed.

(** ** Lookup by bus reference *)

Lemma find_by_pdev_from_cases m l p :
  (find_by_pdev_from m l p = NULL /\
   forall a, In a l -> a <> NULL -> pdev (conf (m a)) <> p)
  \/
  (exists l1 l2,
      l = l1 ++ find_by_pdev_from m l p :: l2 /\
      pdev (conf (m (find_by_pdev_from m l p))) = p /\
      forall b, In b l1 -> pdev (conf (m b)) <> p).
Proof.
  induction l as [| a l IH]; simpl.
  - left. split; [reflexivity | intros a []].
  - destruct (Z.eqb_spec (pdev (conf (m a))) p) as [Heq | Hne].
    + right. exists [], l. simpl. repeat split; [assumption | intros b []].
    + destruct IH as [[Hnull Hall] | (l1 & l2 & Hl & Hst & Hbefore)].
      * left. split; [assumption |].
        intros b [<- | Hin] Hb; [assumption | now apply Hall].
      * right. exists (a :: l1), l2. simpl. repeat split.
        -- now rewrite <- Hl.
        -- assumption.
        -- intros b [<- | Hin]; [assumption | now apply Hbefore].
Qed.

Lemma first_storing_unique w p a b :
  first_storing w p a -> first_storing w p b -> a = b.
Proof.
  intros (l1 & l2 & Hl & Ha & Hbefore) (k1 & k2 & Hk & Hb & Hbefore').
  rewrite Hl in Hk. clear Hl.
  revert k1 Hk Hbefore'.
  induction l1 as [| c l1 IH]; intros [| d k1] Hk Hbefore'; simpl in Hk.
  - congruence.
  - injection Hk as <- _. exfalso. apply (Hbefore' a); [now left | assumption].
  - injection Hk as -> _. exfalso. apply (Hbefore b); [now left | assumption].
  - injection Hk as <- Hk. apply (IH (fun x Hx => Hbefore x (or_intror Hx)) k1 Hk).
    intros x Hx. apply Hbefore'. now right.
Qed.

Lemma first_storing_In w p a : first_storing w p a -> In a (xdev_list w).
Proof.
  intros (l1 & l2 & Hl & _ & _). rewrite Hl. apply in_or_app. right. now left.
Qed.

Lemma xdev_find_by_pdev_cases w p :
  (xdev_find_by_pdev w p = NULL /\
   forall a, In a (xdev_list w) -> a <> NULL -> stored_pdev w a <> p)
  \/ first_storing w p (xdev_find_by_pdev w p).
Proof.
  unfold xdev_find_by_pdev, first_storing, stored_pdev.
  destruct (find_by_pdev_from_cases (mem w) (xdev_list w) p) as [H | H];
    [left | right]; exact H.
Qed.

Lemma xdev_find_by_pdev_first w p a :
  first_storing w p a -> xdev_find_by_pdev w p = a.
Proof.
  intros Hfirst.
  destruct (xdev_find_by_pdev_cases w p) as [[Hnull Hall] | Hfound].
  - destruct (Z.eq_dec a NULL) as [-> | Hne]; [assumption |].
    exfalso. apply (Hall a); [now apply (first_storing_In w p) | assumption |].
    now destruct Hfirst as (_ & _ & _ & Hst & _).
  - now apply (first_storing_unique w p).
Qed.

Lemma xdev_check_hndl_values w p hndl :
  xdev_check_hndl w p hndl = 0 \/ xdev_check_hndl w p hndl = - EINVAL.
Proof.
  unfold xdev_check_hndl.
  repeat match goal with
         | |- context [if ?c then _ else _] => destruct c
         end; auto.
Qed.

Lemma xdev_check_hndl_ok w p hndl :
  xdev_check_hndl w p hndl = 0 <->
  p <> NULL /\ hndl <> NULL /\ xdev_find_by_pdev w p = hndl.
Proof.
  unfold xdev_check_hndl.
  destruct (Z.eqb_spec p NULL) as [Hp | Hp].
  { split; [discriminate | intros (H & _); contradiction]. }
  destruct (Z.eqb_spec (xdev_find_by_pdev w p) NULL) as [Hf | Hf].
  { split; [discriminate | intros (_ & Hh & Hfh); congruence]. }
  destruct (Z.eqb_spec (xdev_find_by_pdev w p) hndl) as [Hid | Hid]; simpl.
  2: { split; [discriminate | intros (_ & _ & Hfh); contradiction]. }
  destruct (xdev_find_by_pdev_cases w p) as [[Hnull _] | Hfirst];
    [contradiction |].
  destruct Hfirst as (_ & _ & _ & Hst & _). unfold stored_pdev in Hst.
  rewrite Hst, Z.eqb_refl. simpl.
  split; [intros _; repeat split; congruence | reflexivity].
Qed.

Lemma xdev_check_hndl_neg w p hndl :
  (xdev_check_hndl w p hndl <? 0) = false <-> xdev_check_hndl w p hndl = 0.
Proof.
  destruct (xdev_check_hndl_values w p hndl) as [-> | ->];
    split; intros H; try reflexivity; discriminate.
Qed.

(** ** Handle validation *)

(** C5, as amended: [xdev_check_hndl] returns 0 exactly when the bus
    reference is not NULL, the list holds a device storing it, the handle
    is the address of the device the lookup yields (the first such device
    in list order) and that device stores the supplied reference;
    otherwise it returns -EINVAL.  A NULL bus reference, no device storing the reference, a
    handle other than the device found, and a handle whose object stores
    another bus reference are each rejected. *)
Theorem xdev_check_hndl_spec :
  forall (w : world) (p : ptr) (hndl : Z),
    (xdev_check_hndl w p hndl = 0 <->
     p <> NULL /\
     exists xdev, xdev <> NULL /\ first_storing w p xdev /\
                  hndl = xdev /\ stored_pdev w xdev = p)
    /\ (xdev_check_hndl w p hndl <> 0 -> xdev_check_hndl w p hndl = - EINVAL)
    /\ (p = NULL -> xdev_check_hndl w p hndl = - EINVAL)
    /\ ((forall a, In a (xdev_list w) -> stored_pdev w a <> p) ->
        xdev_check_hndl w p hndl = - EINVAL)
    /\ (forall xdev, first_storing w p xdev -> hndl <> xdev ->
                     xdev_check_hndl w p hndl = - EINVAL)
    /\ (stored_pdev w hndl <> p -> xdev_check_hndl w p hndl = - EINVAL).
Proof.
  intros w p hndl.
  assert (Hrej : xdev_check_hndl w p hndl <> 0 ->
                 xdev_check_hndl w p hndl = - EINVAL).
  { destruct (xdev_check_hndl_values w p hndl); [contradiction | auto]. }
  split; [| split; [exact Hrej | repeat split]].
  - rewrite xdev_check_hndl_ok. split.
    + intros (Hp & Hh & Hfind). split; [assumption |].
      exists hndl. split; [assumption |].
      destruct (xdev_find_by_pdev_cases w p) as [[Hnull _] | Hfirst];
        [congruence |].
      rewrite Hfind in Hfirst. repeat split; try assumption.
      now destruct Hfirst as (_ & _ & _ & Hst & _).
    + intros (Hp & xdev & Hx & Hfirst & -> & _).
      repeat split; try assumption. now apply xdev_find_by_pdev_first.
  - intros Hp. apply Hrej. rewrite xdev_check_hndl_ok. tauto.
  - intros Hnone. apply Hrej. rewrite xdev_check_hndl_ok.
    intros (_ & Hh & Hfind).
    destruct (xdev_find_by_pdev_cases w p) as [[Hnull _] | Hfirst];
      [congruence |].
    apply (Hnone (xdev_find_by_pdev w p)).
    + now apply (first_storing_In w p).
    + now destruct Hfirst as (_ & _ & _ & Hst & _).
  - intros xdev Hfirst Hne. apply Hrej. rewrite xdev_check_hndl_ok.
    intros (_ & _ & Hfind).
    apply Hne. rewrite <- Hfind. now apply xdev_find_by_pdev_first.
  - intros Hst. apply Hrej. rewrite xdev_check_hndl_ok.
    intros (_ & Hh & Hfind).
    destruct (xdev_find_by_pdev_cases w p) as [[Hnull _] | Hfirst];
      [congruence |].
    rewrite Hfind in Hfirst. now destruct Hfirst as (_ & _ & _ & Hst' & _).
Qed.

Lemma two_devices_list : xdev_list two_devices = [5000; 6000].
Proof. vm_compute. reflexivity. Qed.

Lemma xdev_check_hndl_spec_witness :
  xdev_check_hndl two_devices 1001 6000 = 0
  /\ xdev_check_hndl two_devices NULL 6000 = - EINVAL
  /\ xdev_check_hndl two_devices 2000 6000 = - EINVAL
  /\ xdev_check_hndl two_devices 1001 5000 = - EINVAL
  /\ xdev_check_hndl two_devices 1000 6000 = - EINVAL.
Proof.
  assert (Hfirst : first_storing two_devices 1001 6000).
  { exists [5000], []. split; [vm_compute; reflexivity |].
    split; [vm_compute; reflexivity |].
    intros b [<- | []]. vm_compute. discriminate. }
  split; [| split; [| split; [| split]]].
  - apply (proj1 (xdev_check_hndl_spec two_devices 1001 6000)).
    split; [discriminate |].
    exists 6000. split; [discriminate |]. split; [exact Hfirst |].
    split; [reflexivity | vm_compute; reflexivity].
  - destruct (xdev_check_hndl_spec two_devices NULL 6000)
      as (_ & _ & Hnull & _).
    apply Hnull. reflexivity.
  - destruct (xdev_check_hndl_spec two_devices 2000 6000)
      as (_ & _ & _ & Hnone & _).
    apply Hnone. intros a Ha. rewrite two_devices_list in Ha.
    destruct Ha as [<- | [<- | []]]; vm_compute; discriminate.
  - destruct (xdev_check_hndl_spec two_devices 1001 5000)
      as (_ & _ & _ & _ & Hid & _).
    apply (Hid 6000); [exact Hfirst | discriminate].
  - destruct (xdev_check_hndl_spec two_devices 1000 6000)
      as (_ & _ & _ & _ & _ & Hst).
    apply Hst. vm_compute. discriminate.
Defined.

(** C5, as stated, fails once two entries store the same bus reference:
    after [qdma_device_set_config] has given the device 6000 the
    reference 1000 of the device 5000, the reference is not NULL, the
    device 6000 is on the list, stores the reference and is the handle
    presented, and validation turns the handle down, for the lookup
    yields the device 5000. *)
Lemma xdev_check_hndl_counterexample :
  let w := fst (qdma_device_set_config 6000 (Some (sample_conf 1000))
                  two_devices) in
  1000 <> NULL
  /\ In 6000 (xdev_list w)
  /\ stored_pdev w 6000 = 1000
  /\ xdev_find_by_pdev w 1000 = 5000
  /\ xdev_check_hndl w 1000 6000 = - EINVAL.
Proof.
  vm_compute.
  split; [discriminate | split; [right; left; reflexivity |]].
  repeat split.
Qed.

(** ** Null handles *)

(** C9: with a null handle, online returns -EINVAL, and offline and close
    return, whatever the bus reference and the state of the registry are;
    the world is left as it was: no store, no call into a collaborator. *)
Theorem null_handle_returns_at_once :
  forall (hdr : header) (build : build_cfg) (pf : platform)
         (p : ptr) (w : world),
    qdma_device_online hdr build pf p 0 w = (w, - EINVAL)
    /\ qdma_device_offline hdr build p 0 w = w
    /\ qdma_device_close hdr build p 0 w = w.
Proof. intros. repeat split. Qed.

(** ** Configuration access *)

Lemma check_hndl_registered w p hndl :
  xdev_check_hndl w p hndl = 0 ->
  hndl <> NULL /\ first_storing w p hndl.
Proof.
  intros Hok. apply xdev_check_hndl_ok in Hok as (Hp & Hh & Hfind).
  split; [assumption |].
  destruct (xdev_find_by_pdev_cases w p) as [[Hnull _] | Hfirst];
    [congruence | now rewrite Hfind in Hfirst].
Qed.

Lemma check_hndl_own_pdev w hndl :
  registry_ok w -> In hndl (xdev_list w) ->
  xdev_check_hndl w (stored_pdev w hndl) hndl = 0.
Proof.
  intros (Hnonnull & Hrefs & Huniq) Hin.
  apply xdev_check_hndl_ok.
  assert (Hh : hndl <> NULL) by (intros ->; contradiction).
  repeat split; [now apply Hrefs | assumption |].
  destruct (xdev_find_by_pdev_cases w (stored_pdev w hndl))
    as [[_ Hall] | Hfirst].
  - exfalso. now apply (Hall hndl).
  - apply Huniq; [now apply (first_storing_In w (stored_pdev w hndl)) | assumption |].
    now destruct Hfirst as (_ & _ & _ & Hst & _).
Qed.

(** C6: a state above CFG_USER is turned down with -EINVAL for every
    handle, valid or not, and the world is returned as it was; the
    enumeration being unsigned with CFG_UNCONFIGURED as its zero, these
    are all the values outside [CFG_UNCONFIGURED, CFG_USER].  The two
    boundary values are accepted and stored when the handle is valid. *)
Theorem qdma_device_set_cfg_state_range :
  forall (hdr : header) (dev_hndl : Z) (w : world),
    CFG_UNCONFIGURED hdr = 0 ->
    CFG_UNCONFIGURED hdr <= CFG_USER hdr ->
    (forall s, 0 <= s ->
               ~ (CFG_UNCONFIGURED hdr <= s <= CFG_USER hdr) ->
               qdma_device_set_cfg_state hdr dev_hndl s w = (w, - EINVAL))
    /\ (forall s, s = CFG_UNCONFIGURED hdr \/ s = CFG_USER hdr ->
                  xdev_check_hndl w (stored_pdev w dev_hndl) dev_hndl = 0 ->
                  snd (qdma_device_set_cfg_state hdr dev_hndl s w) = 0 /\
                  cur_cfg_state
                    (conf (mem (fst (qdma_device_set_cfg_state hdr dev_hndl s w))
                               dev_hndl)) = s).
Proof.
  intros hdr dev_hndl w Hzero Hle. split.
  - intros s Hs Hout. unfold qdma_device_set_cfg_state.
    rewrite enum_of_int_nonneg by assumption.
    destruct (Z.gtb_spec s (CFG_USER hdr)) as [Hgt | Hngt]; [reflexivity | lia].
  - intros s Hs Hok. unfold qdma_device_set_cfg_state.
    rewrite enum_of_int_nonneg by lia.
    destruct (Z.gtb_spec s (CFG_USER hdr)) as [Hgt | Hngt]; [lia |].
    unfold stored_pdev in Hok. rewrite Hok. simpl.
    rewrite Z.eqb_refl. split; reflexivity.
Qed.

Lemma qdma_device_set_cfg_state_range_witness :
  qdma_device_set_cfg_state sample_header 5000 3 one_device
  = (one_device, - EINVAL)
  /\ snd (qdma_device_set_cfg_state sample_header 5000 2 one_device) = 0
  /\ cur_cfg_state
       (conf (mem (fst (qdma_device_set_cfg_state sample_header 5000 2
                          one_device)) 5000)) = 2.
Proof.
  assert (H0 : CFG_UNCONFIGURED sample_header = 0) by reflexivity.
  assert (Hle : CFG_UNCONFIGURED sample_header <= CFG_USER sample_header)
    by (vm_compute; discriminate).
  destruct (qdma_device_set_cfg_state_range sample_header 5000 one_device
              H0 Hle) as [Hout Hin].
  split.
  - apply Hout; [lia |]. vm_compute. intros [_ H]. apply H. reflexivity.
  - apply Hin; [right; reflexivity | vm_compute; reflexivity].
Defined.

(** C7: through a handle that passes validation, storing a valid snapshot
    with [qdma_device_set_config] and reading it with
    [qdma_device_get_config] gives the snapshot back. *)
Theorem set_config_get_config :
  forall (dev_hndl : Z) (x conf_out : qdma_dev_conf) (w : world),
    xdev_check_hndl w (stored_pdev w dev_hndl) dev_hndl = 0 ->
    valid_snapshot w dev_hndl x ->
    snd (qdma_device_set_config dev_hndl (Some x) w) = 0 /\
    qdma_device_get_config dev_hndl conf_out
      (fst (qdma_device_set_config dev_hndl (Some x) w)) = (0, x).
Proof.
  intros dev_hndl x conf_out w Hok [Hx Hothers].
  unfold qdma_device_set_config.
  pose proof Hok as Hok'. unfold stored_pdev in Hok'. rewrite Hok'. simpl.
  split; [reflexivity |].
  apply check_hndl_registered in Hok as (Hh & l1 & l2 & Hl & Hst & Hbefore).
  unfold qdma_device_get_config.
  rewrite mem_store_same. simpl.
  set (w' := store dev_hndl (set_conf x) w).
  assert (Hcheck : xdev_check_hndl w' (pdev x) dev_hndl = 0).
  { apply xdev_check_hndl_ok. repeat split; [assumption | assumption |].
    apply xdev_find_by_pdev_first.
    exists l1, l2. repeat split.
    - exact Hl.
    - unfold stored_pdev, w'. now rewrite mem_store_same.
    - intros b Hb.
      assert (Hne : b <> dev_hndl).
      { intros ->. now apply (Hbefore dev_hndl). }
      unfold stored_pdev, w'. rewrite mem_store_other by assumption.
      apply Hothers; [| assumption].
      rewrite Hl. apply in_or_app. now left. }
  now rewrite Hcheck.
Qed.

Lemma set_config_get_config_witness :
  snd (qdma_device_set_config 5000
         (Some (conf_set_cur_cfg_state 2 (sample_conf 1000))) one_device) = 0
  /\ qdma_device_get_config 5000 zero_conf
       (fst (qdma_device_set_config 5000
               (Some (conf_set_cur_cfg_state 2 (sample_conf 1000)))
               one_device))
     = (0, conf_set_cur_cfg_state 2 (sample_conf 1000)).
Proof.
  apply (set_config_get_config 5000
           (conf_set_cur_cfg_state 2 (sample_conf 1000)) zero_conf one_device).
  - vm_compute. reflexivity.
  - split; [vm_compute; discriminate |].
    intros b Hb Hne. exfalso.
    assert (Hl : xdev_list one_device = [5000]) by (vm_compute; reflexivity).
    rewrite Hl in Hb. destruct Hb as [<- | []]. now apply Hne.
Defined.

(** C10, as amended: in a registry whose objects store bus references
    that are not NULL and differ from one another, validation with the
    bus reference read from the handle itself succeeds exactly for the
    handles on the list, and so do [qdma_device_get_config],
    [qdma_device_set_config] and, for a state from 0 to CFG_USER,
    [qdma_device_set_cfg_state]. *)
Theorem config_access_validates_registered :
  forall (hdr : header) (w : world) (dev_hndl : Z)
         (c conf_out : qdma_dev_conf) (s : Z),
    registry_ok w ->
    (xdev_check_hndl w (stored_pdev w dev_hndl) dev_hndl = 0
     <-> In dev_hndl (xdev_list w))
    /\ (fst (qdma_device_get_config dev_hndl conf_out w) = 0
        <-> In dev_hndl (xdev_list w))
    /\ (snd (qdma_device_set_config dev_hndl (Some c) w) = 0
        <-> In dev_hndl (xdev_list w))
    /\ (0 <= s <= CFG_USER hdr ->
        (snd (qdma_device_set_cfg_state hdr dev_hndl s w) = 0
         <-> In dev_hndl (xdev_list w))).
Proof.
  intros hdr w dev_hndl c conf_out s Hreg.
  assert (Hiff : xdev_check_hndl w (stored_pdev w dev_hndl) dev_hndl = 0
                 <-> In dev_hndl (xdev_list w)).
  { split.
    - intros Hok. apply check_hndl_registered in Hok as [_ Hfirst].
      now apply (first_storing_In w (stored_pdev w dev_hndl)).
    - now apply check_hndl_own_pdev. }
  split; [exact Hiff |].
  rewrite <- Hiff. unfold stored_pdev.
  unfold qdma_device_get_config, qdma_device_set_config,
    qdma_device_set_cfg_state.
  destruct (xdev_check_hndl_values w (pdev (conf (mem w dev_hndl))) dev_hndl)
    as [-> | ->]; simpl.
  - repeat split; try reflexivity.
    rewrite enum_of_int_nonneg by lia.
    destruct (Z.gtb_spec s (CFG_USER hdr)); [lia | reflexivity].
  - repeat split; try discriminate;
      destruct (enum_of_int s >? CFG_USER hdr); simpl; discriminate.
Qed.

Lemma config_access_validates_registered_witness :
  xdev_check_hndl two_devices (stored_pdev two_devices 6000) 6000 = 0
  /\ fst (qdma_device_get_config 6000 zero_conf two_devices) = 0.
Proof.
  assert (Hreg : registry_ok two_devices).
  { unfold registry_ok. rewrite two_devices_list.
    split; [intros [H | [H | []]]; discriminate | split].
    - intros a [<- | [<- | []]]; vm_compute; discriminate.
    - intros a b [<- | [<- | []]] [<- | [<- | []]]; vm_compute;
        intros H; try reflexivity; discriminate. }
  destruct (config_access_validates_registered sample_header two_devices 6000
              zero_conf zero_conf 0 Hreg) as (Hv & Hg & _).
  split; [apply Hv | apply Hg]; rewrite two_devices_list; right; left;
    reflexivity.
Defined.

(** C10, as stated, fails once [qdma_device_set_config] has stored a
    bus reference that another object stores already, or a NULL one: the
    handle is on the list and validation turns it down. *)
Lemma config_access_validation_counterexample :
  (let w := fst (qdma_device_set_config 6000 (Some (sample_conf 1000))
                   two_devices) in
   In 6000 (xdev_list w)
   /\ xdev_check_hndl w (stored_pdev w 6000) 6000 = - EINVAL
   /\ fst (qdma_device_get_config 6000 zero_conf w) = - EINVAL)
  /\
  (let w := fst (qdma_device_set_config 5000 (Some (sample_conf NULL))
                   one_device) in
   In 5000 (xdev_list w)
   /\ xdev_check_hndl w (stored_pdev w 5000) 5000 = - EINVAL
   /\ fst (qdma_device_get_config 5000 zero_conf w) = - EINVAL).
Proof. vm_compute. split; (split; [auto | split; reflexivity]). Qed.

(** ** Insertion *)

Lemma upd_idx_same x : upd_idx (idx (conf x)) x = x.
Proof. destruct x as [[] ? ? ? ? ? ? ? ? ? ?]. reflexivity. Qed.

Lemma same_platform_state_refl w : same_platform_state w w.
Proof. repeat split. Qed.

Lemma same_platform_state_trans w1 w2 w3 :
  same_platform_state w1 w2 -> same_platform_state w2 w3 ->
  same_platform_state w1 w3.
Proof.
  intros (A1 & A2 & A3 & A4 & A5) (B1 & B2 & B3 & B4 & B5).
  repeat split; congruence.
Qed.

Lemma same_platform_state_store a f w : same_platform_state w (store a f w).
Proof. repeat split. Qed.

Section Insertion.

Variable hdr : header.
Variable build : build_cfg.
Variable pf : platform.

Lemma list_add_body_fold xdev :
  forall l w lb ld,
    let r := fold_left (list_add_body build pf xdev) l (w, lb, ld) in
    let s := fold_left (scan_step build (PCI_SLOT (devfn (pd_of pf w xdev))))
                       (map (pd_of pf w) l)
                       (idx (conf (mem w xdev)), lb, ld) in
    snd r = snd s /\ snd (fst r) = snd (fst s) /\
    mem (fst (fst r)) xdev = upd_idx (fst (fst s)) (mem w xdev) /\
    (forall b, b <> xdev -> mem (fst (fst r)) b = mem w b) /\
    same_platform_state w (fst (fst r)).
Proof.
  induction l as [| a l IH]; intros w lb ld; cbn zeta.
  - simpl. repeat split. now rewrite upd_idx_same.
  - cbn [fold_left map].
    set (i' := if different_card build lb ld (pd_of pf w a)
               then 0 else idx (conf (mem w xdev))).
    set (w1 := store xdev (upd_idx (u32 (i' + 1))) w).
    assert (Hmem1 : mem w1 xdev = upd_idx (u32 (i' + 1)) (mem w xdev))
      by apply mem_store_same.
    assert (Hpdev : forall b, stored_pdev w1 b = stored_pdev w b).
    { intros b. unfold stored_pdev, w1. rewrite mem_store.
      destruct (Z.eqb_spec b xdev) as [-> | _]; reflexivity. }
    assert (Hpd : forall b, pd_of pf w1 b = pd_of pf w b).
    { intros b. unfold pd_of. now rewrite Hpdev. }
    (* the body leaves the locals and the memory of [w1] *)
    assert (Hbody :
              exists w1',
                list_add_body build pf xdev (w, lb, ld) a
                = (w1', bus_number (pd_of pf w a),
                   PCI_SLOT (devfn (pd_of pf w xdev)))
                /\ (forall b, mem w1' b = mem w1 b)
                /\ same_platform_state w w1').
    { unfold list_add_body. cbv zeta.
      fold (stored_pdev w a). fold (pd_of pf w a).
      eexists. split; [| split].
      - f_equal. unfold i' in *.
        destruct (different_card build lb ld (pd_of pf w a));
          rewrite ?mem_store_same; reflexivity.
      - intros b. unfold w1, i'. rewrite !mem_store.
        destruct (different_card build lb ld (pd_of pf w a));
          rewrite ?mem_store; destruct (Z.eqb_spec b xdev) as [-> | _];
          rewrite ?Z.eqb_refl; reflexivity.
      - destruct (different_card build lb ld (pd_of pf w a)); repeat split. }
    destruct Hbody as (w1' & -> & Hmem & Hsame).
    specialize (IH w1' (bus_number (pd_of pf w a))
                   (PCI_SLOT (devfn (pd_of pf w xdev)))).
    cbn zeta in IH.
    assert (Hpd' : forall b, pd_of pf w1' b = pd_of pf w b).
    { intros b. unfold pd_of, stored_pdev. rewrite Hmem. apply Hpd. }
    rewrite (map_ext _ _ Hpd'), Hpd', Hmem, Hmem1 in IH.
    change (scan_step build (PCI_SLOT (devfn (pd_of pf w xdev)))
              (idx (conf (mem w xdev)), lb, ld) (pd_of pf w a))
      with (u32 (i' + 1), bus_number (pd_of pf w a),
            PCI_SLOT (devfn (pd_of pf w xdev))).
    change (idx (conf (upd_idx (u32 (i' + 1)) (mem w xdev))))
      with (u32 (i' + 1)) in IH.
    destruct IH as (H1 & H2 & H3 & H4 & H5).
    split; [exact H1 | split; [exact H2 | split; [| split]]].
    + rewrite H3. reflexivity.
    + intros b Hb. rewrite H4 by assumption. rewrite Hmem.
      unfold w1. now apply mem_store_other.
    + exact (same_platform_state_trans _ _ _ Hsame H5).
Qed.


Lemma xdev_list_add_spec xdev w :
  let w' := xdev_list_add hdr build pf xdev w in
  let s := fold_left (scan_step build (PCI_SLOT (devfn (pd_of pf w xdev))))
                     (map (pd_of pf w) (xdev_list w ++ [xdev]))
                     (idx (conf (mem w xdev)), 0, 0) in
  xdev_list w' = xdev_list w ++ [xdev] /\
  (forall b, b <> xdev -> mem w' b = mem w b) /\
  mem w' xdev
  = set_conf
      (conf_set_cur_cfg_state (CFG_UNCONFIGURED hdr)
         (conf_set_idx (fst (fst s))
            (conf_set_bdf
               (u32 (Z.lor
                       (Z.lor
                          (Z.shiftl (bus_number (pd_of pf w xdev))
                                    (PCI_SHIFT_BUS hdr))
                          (Z.shiftl (PCI_SLOT (devfn (pd_of pf w xdev)))
                                    (PCI_SHIFT_DEV hdr)))
                       (PCI_FUNC (devfn (pd_of pf w xdev)))))
               (conf (mem w xdev)))))
      (mem w xdev) /\
  pci_regions w' = pci_regions w /\ pci_enabled w' = pci_enabled w /\
  iomapped w' = iomapped w /\ trace w' = trace w.
Proof.
  cbv zeta. unfold xdev_list_add. cbv zeta.
  fold (stored_pdev w xdev). fold (pd_of pf w xdev).
  set (bdf0 := u32 _).
  set (w0 := store xdev (fun x => set_conf (conf_set_bdf bdf0 (conf x)) x) w).
  set (w1 := with_xdev_list (xdev_list w0 ++ [xdev]) w0).
  pose proof (list_add_body_fold xdev (xdev_list w1) w1 0 0) as Hfold.
  cbv zeta in Hfold.
  destruct (fold_left (list_add_body build pf xdev) (xdev_list w1) (w1, 0, 0))
    as [[w2 lb] ld].
  assert (Hpdev : forall b, stored_pdev w1 b = stored_pdev w b).
  { intros b. unfold stored_pdev, w1, w0. simpl.
    destruct (Z.eqb_spec b xdev) as [-> | _]; reflexivity. }
  assert (Hpd : forall b, pd_of pf w1 b = pd_of pf w b).
  { intros b. unfold pd_of. now rewrite Hpdev. }
  rewrite (map_ext _ _ Hpd), Hpd in Hfold.
  assert (Hmem1 : mem w1 xdev
                  = set_conf (conf_set_bdf bdf0 (conf (mem w xdev)))
                             (mem w xdev)).
  { unfold w1, w0. simpl. now rewrite Z.eqb_refl. }
  rewrite Hmem1 in Hfold.
  change (idx (conf (set_conf (conf_set_bdf bdf0 (conf (mem w xdev)))
                              (mem w xdev))))
    with (idx (conf (mem w xdev))) in Hfold.
  change (xdev_list w1) with (xdev_list w ++ [xdev]) in Hfold.
  cbn [fst snd] in Hfold.
  destruct Hfold as (_ & _ & Hx & Hother & Hl & Hr & He & Hi & Ht).
  repeat split.
  - simpl. exact Hl.
  - intros b Hb. rewrite mem_store_other by assumption.
    rewrite Hother by assumption.
    unfold w1, w0. simpl.
    destruct (Z.eqb_spec b xdev); [contradiction | reflexivity].
  - rewrite mem_store_same, Hx. reflexivity.
  - simpl. exact Hr.
  - simpl. exact He.
  - simpl. exact Hi.
  - simpl. exact Ht.
Qed.

Lemma xdev_list_add_stored_pdev xdev w b :
  stored_pdev (xdev_list_add hdr build pf xdev w) b = stored_pdev w b.
Proof.
  destruct (xdev_list_add_spec xdev w) as (_ & Hother & Hx & _).
  unfold stored_pdev.
  destruct (Z.eq_dec b xdev) as [-> | Hne].
  - rewrite Hx. reflexivity.
  - now rewrite Hother.
Qed.

Lemma insert_all_stored_pdev l :
  forall w b, stored_pdev (insert_all hdr build pf l w) b = stored_pdev w b.
Proof.
  unfold insert_all.
  induction l as [| a l IH]; intros w b; simpl; [reflexivity |].
  rewrite IH. apply xdev_list_add_stored_pdev.
Qed.

Lemma insert_all_other l :
  forall w b, ~ In b l -> mem (insert_all hdr build pf l w) b = mem w b.
Proof.
  unfold insert_all.
  induction l as [| a l IH]; intros w b Hni; simpl; [reflexivity |].
  rewrite IH by (intros H; apply Hni; now right).
  destruct (xdev_list_add_spec a w) as (_ & Hother & _).
  apply Hother. intros ->. apply Hni. now left.
Qed.

Lemma insert_all_snoc l a w :
  insert_all hdr build pf (l ++ [a]) w
  = xdev_list_add hdr build pf a (insert_all hdr build pf l w).
Proof. unfold insert_all. now rewrite fold_left_app. Qed.

(** *** The pass on its locals *)

Lemma u32_succ i : u32 (u32 i + 1) = u32 (i + 1).
Proof. unfold u32. now rewrite Z.add_mod_idemp_l. Qed.

Lemma different_card_same b s ld pd :
  card_ok build b s pd -> slot_ok build s ld -> different_card build b ld pd = false.
Proof.
  unfold card_ok, slot_ok, different_card.
  destruct build; intros [Hb Hs] Hld.
  - now rewrite Hb, Z.eqb_refl.
  - now rewrite Hb, Hs, Hld, !Z.eqb_refl.
Qed.

Lemma different_card_start b s pd :
  card_ok build b s pd -> first_pass_resets build b s ->
  different_card build 0 0 pd = true.
Proof.
  unfold card_ok, first_pass_resets, different_card.
  destruct build; intros [Hb Hs] Hres; rewrite Hb.
  - destruct (Z.eqb_spec 0 b); [congruence | reflexivity].
  - rewrite Hs.
    destruct (Z.eqb_spec 0 b), (Z.eqb_spec 0 s); try reflexivity.
    destruct Hres; congruence.
Qed.

Lemma different_card_bus lb ld pd :
  lb <> bus_number pd -> different_card build lb ld pd = true.
Proof.
  unfold different_card. intros Hne.
  destruct build; destruct (Z.eqb_spec lb (bus_number pd));
    try contradiction; reflexivity.
Qed.

Lemma scan_same_card b s ns :
  slot_ok build s ns ->
  forall l i ld,
    (forall pd, In pd l -> card_ok build b s pd) -> slot_ok build s ld ->
    exists ld',
      fold_left (scan_step build ns) l (u32 i, b, ld)
      = (u32 (i + Z.of_nat (List.length l)), b, ld') /\ slot_ok build s ld'.
Proof.
  intros Hns. induction l as [| pd l IH]; intros i ld Hall Hld.
  - exists ld. simpl. now rewrite Z.add_0_r.
  - cbn [fold_left]. unfold scan_step at 2.
    rewrite (different_card_same b s ld pd) by (auto using in_eq).
    destruct (Hall pd (in_eq _ _)) as [-> _].
    rewrite u32_succ.
    destruct (IH (i + 1) ns (fun x Hx => Hall x (in_cons _ _ _ Hx)) Hns)
      as (ld' & -> & Hld').
    exists ld'. split; [| assumption].
    do 2 f_equal. f_equal.
    change (List.length (pd :: l)) with (S (List.length l)). lia.
Qed.

Lemma scan_card_from_start b s ns i0 l :
  l <> [] -> slot_ok build s ns ->
  (forall pd, In pd l -> card_ok build b s pd) ->
  first_pass_resets build b s \/ i0 = 0 ->
  exists ld',
    fold_left (scan_step build ns) l (i0, 0, 0)
    = (u32 (Z.of_nat (List.length l)), b, ld').
Proof.
  destruct l as [| pd l]; [congruence |].
  intros _ Hns Hall Hseed. cbn [fold_left]. unfold scan_step at 2.
  assert (Hi : (if different_card build 0 0 pd then 0 else i0) = 0).
  { destruct Hseed as [Hres | ->].
    - now rewrite (different_card_start b s pd) by (auto using in_eq).
    - now destruct (different_card build 0 0 pd). }
  rewrite Hi. destruct (Hall pd (in_eq _ _)) as [-> _].
  change (u32 (0 + 1)) with (u32 1).
  destruct (scan_same_card b s ns Hns l 1 ns
              (fun x Hx => Hall x (in_cons _ _ _ Hx)) Hns)
    as (ld' & -> & _).
  exists ld'. do 2 f_equal. f_equal.
  change (List.length (pd :: l)) with (S (List.length l)). lia.
Qed.

Lemma scan_last_bus ns l :
  forall acc, l <> [] ->
    snd (fst (fold_left (scan_step build ns) l acc))
    = bus_number (last l (mk_pci_dev 0 0 0 EmptyString)).
Proof.
  induction l as [| pd l IH]; intros [[i lb] ld] Hne; [congruence |].
  cbn [fold_left]. destruct l as [| pd' l].
  - reflexivity.
  - rewrite IH by discriminate. reflexivity.
Qed.

Lemma scan_other_bus ns l b pd i0 :
  l <> [] -> (forall x, In x l -> bus_number x = b) -> bus_number pd <> b ->
  fst (fst (fold_left (scan_step build ns) (l ++ [pd]) (i0, 0, 0))) = 1.
Proof.
  intros Hne Hall Hbus. rewrite fold_left_app. cbn [fold_left].
  pose proof (scan_last_bus ns l (i0, 0, 0) Hne) as Hlast.
  destruct (exists_last Hne) as (l' & x & ->).
  rewrite last_last in Hlast.
  rewrite (Hall x) in Hlast by (apply in_or_app; right; now left).
  destruct (fold_left (scan_step build ns) (l' ++ [x]) (i0, 0, 0))
    as [[i lb] ld].
  cbn [fst snd] in Hlast. subst lb.
  unfold scan_step. rewrite different_card_bus by congruence. reflexivity.
Qed.

Lemma u32_small z : 0 <= z < 2 ^ 32 -> u32 z = z.
Proof. intros H. unfold u32. now apply Z.mod_small. Qed.

Lemma insert_all_indices w b s :
  xdev_list w = [] ->
  forall devs,
    NoDup devs ->
    (forall a, In a devs -> on_card build pf b s w a) ->
    (first_pass_resets build b s
     \/ forall a, In a devs -> idx (conf (mem w a)) = 0) ->
    Z.of_nat (List.length devs) < 2 ^ 32 ->
    xdev_list (insert_all hdr build pf devs w) = devs /\
    map (fun a => idx (conf (mem (insert_all hdr build pf devs w) a))) devs
    = map Z.of_nat (seq 1 (List.length devs)).
Proof.
  intros Hempty devs.
  induction devs as [| a l IH] using rev_ind; intros Hnd Hcard Hseed Hlen.
  - simpl. split; [exact Hempty | reflexivity].
  - rewrite insert_all_snoc. set (wl := insert_all hdr build pf l w) in *.
    assert (Hal : ~ In a l).
    { apply NoDup_remove_2 in Hnd. now rewrite app_nil_r in Hnd. }
    assert (Hndl : NoDup l).
    { apply NoDup_remove_1 in Hnd. now rewrite app_nil_r in Hnd. }
    rewrite length_app in Hlen. cbn [List.length] in Hlen.
    destruct IH as [IHl IHm]; try assumption.
    { intros c Hc. apply Hcard. apply in_or_app. now left. }
    { destruct Hseed as [Hres | Hzero]; [now left | right].
      intros c Hc. apply Hzero. apply in_or_app. now left. }
    { lia. }
    destruct (xdev_list_add_spec a wl) as (Hl & Hother & Hx & _).
    cbv zeta in Hx. split.
    + now rewrite Hl, IHl.
    + rewrite map_app, length_app. cbn [List.length map].
      rewrite Nat.add_1_r, seq_S, map_app. f_equal.
      * rewrite <- IHm. apply map_ext_in. intros c Hc.
        rewrite Hother; [reflexivity |]. intros ->. contradiction.
      * cbn [map]. f_equal. rewrite Hx.
        cbn [conf set_conf idx conf_set_cur_cfg_state conf_set_idx].
        assert (Hpd : forall c, pd_of pf wl c = pd_of pf w c).
        { intros c. unfold pd_of, wl. now rewrite insert_all_stored_pdev. }
        rewrite (map_ext _ _ Hpd), Hpd, IHl.
        destruct (scan_card_from_start b s
                    (PCI_SLOT (devfn (pd_of pf w a)))
                    (idx (conf (mem wl a)))
                    (map (pd_of pf w) (l ++ [a])))
          as (ld' & ->).
        -- destruct l; discriminate.
        -- specialize (Hcard a (in_or_app _ _ _ (or_intror (in_eq _ _)))).
           unfold on_card, card_ok in Hcard. unfold slot_ok.
           destruct build; [exact I | apply Hcard].
        -- intros pd Hpdin. apply in_map_iff in Hpdin as (c & <- & Hc).
           now apply Hcard.
        -- destruct Hseed as [Hres | Hzero]; [now left | right].
           unfold wl. rewrite insert_all_other by assumption.
           apply Hzero. apply in_or_app. right. now left.
        -- cbn [fst]. rewrite length_map, length_app. cbn [List.length].
           rewrite u32_small by lia. lia.
Qed.

Lemma xdev_list_add_other_bus w b x :
  xdev_list w <> [] ->
  (forall a, In a (xdev_list w) -> bus_number (pd_of pf w a) = b) ->
  bus_number (pd_of pf w x) <> b ->
  idx (conf (mem (xdev_list_add hdr build pf x w) x)) = 1.
Proof.
  intros Hne Hall Hbus.
  destruct (xdev_list_add_spec x w) as (_ & _ & Hx & _).
  cbv zeta in Hx. rewrite Hx.
  cbn [conf set_conf idx conf_set_cur_cfg_state conf_set_idx].
  rewrite map_app. cbn [map].
  apply (scan_other_bus _ _ b).
  - destruct (xdev_list w); [congruence | discriminate].
  - intros pd Hpd. apply in_map_iff in Hpd as (c & <- & Hc). now apply Hall.
  - assumption.
Qed.

End Insertion.

(** C1, as amended: [xdev_list_add] puts the object at the tail of the
    list and writes no other object, so the pass assigns the index of the
    inserted device only.  Inserting into the empty list N devices of one
    card (same bus, and same slot in the physical function driver), with
    the first pass starting the count afresh or the index fields at 0 on
    entry, leaves them with the indices 1..N in insertion order; a device
    on another bus inserted after them gets the index 1 and leaves theirs
    as they are. *)
Theorem xdev_list_add_indices :
  forall (hdr : header) (build : build_cfg) (pf : platform)
         (w : world) (devs : list ptr) (b s : Z),
    xdev_list w = [] ->
    NoDup devs ->
    (forall a, In a devs -> on_card build pf b s w a) ->
    (first_pass_resets build b s
     \/ forall a, In a devs -> idx (conf (mem w a)) = 0) ->
    Z.of_nat (List.length devs) < 2 ^ 32 ->
    let w' := insert_all hdr build pf devs w in
    xdev_list w' = devs
    /\ map (fun a => idx (conf (mem w' a))) devs
       = map Z.of_nat (seq 1 (List.length devs))
    /\ (forall x,
          devs <> [] -> ~ In x devs -> bus_number (pd_of pf w x) <> b ->
          let w'' := xdev_list_add hdr build pf x w' in
          xdev_list w'' = devs ++ [x]
          /\ idx (conf (mem w'' x)) = 1
          /\ map (fun a => idx (conf (mem w'' a))) devs
             = map Z.of_nat (seq 1 (List.length devs)))
    /\ (forall v y,
          xdev_list (xdev_list_add hdr build pf y v) = xdev_list v ++ [y]
          /\ forall a, a <> y ->
                       mem (xdev_list_add hdr build pf y v) a = mem v a).
Proof.
  intros hdr build pf w devs b s Hempty Hnd Hcard Hseed Hlen w'.
  destruct (insert_all_indices hdr build pf w b s Hempty devs Hnd Hcard
              Hseed Hlen) as [Hl Hm].
  fold w' in Hl, Hm.
  split; [exact Hl | split; [exact Hm | split]].
  - intros x Hne Hx Hbus w''.
    destruct (xdev_list_add_spec hdr build pf x w') as (Hl' & Hother & _).
    fold w'' in Hl', Hother.
    assert (Hpd : forall c, pd_of pf w' c = pd_of pf w c).
    { intros c. unfold pd_of, w'. now rewrite insert_all_stored_pdev. }
    split; [now rewrite Hl', Hl | split].
    + apply (xdev_list_add_other_bus hdr build pf w' b x).
      * now rewrite Hl.
      * rewrite Hl. intros a Ha. rewrite Hpd. now apply Hcard.
      * now rewrite Hpd.
    + rewrite <- Hm. apply map_ext_in. intros a Ha.
      rewrite Hother; [reflexivity |]. intros ->. contradiction.
  - intros v y.
    destruct (xdev_list_add_spec hdr build pf y v) as (Hl' & Hother & _).
    split; assumption.
Qed.

Lemma xdev_list_add_indices_witness :
  let w' := insert_all sample_header (QDMA_PF true) (sample_platform 0)
                       [5000; 6000] three_objects in
  xdev_list w' = [5000; 6000]
  /\ map (fun a => idx (conf (mem w' a))) [5000; 6000] = [1; 2]
  /\ idx (conf (mem (xdev_list_add sample_header (QDMA_PF true)
                       (sample_platform 0) 7000 w') 7000)) = 1.
Proof.
  assert (Hnd : NoDup [5000; 6000]).
  { constructor; [intros [H | []]; discriminate |].
    constructor; [intros [] | constructor]. }
  assert (Hcard : forall a, In a [5000; 6000] ->
                            on_card (QDMA_PF true) (sample_platform 0) 1 0
                                    three_objects a).
  { intros a [<- | [<- | []]]; split; reflexivity. }
  assert (Hseed : first_pass_resets (QDMA_PF true) 1 0
                  \/ forall a, In a [5000; 6000] ->
                               idx (conf (mem three_objects a)) = 0).
  { left. left. discriminate. }
  assert (Hlen : Z.of_nat (List.length [5000; 6000]) < 2 ^ 32)
    by reflexivity.
  destruct (xdev_list_add_indices sample_header (QDMA_PF true)
              (sample_platform 0) three_objects [5000; 6000] 1 0
              eq_refl Hnd Hcard Hseed Hlen) as (Hl & Hm & Hnew & _).
  split; [exact Hl | split; [exact Hm |]].
  apply (Hnew 7000).
  - discriminate.
  - intros [H | [H | []]]; discriminate.
  - vm_compute. discriminate.
Defined.

(** C1, as stated, fails: in the physical function driver a device in
    another slot of the same bus, inserted after one device, gets the
    index 2; a device left on the list keeps the index it had when a
    later insertion makes it the first of its card; and the first device
    of the card at bus 0, slot 0 gets one more than the value its index
    field came with. *)
Lemma xdev_list_add_counterexample :
  idx (conf (mem (attach (QDMA_PF true) 6000 1010 0
                    (attach (QDMA_PF true) 5000 1000 0 empty_world))
                 6000)) = 2
  /\ (let w := attach (QDMA_PF true) 7000 1002 0
                  (xdev_list_remove 5000
                     (attach (QDMA_PF true) 6000 1001 0
                        (attach (QDMA_PF true) 5000 1000 0 empty_world))) in
      xdev_list w = [6000; 7000]
      /\ idx (conf (mem w 6000)) = 2 /\ idx (conf (mem w 7000)) = 2)
  /\ idx (conf (mem (attach (QDMA_PF true) 5000 1 7 empty_world) 5000)) = 8.
Proof. vm_compute. repeat split. Qed.

(** ** Dump *)

Lemma zero_pad_length k l :
  List.length (zero_pad k l) = (k + List.length l)%nat.
Proof. induction k as [| k IH]; simpl; [reflexivity | now rewrite IH]. Qed.

Lemma fmt_x_length width n : (width <= List.length (fmt_x width n))%nat.
Proof. unfold fmt_x. cbv zeta. rewrite zero_pad_length. lia. Qed.

Lemma dump_line_length pf x : (19 <= List.length (dump_line pf x))%nat.
Proof.
  unfold dump_line. cbv zeta. rewrite !length_app.
  pose proof (fmt_x_length 5 (bdf (conf x))).
  pose proof (fmt_x_length 2 (bus_number (pci_dev_at pf (pdev (conf x))))).
  pose proof (fmt_x_length 2
                (PCI_SLOT (devfn (pci_dev_at pf (pdev (conf x)))))).
  pose proof (fmt_x_length 2
                (PCI_FUNC (devfn (pci_dev_at pf (pdev (conf x)))))).
  cbn [List.length chars list_ascii_of_string]. lia.
Qed.

Lemma dump_loop_length pf w buflen :
  forall l out len,
    len = Z.of_nat (List.length out) ->
    snd (dump_loop pf w buflen l out len)
    = Z.of_nat (List.length (fst (dump_loop pf w buflen l out len)))
    /\ len <= snd (dump_loop pf w buflen l out len).
Proof.
  induction l as [| a l IH]; intros out len Hlen; cbn [dump_loop].
  - cbn [fst snd]. split; [assumption | lia].
  - cbv zeta.
    assert (Hlen' : len + Z.of_nat (List.length (dump_line pf (mem w a)))
                    = Z.of_nat (List.length (out ++ dump_line pf (mem w a))))
      by (rewrite length_app; lia).
    destruct (len + Z.of_nat (List.length (dump_line pf (mem w a)))
              >=? buflen).
    + cbn [fst snd]. split; [assumption | lia].
    + destruct (IH _ _ Hlen') as [H1 H2]. split; [assumption | lia].
Qed.

(** The terminator is stored right behind the text, and a list that is
    not empty yields one whole line at least, whatever [buflen] is. *)
Lemma xdev_list_dump_first_line pf buflen w :
  xdev_list w <> [] ->
  snd (xdev_list_dump pf buflen w)
  = Z.of_nat (List.length (fst (xdev_list_dump pf buflen w)))
  /\ 19 <= snd (xdev_list_dump pf buflen w).
Proof.
  unfold xdev_list_dump. destruct (xdev_list w) as [| a l]; [congruence |].
  intros _. split; [now apply dump_loop_length |].
  cbn [dump_loop]. cbv zeta.
  pose proof (dump_line_length pf (mem w a)) as Hline.
  destruct (0 + Z.of_nat (List.length (dump_line pf (mem w a))) >=? buflen).
  - cbn [fst snd]. lia.
  - destruct (dump_loop_length pf w buflen l
                ([] ++ dump_line pf (mem w a))
                (0 + Z.of_nat (List.length (dump_line pf (mem w a)))))
      as [_ H]; [now rewrite app_nil_l | lia].
Qed.

(** C2: with one device on the list and a buffer of 8 bytes,
    [xdev_list_dump] writes the whole line of 19 characters and stores the
    terminator at [buf[19]]: the string with its terminator takes 20
    bytes. *)
Theorem xdev_list_dump_overrun :
  xdev_list_dump (sample_platform 0) 8 one_device
  = (chars "qdma01000" ++ [ascii_of_nat 9] ++ chars "01:00.00"
       ++ [ascii_of_nat 10], 19)
  /\ 8 < snd (xdev_list_dump (sample_platform 0) 8 one_device) + 1.
Proof. split; reflexivity. Qed.

(** ** Resources held between creation and release *)

Lemma held_emit w0 p x w e : held w0 p x w -> held w0 p x (emit e w).
Proof. intros H. exact H. Qed.

Lemma held_store w0 p x w f :
  held w0 p x w ->
  regs (f (mem w x)) = regs (mem w x) ->
  stm_regs (f (mem w x)) = stm_regs (mem w x) ->
  held w0 p x (store x f w).
Proof.
  intros (Hl & Hr & He & Hi & Hm) Hregs Hstm.
  unfold held. rewrite mem_store_same, Hregs, Hstm.
  repeat split; try assumption.
  intros b Hb. rewrite mem_store_other by assumption. now apply Hm.
Qed.

Lemma held_unmap_bars w0 p x w :
  held w0 p x w ->
  held w0 p x (xdev_unmap_bars x p w)
  /\ regs (mem (xdev_unmap_bars x p w) x) = NULL
  /\ stm_regs (mem (xdev_unmap_bars x p w) x) = NULL.
Proof.
  intros (Hl & Hr & He & Hi & Hm).
  unfold xdev_unmap_bars.
  set (r := regs (mem w x)) in *. set (s := stm_regs (mem w x)) in *.
  assert (Hother : forall b, b <> x -> (if b =? x then mem w0 b else mem w b) = mem w0 b).
  { intros b Hb. destruct (Z.eqb_spec b x); [contradiction | now apply Hm]. }
  unfold cookies in Hi.
  destruct (Z.eqb_spec r NULL) as [Hregs | Hregs].
  - fold s. destruct (Z.eqb_spec s NULL) as [Hstm | Hstm].
    + unfold held, cookies. fold r s. rewrite Hregs, Hstm. 
      repeat split; assumption.
    + unfold held, cookies. rewrite !mem_store_same. simpl.
      fold r. rewrite Hregs, Hi. simpl. rewrite Z.eqb_refl.
      repeat split; try assumption.
      intros b Hb. destruct (Z.eqb_spec b x); [contradiction | now apply Hm].
  - set (w1 := store x (set_regs NULL) (pci_iounmap p r w)).
    assert (Hs1 : stm_regs (mem w1 x) = s).
    { unfold w1. now rewrite mem_store_same. }
    assert (Hr1 : regs (mem w1 x) = NULL).
    { unfold w1. now rewrite mem_store_same. }
    assert (Hi1 : iomapped w1
                  = (if s =? NULL then []
                     else if s =? r then [r] else [s]) ++ iomapped w0).
    { unfold w1. simpl. rewrite Hi.
      destruct (Z.eqb_spec s NULL) as [Hstm | Hstm]; simpl.
      - now rewrite Z.eqb_refl.
      - destruct (Z.eqb_spec s r); simpl; [reflexivity | now rewrite Z.eqb_refl]. }
    assert (Hm1 : forall b, b <> x -> mem w1 b = mem w0 b).
    { intros b Hb. unfold w1. rewrite mem_store_other by assumption. now apply Hm. }
    assert (Hf1 : xdev_list w1 = xdev_list w /\ pci_regions w1 = pci_regions w
                  /\ pci_enabled w1 = pci_enabled w) by (repeat split).
    destruct Hf1 as (Hl1 & Hrg1 & He1).
    rewrite <- Hl1 in Hl. rewrite <- Hrg1 in Hr. rewrite <- He1 in He.
    clearbody w1.
    rewrite Hs1.
    destruct (Z.eqb_spec s NULL) as [Hstm | Hstm].
    + unfold held, cookies. rewrite Hs1, Hr1, Hi1, Hstm. 
      repeat split; assumption.
    + unfold held, cookies. rewrite !mem_store_same. simpl.
      rewrite Hr1, Hi1. 
      repeat split; try assumption.
      * destruct (Z.eqb_spec s r) as [E | E]; simpl.
        -- now rewrite <- E, Z.eqb_refl.
        -- now rewrite Z.eqb_refl.
      * intros b Hb. destruct (Z.eqb_spec b x); [contradiction | now apply Hm1].
Qed.

Section Lifecycle.

Variable hdr : header.
Variable build : build_cfg.
Variable pf : platform.

Lemma held_iomap_regs w0 p x w bar len :
  held w0 p x w -> regs (mem w x) = NULL -> stm_regs (mem w x) = NULL ->
  let w' := store x (set_regs (snd (pci_iomap pf p bar len w)))
                  (fst (pci_iomap pf p bar len w)) in
  held w0 p x w'
  /\ regs (mem w' x) = pci_iomap_rv pf p bar len
  /\ stm_regs (mem w' x) = NULL.
Proof.
  intros (Hl & Hr & He & Hi & Hm) Hregs Hstm. cbv zeta.
  unfold pci_iomap. cbv zeta. cbn [fst snd].
  rewrite Hregs, Hstm in Hi. cbn in Hi.
  unfold held, cookies. rewrite mem_store_same.
  set (c := pci_iomap_rv pf p bar len).
  assert (Hstm' : stm_regs (mem (if c =? NULL then emit (EvPciIomap p bar len) w
       else with_iomapped (c :: iomapped (emit (EvPciIomap p bar len) w))
                (emit (EvPciIomap p bar len) w)) x) = NULL).
  { destruct (c =? NULL); exact Hstm. }
  cbn [regs stm_regs set_regs]. rewrite Hstm'.
  repeat split.
  - now destruct (c =? NULL).
  - now destruct (c =? NULL).
  - now destruct (c =? NULL).
  - destruct (c =? NULL); simpl; now rewrite Hi.
  - intros b Hb. rewrite mem_store_other by assumption.
    destruct (c =? NULL); now apply Hm.
Qed.

Lemma held_iomap_stm w0 p x w bar len :
  held w0 p x w -> stm_regs (mem w x) = NULL ->
  let w' := store x (set_stm_regs (snd (pci_iomap pf p bar len w)))
                  (fst (pci_iomap pf p bar len w)) in
  held w0 p x w'
  /\ regs (mem w' x) = regs (mem w x)
  /\ stm_regs (mem w' x) = pci_iomap_rv pf p bar len.
Proof.
  intros (Hl & Hr & He & Hi & Hm) Hstm. cbv zeta.
  unfold pci_iomap. cbv zeta. cbn [fst snd].
  rewrite Hstm in Hi. unfold cookies in Hi. cbn in Hi.
  unfold held, cookies. rewrite mem_store_same.
  set (c := pci_iomap_rv pf p bar len).
  assert (Hregs' : regs (mem (if c =? NULL then emit (EvPciIomap p bar len) w
       else with_iomapped (c :: iomapped (emit (EvPciIomap p bar len) w))
                (emit (EvPciIomap p bar len) w)) x) = regs (mem w x)).
  { destruct (c =? NULL); reflexivity. }
  cbn [regs stm_regs set_stm_regs]. rewrite Hregs'.
  repeat split.
  - now destruct (c =? NULL).
  - now destruct (c =? NULL).
  - now destruct (c =? NULL).
  - destruct (c =? NULL); simpl; now rewrite Hi.
  - intros b Hb. rewrite mem_store_other by assumption.
    destruct (c =? NULL); now apply Hm.
Qed.

Lemma held_map_bars w0 p x w :
  held w0 p x w -> regs (mem w x) = NULL -> stm_regs (mem w x) = NULL ->
  held w0 p x (fst (xdev_map_bars hdr build pf x p w))
  /\ (snd (xdev_map_bars hdr build pf x p w) = 0
      \/ snd (xdev_map_bars hdr build pf x p w) = - EINVAL).
Proof.
  intros Hheld Hregs Hstm. unfold xdev_map_bars. cbv zeta.
  set (w1 := store x _ w).
  assert (H1 : held w0 p x w1) by (now apply held_store).
  assert (Hregs1 : regs (mem w1 x) = NULL)
    by (unfold w1; now rewrite mem_store_same).
  assert (Hstm1 : stm_regs (mem w1 x) = NULL)
    by (unfold w1; now rewrite mem_store_same).
  clearbody w1.
  set (len := if _ >? _ then _ else _).
  destruct (held_iomap_regs w0 p x w1 (QDMA_CONFIG_BAR hdr) len H1 Hregs1 Hstm1)
    as (H2 & Hregs2 & Hstm2).
  cbv zeta in H2, Hregs2, Hstm2.
  destruct (pci_iomap pf p (QDMA_CONFIG_BAR hdr) len w1) as [w2 r].
  cbn [fst snd] in H2, Hregs2, Hstm2.
  set (w3 := store x (set_regs r) w2) in *. clearbody w3.
  destruct (regs (mem w3 x) =? NULL); [split; [exact H2 | now right] |].
  destruct (config_bar_id_ok build pf w3 x); cbn [negb].
  2: { split; [apply (held_unmap_bars w0 p x w3 H2) | now right]. }
  destruct (device (pci_dev_at pf p) =? STM_ENABLED_DEVICE hdr).
  - destruct (held_iomap_stm w0 p x w3 (STM_BAR hdr)
                (i32 (pci_resource_len_rv pf p (STM_BAR hdr))) H2 Hstm2)
      as (H4 & Hregs4 & Hstm4).
    cbv zeta in H4, Hregs4, Hstm4.
    destruct (pci_iomap pf p (STM_BAR hdr)
                (i32 (pci_resource_len_rv pf p (STM_BAR hdr))) w3)
      as [w4 r'].
    cbn [fst snd] in H4, Hregs4, Hstm4.
    set (w5 := store x (set_stm_regs r') w4) in *. clearbody w5.
    destruct (stm_regs (mem w5 x) =? NULL); [split; [exact H4 | now right] |].
    destruct (stm_rev_ok hdr _); cbn [negb].
    + split; [| now left]. cbn [fst]. now apply held_store.
    + split; [apply (held_unmap_bars w0 p x w5 H4) | now right].
  - split; [| now left]. cbn [fst]. now apply held_store.
Qed.


Lemma held_flag_set w0 p x w f :
  held w0 p x w -> held w0 p x (xdev_flag_set x f w).
Proof. intros H. unfold xdev_flag_set. now apply held_store. Qed.

Lemma held_flag_clear w0 p x w f :
  held w0 p x w -> held w0 p x (xdev_flag_clear x f w).
Proof. intros H. unfold xdev_flag_clear. now apply held_store. Qed.

Lemma held_offline w0 p x w p' :
  held w0 p x w -> held w0 p x (qdma_device_offline hdr build p' x w).
Proof.
  intros H. unfold qdma_device_offline.
  destruct (x =? 0); [assumption |].
  destruct (xdev_check_hndl w p' x <? 0); [assumption |].
  unfold qdma_mbox_cleanup, qdma_device_cleanup, xdev_sriov_vf_offline,
    xdev_sriov_disable.
  destruct build as [| []]; repeat apply held_emit; now apply held_flag_set.
Qed.

Lemma held_online w0 p x w p' :
  held w0 p x w -> held w0 p x (fst (qdma_device_online hdr build pf p' x w)).
Proof.
  intros H. unfold qdma_device_online.
  destruct (x =? 0); [assumption |].
  destruct (xdev_check_hndl w p' x <? 0); [assumption |].
  unfold qdma_device_init, online_cleanup_qdma, qdma_device_cleanup,
    qdma_mbox_init, qdma_mbox_start, xdev_sriov_vf_online, xdev_sriov_enable.
  destruct (qdma_device_init_rv pf x <? 0); [exact H |].
  destruct build as [| []].
  - destruct (xdev_sriov_vf_online_rv pf x <? 0); cbn [fst];
      repeat apply held_emit; now apply held_flag_clear.
  - match goal with |- context [if negb ?c then _ else _] => destruct c end;
      cbn [negb fst].
    + repeat apply held_emit; now apply held_flag_clear.
    + match goal with |- context [if ?c <? 0 then _ else _] =>
                        destruct (c <? 0) end;
        cbn [fst]; repeat apply held_emit; now apply held_flag_clear.
  - cbn [fst]. repeat apply held_emit; now apply held_flag_clear.
Qed.

(** The labels of [qdma_device_open] undo what is held. *)
Lemma open_release_regions_restores w0 p x w rv :
  xdev_list w = xdev_list w0 -> pci_regions w = p :: pci_regions w0 ->
  pci_enabled w = pci_enabled w0 -> iomapped w = iomapped w0 ->
  (forall b, b <> x -> mem w b = mem w0 b) ->
  restored w0 x (fst (open_release_regions p rv w))
  /\ snd (open_release_regions p rv w) = rv.
Proof.
  intros Hl Hr He Hi Hm. unfold open_release_regions, restored. simpl.
  rewrite Hr, remove_one_head. repeat split; assumption.
Qed.

Lemma open_disable_device_restores w0 p x w rv :
  xdev_list w = xdev_list w0 -> pci_regions w = p :: pci_regions w0 ->
  pci_enabled w = p :: pci_enabled w0 -> iomapped w = iomapped w0 ->
  (forall b, b <> x -> mem w b = mem w0 b) ->
  restored w0 x (fst (open_disable_device p rv w))
  /\ snd (open_disable_device p rv w) = rv.
Proof.
  intros Hl Hr He Hi Hm. unfold open_disable_device.
  apply open_release_regions_restores; simpl; try assumption.
  now rewrite He, remove_one_head.
Qed.

Lemma open_unmap_bars_restores w0 p x w rv :
  ~ In x (xdev_list w0) -> held w0 p x w ->
  restored w0 x (fst (open_unmap_bars x p rv w))
  /\ snd (open_unmap_bars x p rv w) = rv.
Proof.
  intros Hfresh Hheld. unfold open_unmap_bars. cbv zeta.
  destruct (held_unmap_bars w0 p x w Hheld)
    as ((Hl & Hr & He & Hi & Hm) & Hregs & Hstm).
  rewrite Hregs, Hstm in Hi. cbn in Hi.
  apply open_disable_device_restores; simpl; try assumption.
  rewrite Hl. now apply remove_one_snoc.
Qed.

Lemma open_cleanup_qdma_restores w0 p x w rv :
  ~ In x (xdev_list w0) -> held w0 p x w ->
  restored w0 x (fst (open_cleanup_qdma hdr build x p rv w))
  /\ snd (open_cleanup_qdma hdr build x p rv w) = rv.
Proof.
  intros Hfresh Hheld. unfold open_cleanup_qdma.
  apply open_unmap_bars_restores; [assumption | now apply held_offline].
Qed.


Lemma pci_dma_mask_set_spec p w :
  (snd (pci_dma_mask_set pf p w) = 0 \/ snd (pci_dma_mask_set pf p w) = - EINVAL)
  /\ xdev_list (fst (pci_dma_mask_set pf p w)) = xdev_list w
  /\ pci_regions (fst (pci_dma_mask_set pf p w)) = pci_regions w
  /\ pci_enabled (fst (pci_dma_mask_set pf p w)) = pci_enabled w
  /\ iomapped (fst (pci_dma_mask_set pf p w)) = iomapped w
  /\ mem (fst (pci_dma_mask_set pf p w)) = mem w.
Proof.
  unfold pci_dma_mask_set, pci_set_dma_mask, pci_set_consistent_dma_mask.
  destruct (pci_set_dma_mask_rv pf p 64 =? 0);
    [| destruct (pci_set_dma_mask_rv pf p 32 =? 0)];
    cbn [fst snd]; repeat split; auto.
Qed.

Lemma open_create_spec mn c w :
  let r := open_create hdr build pf mn c w in
  xdev_list (fst r)
  = xdev_list w ++ (if kzalloc_rv pf =? NULL then [] else [kzalloc_rv pf])
  /\ snd r = kzalloc_rv pf
  /\ pci_regions (fst r) = pci_regions w
  /\ pci_enabled (fst r) = pci_enabled w
  /\ iomapped (fst r) = iomapped w
  /\ (forall b, b <> kzalloc_rv pf -> mem (fst r) b = mem w b)
  /\ (kzalloc_rv pf <> NULL ->
      regs (mem (fst r) (kzalloc_rv pf)) = NULL
      /\ stm_regs (mem (fst r) (kzalloc_rv pf)) = NULL
      /\ stored_pdev (fst r) (kzalloc_rv pf) = pdev c
      /\ flags (mem (fst r) (kzalloc_rv pf)) = Z.lor 0 (XDEV_FLAG_OFFLINE hdr)).
Proof.
  cbv zeta. unfold open_create, xdev_alloc. cbv zeta.
  destruct (Z.eqb_spec (kzalloc_rv pf) NULL) as [Hnull | Hnn].
  - rewrite Hnull. cbn. rewrite app_nil_r. repeat split; try reflexivity;
      now match goal with H : NULL <> NULL |- _ => elim H end.
  - destruct (Z.eqb_spec (kzalloc_rv pf) NULL) as [| _]; [contradiction |].
    set (x := kzalloc_rv pf) in *.
    set (w3 := xdev_flag_set x (XDEV_FLAG_OFFLINE hdr) _).
    destruct (xdev_list_add_spec hdr build pf x w3)
      as (Hl & Hother & Hx & Hr & He & Hi & _).
    cbv zeta in Hx. cbn [fst snd].
    assert (Hx3 : mem w3 x
                  = set_flags (Z.lor 0 (XDEV_FLAG_OFFLINE hdr))
                      (set_mod_name
                         (firstn (Z.to_nat (QDMA_DEV_NAME_MAXLEN hdr - 1)) mn)
                         (set_caps 1 1 1 1 (set_conf c zero_xdev)))).
    { unfold w3, xdev_flag_set. rewrite !mem_store_same. reflexivity. }
    repeat split.
    + exact Hl.
    + exact Hr.
    + exact He.
    + exact Hi.
    + intros b Hb. rewrite Hother by assumption.
      unfold w3, xdev_flag_set. rewrite !mem_store_other by assumption.
      reflexivity.
    + rewrite Hx, Hx3. reflexivity.
    + rewrite Hx, Hx3. reflexivity.
    + unfold stored_pdev. rewrite Hx, Hx3. reflexivity.
    + rewrite Hx, Hx3. reflexivity.
Qed.


Lemma restored_refl w x : restored w x w.
Proof. repeat split. Qed.

Lemma open_unmap_bars_rv x p rv w : snd (open_unmap_bars x p rv w) = rv.
Proof. reflexivity. Qed.

Ltac returned :=
  split; [reflexivity | split; [intros Hfresh | intros Hneg Herrno HK]].

Lemma open_setup_spec mn c0 w :
  match open_setup hdr build pf mn c0 w with
  | OpenReturned w' res =>
      open_hndl res = 0
      /\ (~ In (kzalloc_rv pf) (xdev_list w) ->
          restored w (kzalloc_rv pf) w')
      /\ (header_errors_negative hdr -> errno_convention pf ->
          kzalloc_rv pf <> NULL -> open_rv res < 0)
  | OpenReady w1 p xdev c =>
      xdev = kzalloc_rv pf /\ xdev <> NULL /\ held w p xdev w1
      /\ p = pdev c0
  end.
Proof.
  unfold open_setup.
  destruct mn as [mn |];
    [| returned; [apply restored_refl | apply Hneg]].
  cbv zeta.
  destruct (pdev c0 =? NULL);
    [returned; [apply restored_refl | apply Hneg] |].
  set (p := pdev c0). set (c := conf_set_bars (-1) (-1) c0).
  destruct (xdev_find_by_pdev w p =? NULL); cbn [negb];
    [| returned; [apply restored_refl | apply Hneg]].
  (* pci_request_regions *)
  unfold pci_request_regions. cbv zeta.
  destruct (Z.eqb_spec (pci_request_regions_rv pf p) 0) as [Hreq0 | Hreq0];
    cbn [negb fst snd].
  2: { returned; [repeat split |].
       destruct (Herrno p) as [Hreq _]. cbn [open_rv]. lia. }
  set (w1 := with_pci_regions _ _).
  (* pci_enable_device *)
  unfold pci_enable_device. cbv zeta.
  destruct (Z.eqb_spec (pci_enable_device_rv pf p) 0) as [Hen0 | Hen0];
    cbn [negb fst snd].
  2: { destruct (open_release_regions_restores w p (kzalloc_rv pf)
                   (emit (EvPciEnableDevice p) w1)
                   (pci_enable_device_rv pf p))
         as [Hres Hrv]; try reflexivity.
       rewrite Hrv. returned; [exact Hres |].
       destruct (Herrno p) as [_ Hen]. cbn [open_rv]. lia. }
  set (w2 := pci_set_master p _).
  assert (H2 : xdev_list w2 = xdev_list w
               /\ pci_regions w2 = p :: pci_regions w
               /\ pci_enabled w2 = p :: pci_enabled w
               /\ iomapped w2 = iomapped w /\ mem w2 = mem w)
    by (repeat split).
  destruct H2 as (Hl2 & Hr2 & He2 & Hi2 & Hm2). clearbody w2. clear w1.
  (* pci_dma_mask_set *)
  destruct (pci_dma_mask_set_spec p w2) as (Hdma & Dl & Dr & De & Di & Dm).
  destruct (pci_dma_mask_set pf p w2) as [w3 rv3]. cbn [fst snd] in *.
  rewrite Hl2 in Dl. rewrite Hr2 in Dr. rewrite He2 in De.
  rewrite Hi2 in Di. rewrite Hm2 in Dm.
  assert (Hm3 : forall b, b <> kzalloc_rv pf -> mem w3 b = mem w b)
    by (intros b _; now rewrite Dm).
  destruct (Z.eqb_spec rv3 0) as [Hrv3 | Hrv3]; cbn [negb].
  2: { destruct (open_disable_device_restores w p (kzalloc_rv pf) w3 rv3)
         as [Hres Hrv]; try assumption.
       rewrite Hrv. returned; [exact Hres | cbn [open_rv]].
       destruct Hdma as [-> | ->]; [contradiction | reflexivity]. }
  (* open_create *)
  destruct (open_create_spec mn c w3) as (Cl & Cx & Cr & Ce & Ci & Cm & Cnew).
  cbv zeta in *.
  destruct (open_create hdr build pf mn c w3) as [w4 xdev].
  cbn [fst snd] in *. subst xdev.
  destruct (Z.eqb_spec (kzalloc_rv pf) NULL) as [Hnull | Hnn].
  { rewrite app_nil_r in Cl.
    destruct (open_disable_device_restores w p (kzalloc_rv pf) w4 rv3)
      as [Hres Hrv]; try congruence.
    { intros b Hb. rewrite Cm by assumption. now apply Hm3. }
    rewrite Hrv. returned; [exact Hres | contradiction]. }
  destruct (Cnew Hnn) as (Cregs & Cstm & Cpdev & Cflags).
  set (x := kzalloc_rv pf) in *.
  assert (H4 : held w p x w4).
  { unfold held. rewrite Cregs, Cstm. cbn [cookies Z.eqb NULL app].
    repeat split; try congruence.
    intros b Hb. rewrite Cm by assumption. now apply Hm3. }
  set (w5 := store x _ w4).
  assert (H5 : held w p x w5) by (now apply held_store).
  assert (Hregs5 : regs (mem w5 x) = NULL)
    by (unfold w5; now rewrite mem_store_same).
  assert (Hstm5 : stm_regs (mem w5 x) = NULL)
    by (unfold w5; now rewrite mem_store_same).
  clearbody w5.
  (* xdev_map_bars *)
  destruct (held_map_bars w p x w5 H5 Hregs5 Hstm5) as [H6 Hrv6].
  destruct (xdev_map_bars hdr build pf x p w5) as [w6 rv6].
  cbn [fst snd] in *.
  destruct (Z.eqb_spec rv6 0) as [Hrv60 | Hrv60]; cbn [negb].
  2: { returned.
       - now apply open_unmap_bars_restores.
       - cbn [open_rv]. rewrite open_unmap_bars_rv.
         destruct Hrv6 as [-> | ->]; [contradiction | reflexivity]. }
  assert (H7 : held w p x (program_stm_port_map hdr pf x w6)).
  { unfold program_stm_port_map.
    destruct (negb (stm_en (mem w6 x) =? 0)); [apply held_emit |]; exact H6. }
  set (w7 := program_stm_port_map hdr pf x w6) in *. clearbody w7.
  assert (H8 : held w p x (match build with
                           | QDMA_VF => w7
                           | QDMA_PF _ => qdma_device_attributes_get pf x w7
                           end)).
  { destruct build; [exact H7 |].
    unfold qdma_device_attributes_get.
    destruct (attributes_rv pf x) as [[st mm] ch].
    apply held_store; [now apply held_emit | reflexivity | reflexivity]. }
  set (w8 := match build with
             | QDMA_VF => w7
             | QDMA_PF _ => qdma_device_attributes_get pf x w7
             end) in *.
  clearbody w8.
  match goal with |- context [if ?c then _ else _] => destruct c end.
  - returned.
    + now apply open_unmap_bars_restores.
    + cbn [open_rv]. rewrite open_unmap_bars_rv. apply Hneg.
  - split; [reflexivity | split; [assumption | split; [exact H8 |]]].
    reflexivity.
Qed.

End Lifecycle.

Lemma find_by_pdev_from_ext m m' l p :
  (forall a, In a l -> m' a = m a) ->
  find_by_pdev_from m' l p = find_by_pdev_from m l p.
Proof.
  induction l as [| a l IH]; intros Hext; simpl; [reflexivity |].
  rewrite (Hext a) by (now left).
  rewrite IH by (intros b Hb; apply Hext; now right). reflexivity.
Qed.

Lemma restored_find w0 x w p :
  ~ In x (xdev_list w0) -> restored w0 x w ->
  xdev_find_by_pdev w p = xdev_find_by_pdev w0 p.
Proof.
  intros Hfresh (Hl & _ & _ & _ & Hm). unfold xdev_find_by_pdev.
  rewrite Hl. apply find_by_pdev_from_ext.
  intros a Ha. apply Hm. intros ->. contradiction.
Qed.

(** X26: when [qdma_device_open] hands back a null handle, the list, the
    held regions, the enabled devices and the mapped bars are what they
    were before the call, and every lookup by bus reference answers as
    before: the call leaves no entry, no mapping and no claimed region of
    its own.  Unless the allocation of the object is what failed, the
    value returned is negative. *)
Theorem qdma_device_open_failure :
  forall (hdr : header) (build : build_cfg) (pf : platform)
         (mod_name : option (list ascii)) (conf_in : qdma_dev_conf)
         (w : world),
    header_errors_negative hdr ->
    errno_convention pf ->
    ~ In (kzalloc_rv pf) (xdev_list w) ->
    open_hndl (snd (qdma_device_open hdr build pf mod_name conf_in w)) = 0 ->
    let w' := fst (qdma_device_open hdr build pf mod_name conf_in w) in
    xdev_list w' = xdev_list w
    /\ pci_regions w' = pci_regions w
    /\ pci_enabled w' = pci_enabled w
    /\ iomapped w' = iomapped w
    /\ (forall p, xdev_find_by_pdev w' p = xdev_find_by_pdev w p)
    /\ (kzalloc_rv pf <> NULL ->
        open_rv (snd (qdma_device_open hdr build pf mod_name conf_in w)) < 0).
Proof.
  intros hdr build pf mod_name conf_in w Hneg Herrno Hfresh.
  unfold qdma_device_open.
  pose proof (open_setup_spec hdr build pf mod_name conf_in w) as Hsetup.
  destruct (open_setup hdr build pf mod_name conf_in w)
    as [w1 res | w1 p xdev c].
  - destruct Hsetup as (_ & Hres & Hrv). cbn [fst snd]. intros _.
    specialize (Hres Hfresh).
    pose proof (fun q => restored_find w (kzalloc_rv pf) w1 q Hfresh Hres)
      as Hfind.
    destruct Hres as (Hl & Hr & He & Hi & Hm).
    split; [exact Hl | split; [exact Hr | split; [exact He |]]].
    split; [exact Hi | split; [exact Hfind | intros HK; now apply Hrv]].
  - destruct Hsetup as (-> & Hx & Hheld & _).
    pose proof (held_online hdr build pf w p (kzalloc_rv pf) w1 p Hheld)
      as Hheld2.
    destruct (qdma_device_online hdr build pf p (kzalloc_rv pf) w1)
      as [w2 rv].
    cbn [fst] in Hheld2.
    destruct (Z.ltb_spec rv 0) as [Hlt | Hge]; cbn [fst snd open_hndl open_rv].
    2: { intros H0. contradiction. }
    intros _.
    destruct (open_cleanup_qdma_restores hdr build w p (kzalloc_rv pf) w2 rv
                Hfresh Hheld2) as [Hres _].
    pose proof (fun q => restored_find w (kzalloc_rv pf) _ q Hfresh Hres)
      as Hfind.
    destruct Hres as (Hl & Hr & He & Hi & Hm).
    split; [exact Hl | split; [exact Hr | split; [exact He |]]].
    split; [exact Hi | split; [exact Hfind | intros _; exact Hlt]].
Qed.

Lemma qdma_device_open_failure_witness :
  pci_regions (fst (qdma_device_open sample_header (QDMA_PF true)
                      (init_fails 5000) (Some (chars "qdma_pf"))
                      (sample_conf 1000) empty_world)) = []
  /\ open_rv (snd (qdma_device_open sample_header (QDMA_PF true)
                     (init_fails 5000) (Some (chars "qdma_pf"))
                     (sample_conf 1000) empty_world)) < 0.
Proof.
  assert (Hneg : header_errors_negative sample_header)
    by (repeat split).
  assert (Herrno : errno_convention (init_fails 5000))
    by (intros p; split; discriminate).
  assert (Hfresh : ~ In (kzalloc_rv (init_fails 5000)) (xdev_list empty_world))
    by (intros []).
  destruct (qdma_device_open_failure sample_header (QDMA_PF true)
              (init_fails 5000) (Some (chars "qdma_pf"))
              (sample_conf 1000) empty_world Hneg Herrno Hfresh
              eq_refl) as (_ & Hr & _ & _ & _ & Hrv).
  split; [exact Hr | apply Hrv; discriminate].
Defined.

(** C3: the failure path that does not return an error.  When the
    device is not attached and [pci_request_regions], [pci_enable_device]
    and [pci_dma_mask_set] have succeeded but the allocation of the object
    fails, [qdma_device_open] goes to [disable_device] with [rv] still
    holding the 0 of [pci_dma_mask_set]: it disables the device, releases
    the regions and returns 0 with a null handle. *)
Theorem qdma_device_open_alloc_failure :
  forall (hdr : header) (build : build_cfg) (pf : platform)
         (mn : list ascii) (c : qdma_dev_conf) (w : world),
    pdev c <> NULL ->
    xdev_find_by_pdev w (pdev c) = NULL ->
    pci_request_regions_rv pf (pdev c) = 0 ->
    pci_enable_device_rv pf (pdev c) = 0 ->
    pci_set_dma_mask_rv pf (pdev c) 64 = 0
    \/ pci_set_dma_mask_rv pf (pdev c) 32 = 0 ->
    kzalloc_rv pf = NULL ->
    let r := qdma_device_open hdr build pf (Some mn) c w in
    open_rv (snd r) = 0
    /\ open_hndl (snd r) = 0
    /\ xdev_list (fst r) = xdev_list w
    /\ exists evs,
        trace (fst r)
        = trace w ++ evs
            ++ [EvKzalloc; EvPciDisableDevice (pdev c);
                EvPciReleaseRegions (pdev c)].
Proof.
  intros hdr build pf mn c w Hp Hfind Hreq Hen Hmask Hk.
  unfold qdma_device_open, open_setup. cbv zeta.
  destruct (Z.eqb_spec (pdev c) NULL) as [| _]; [contradiction |].
  rewrite Hfind. cbn [Z.eqb NULL negb].
  unfold pci_request_regions. cbv zeta. rewrite Hreq. cbn [Z.eqb negb].
  unfold pci_enable_device. cbv zeta. rewrite Hen. cbn [Z.eqb negb].
  unfold open_create, xdev_alloc. rewrite Hk.
  unfold pci_dma_mask_set, pci_set_dma_mask, pci_set_consistent_dma_mask.
  cbv zeta.
  destruct (Z.eqb_spec (pci_set_dma_mask_rv pf (pdev c) 64) 0) as [_ | H64].
  - cbn. repeat split; try reflexivity.
    exists [EvPciRequestRegions (pdev c); EvPciEnableDevice (pdev c);
            EvPciRelaxedOrdering (pdev c); EvPciSetMaster (pdev c);
            EvPciSetDmaMask (pdev c) 64;
            EvPciSetConsistentDmaMask (pdev c) 32].
    rewrite <- !app_assoc. reflexivity.
  - destruct Hmask as [H | H32]; [contradiction |].
    rewrite H32. cbn. repeat split; try reflexivity.
    exists [EvPciRequestRegions (pdev c); EvPciEnableDevice (pdev c);
            EvPciRelaxedOrdering (pdev c); EvPciSetMaster (pdev c);
            EvPciSetDmaMask (pdev c) 64; EvPciSetDmaMask (pdev c) 32;
            EvPciSetConsistentDmaMask (pdev c) 32].
    rewrite <- !app_assoc. reflexivity.
Qed.

Lemma qdma_device_open_alloc_failure_witness :
  open_rv (snd (qdma_device_open sample_header (QDMA_PF true) kzalloc_fails
                  (Some (chars "qdma_pf")) (sample_conf 1000)
                  empty_world)) = 0
  /\ open_hndl (snd (qdma_device_open sample_header (QDMA_PF true)
                       kzalloc_fails (Some (chars "qdma_pf"))
                       (sample_conf 1000) empty_world)) = 0.
Proof.
  assert (Hp : pdev (sample_conf 1000) <> NULL) by discriminate.
  assert (Hmask : pci_set_dma_mask_rv kzalloc_fails
                    (pdev (sample_conf 1000)) 64 = 0
                  \/ pci_set_dma_mask_rv kzalloc_fails
                       (pdev (sample_conf 1000)) 32 = 0)
    by (left; reflexivity).
  destruct (qdma_device_open_alloc_failure sample_header (QDMA_PF true)
              kzalloc_fails (chars "qdma_pf") (sample_conf 1000) empty_world
              Hp eq_refl eq_refl eq_refl Hmask eq_refl)
    as (Hrv & Hh & _).
  split; [exact Hrv | exact Hh].
Defined.

(** ** Failure of the online step inside open *)

Lemma xdev_unmap_bars_frame x p w :
  xdev_list (xdev_unmap_bars x p w) = xdev_list w
  /\ pci_regions (xdev_unmap_bars x p w) = pci_regions w
  /\ pci_enabled (xdev_unmap_bars x p w) = pci_enabled w.
Proof.
  unfold xdev_unmap_bars.
  destruct (regs (mem w x) =? NULL);
    match goal with |- context [if ?c then _ else _] => destruct c end;
    repeat split.
Qed.

Lemma qdma_device_offline_frame hdr build p h w :
  xdev_list (qdma_device_offline hdr build p h w) = xdev_list w
  /\ pci_regions (qdma_device_offline hdr build p h w) = pci_regions w
  /\ pci_enabled (qdma_device_offline hdr build p h w) = pci_enabled w
  /\ iomapped (qdma_device_offline hdr build p h w) = iomapped w.
Proof.
  unfold qdma_device_offline.
  destruct (h =? 0); [repeat split |].
  destruct (xdev_check_hndl w p h <? 0); [repeat split |].
  destruct build as [| []]; repeat split.
Qed.

(** C4, as amended: when the setup of [qdma_device_open] has gone through
    and [qdma_device_online] fails, open returns that error and a null
    handle after running [qdma_device_offline], unmapping the bars,
    unlinking and freeing the object, disabling the device and releasing
    the regions, in this order: the regions and the enabled device are
    back to what they were before the call, and so is the list when the
    object was not on it.  [qdma_device_close] releases the regions as
    well. *)
Theorem qdma_device_open_online_failure :
  forall (hdr : header) (build : build_cfg) (pf : platform)
         (mod_name : option (list ascii)) (conf_in : qdma_dev_conf)
         (w w1 : world) (p xdev : ptr) (c : qdma_dev_conf),
    open_setup hdr build pf mod_name conf_in w = OpenReady w1 p xdev c ->
    snd (qdma_device_online hdr build pf p xdev w1) < 0 ->
    let w2 := fst (qdma_device_online hdr build pf p xdev w1) in
    let r := qdma_device_open hdr build pf mod_name conf_in w in
    open_rv (snd r) = snd (qdma_device_online hdr build pf p xdev w1)
    /\ open_hndl (snd r) = 0
    /\ trace (fst r)
       = trace (xdev_unmap_bars xdev p
                  (qdma_device_offline hdr build p xdev w2))
           ++ [EvKfree xdev; EvPciDisableDevice p; EvPciReleaseRegions p]
    /\ pci_regions w1 = p :: pci_regions w
    /\ pci_regions (fst r) = pci_regions w
    /\ pci_enabled (fst r) = pci_enabled w
    /\ (forall v q h,
          h <> 0 -> xdev_check_hndl v q h = 0 ->
          pci_regions (qdma_device_close hdr build q h v)
          = remove_one q (pci_regions v))
    /\ (~ In xdev (xdev_list w) -> xdev_list (fst r) = xdev_list w).
Proof.
  intros hdr build pf mod_name conf_in w w1 p xdev c Hsetup Hfail w2 r.
  pose proof (open_setup_spec hdr build pf mod_name conf_in w) as Hspec.
  rewrite Hsetup in Hspec. destruct Hspec as (_ & _ & Hheld & _).
  pose proof (held_online hdr build pf w p xdev w1 p Hheld) as Hheld2.
  fold w2 in Hheld2.
  assert (Hlist : ~ In xdev (xdev_list w) ->
                  xdev_list (fst (open_cleanup_qdma hdr build xdev p
                                    (snd (qdma_device_online hdr build pf p
                                            xdev w1)) w2))
                  = xdev_list w).
  { intros Hfresh.
    destruct (open_cleanup_qdma_restores hdr build w p xdev w2
                (snd (qdma_device_online hdr build pf p xdev w1))
                Hfresh Hheld2) as [(Hl & _) _].
    exact Hl. }
  pose proof (held_offline hdr build w p xdev w2 p Hheld2) as Hheld3.
  destruct (held_unmap_bars w p xdev _ Hheld3) as ((_ & Hr4 & He4 & _) & _).
  subst r. unfold qdma_device_open. rewrite Hsetup.
  unfold w2 in *.
  destruct (qdma_device_online hdr build pf p xdev w1) as [w2' rv].
  cbn [fst snd] in *.
  destruct (Z.ltb_spec rv 0) as [_ | Hge]; [| lia].
  cbn [fst snd open_rv open_hndl].
  split; [reflexivity | split; [reflexivity | split]].
  { cbn. rewrite <- !app_assoc. reflexivity. }
  split; [apply Hheld |].
  split; [| split; [| split; [| exact Hlist]]].
  - cbn. rewrite Hr4. apply remove_one_head.
  - cbn. rewrite He4. apply remove_one_head.
  - intros v q h Hh Hok. unfold qdma_device_close.
    destruct (Z.eqb_spec h 0) as [| _]; [contradiction |].
    rewrite Hok. cbn.
    destruct (xdev_unmap_bars_frame h q (qdma_device_offline hdr build q h v))
      as (_ & -> & _).
    destruct (qdma_device_offline_frame hdr build q h v) as (_ & -> & _).
    reflexivity.
Qed.

Lemma qdma_device_open_online_failure_witness :
  open_rv (snd (qdma_device_open sample_header (QDMA_PF true)
                  (init_fails 5000) (Some (chars "qdma_pf"))
                  (sample_conf 1000) empty_world)) = -5
  /\ pci_regions ready_to_fail = [1000]
  /\ pci_regions (fst (qdma_device_open sample_header (QDMA_PF true)
                         (init_fails 5000) (Some (chars "qdma_pf"))
                         (sample_conf 1000) empty_world)) = [].
Proof.
  assert (Hsetup :
            open_setup sample_header (QDMA_PF true) (init_fails 5000)
              (Some (chars "qdma_pf")) (sample_conf 1000) empty_world
            = OpenReady ready_to_fail 1000 5000
                        (conf (mem ready_to_fail 5000))).
  { vm_compute. reflexivity. }
  assert (Hfail : snd (qdma_device_online sample_header (QDMA_PF true)
                         (init_fails 5000) 1000 5000 ready_to_fail) < 0).
  { vm_compute. reflexivity. }
  destruct (qdma_device_open_online_failure sample_header (QDMA_PF true)
              (init_fails 5000) (Some (chars "qdma_pf"))
              (sample_conf 1000) empty_world ready_to_fail 1000 5000
              (conf (mem ready_to_fail 5000)) Hsetup Hfail)
    as (Hrv & _ & _ & Hheld & Hreleased & _).
  split; [rewrite Hrv; vm_compute; reflexivity |].
  split; [exact Hheld | exact Hreleased].
Defined.

(** C4, as stated, fails: with [qdma_device_init] failing, open claims
    the regions of the device, and its failure path ends by disabling the
    device and releasing the regions. *)
Lemma qdma_device_open_online_failure_counterexample :
  let r := qdma_device_open sample_header (QDMA_PF true) (init_fails 5000)
             (Some (chars "qdma_pf")) (sample_conf 1000)
             empty_world in
  open_rv (snd r) = -5
  /\ trace (fst r)
     = [EvPciRequestRegions 1000; EvPciEnableDevice 1000;
        EvPciRelaxedOrdering 1000; EvPciSetMaster 1000;
        EvPciSetDmaMask 1000 64; EvPciSetConsistentDmaMask 1000 32;
        EvKzalloc; EvPciIomap 1000 0 4096; EvAttributesGet 5000;
        EvDeviceInit 5000; EvDeviceCleanup 5000;
        EvSriovDisable 5000; EvDeviceCleanup 5000; EvMboxCleanup 5000;
        EvPciIounmap 1000 1100; EvKfree 5000;
        EvPciDisableDevice 1000; EvPciReleaseRegions 1000]
  /\ pci_regions (fst r) = [].
Proof. vm_compute. repeat split. Qed.

(** ** The offline flag *)

Lemma land_lor_same a b : Z.land (Z.lor a b) b = b.
Proof.
  apply Z.bits_inj'. intros n Hn.
  rewrite Z.land_spec, Z.lor_spec.
  destruct (Z.testbit a n), (Z.testbit b n); reflexivity.
Qed.

Lemma land_ldiff_same a b : Z.land (Z.ldiff a b) b = 0.
Proof.
  apply Z.bits_inj'. intros n Hn.
  rewrite Z.land_spec, Z.ldiff_spec, Z.bits_0.
  destruct (Z.testbit a n), (Z.testbit b n); reflexivity.
Qed.

(** C8, as amended: the object that lines 628 to 636 of
    [qdma_device_open] create and put on the list has the offline flag
    set.  [qdma_device_online] leaves the memory as it is and returns an
    error when the handle is null or not valid or [qdma_device_init]
    fails; once [qdma_device_init] has succeeded the flag is clear when
    online returns, whether the later steps succeed or not; so it is clear
    whenever online returns 0. *)
Theorem offline_flag_life :
  forall (hdr : header) (build : build_cfg) (pf : platform),
    XDEV_FLAG_OFFLINE hdr <> 0 ->
    (forall mn c w,
        kzalloc_rv pf <> NULL ->
        let r := open_create hdr build pf mn c w in
        In (snd r) (xdev_list (fst r)) /\ offline hdr (fst r) (snd r) = true)
    /\
    (forall p h w,
        let r := qdma_device_online hdr build pf p h w in
        (h = 0 \/ xdev_check_hndl w p h <> 0 \/ qdma_device_init_rv pf h < 0 ->
         snd r < 0 /\ mem (fst r) = mem w)
        /\ (h <> 0 -> xdev_check_hndl w p h = 0 ->
            0 <= qdma_device_init_rv pf h ->
            offline hdr (fst r) h = false)
        /\ (snd r = 0 -> offline hdr (fst r) h = false)).
Proof.
  intros hdr build pf Hflag. split.
  - intros mn c w Hnn r.
    destruct (open_create_spec hdr build pf mn c w)
      as (Hl & Hx & _ & _ & _ & _ & Hnew).
    fold r in Hl, Hx, Hnew.
    destruct (Hnew Hnn) as (_ & _ & _ & Hflags).
    destruct (Z.eqb_spec (kzalloc_rv pf) NULL) as [| _]; [contradiction |].
    split.
    + rewrite Hl, Hx. apply in_or_app. right. now left.
    + unfold offline, xdev_flag_check. rewrite Hx, Hflags.
      rewrite land_lor_same.
      destruct (Z.eqb_spec (XDEV_FLAG_OFFLINE hdr) 0);
        [contradiction | reflexivity].
  - intros p h w r.
    assert (Hearly : h = 0 \/ xdev_check_hndl w p h <> 0
                     \/ qdma_device_init_rv pf h < 0 ->
                     snd r < 0 /\ mem (fst r) = mem w).
    { subst r. unfold qdma_device_online. intros Hcase.
      destruct (Z.eqb_spec h 0) as [_ | Hh]; [now split |].
      destruct (xdev_check_hndl_values w p h) as [Hok | Hbad].
      - rewrite Hok. cbn [Z.ltb Z.compare].
        unfold qdma_device_init, online_cleanup_qdma. 
        destruct (Z.ltb_spec (qdma_device_init_rv pf h) 0) as [Hlt | Hge].
        + now split.
        + destruct Hcase as [? | [? | ?]]; [contradiction | contradiction | lia].
      - rewrite Hbad. now split. }
    assert (Hlate : h <> 0 -> xdev_check_hndl w p h = 0 ->
                    0 <= qdma_device_init_rv pf h ->
                    offline hdr (fst r) h = false).
    { subst r. unfold qdma_device_online. intros Hh Hok Hinit.
      destruct (Z.eqb_spec h 0) as [| _]; [contradiction |].
      rewrite Hok. cbn [Z.ltb Z.compare].
      unfold qdma_device_init, online_cleanup_qdma.
      destruct (Z.ltb_spec (qdma_device_init_rv pf h) 0) as [Hlt | _];
        [lia |].
      assert (Hclear :
                forall v, mem v = mem (xdev_flag_clear h (XDEV_FLAG_OFFLINE hdr)
                                         (emit (EvDeviceInit h) w)) ->
                          offline hdr v h = false).
      { intros v Hv. unfold offline, xdev_flag_check. rewrite Hv.
        unfold xdev_flag_clear. rewrite mem_store_same.
        cbn [flags set_flags]. now rewrite land_ldiff_same. }
      destruct build as [| []].
      - unfold xdev_sriov_vf_online.
        destruct (xdev_sriov_vf_online_rv pf h <? 0); now apply Hclear.
      - match goal with |- context [if negb ?c then _ else _] => destruct c end;
          cbn [negb].
        + now apply Hclear.
        + unfold xdev_sriov_enable.
          match goal with |- context [if ?c <? 0 then _ else _] =>
                            destruct (c <? 0) end; now apply Hclear.
      - now apply Hclear. }
    split; [exact Hearly | split; [exact Hlate |]].
    intros Hzero.
    destruct (Z.eq_dec h 0) as [Hh | Hh].
    { destruct Hearly as [Hneg _]; [now left | lia]. }
    destruct (Z.eq_dec (xdev_check_hndl w p h) 0) as [Hok | Hbad].
    2: { destruct Hearly as [Hneg _]; [right; now left | lia]. }
    destruct (Z_lt_le_dec (qdma_device_init_rv pf h) 0) as [Hlt | Hge].
    { destruct Hearly as [Hneg _]; [right; now right | lia]. }
    now apply Hlate.
Qed.

Lemma offline_flag_life_witness :
  offline sample_header created 5000 = true
  /\ offline sample_header
       (fst (qdma_device_online sample_header QDMA_VF (sample_platform 5000)
               1000 5000 created)) 5000 = false.
Proof.
  assert (Hflag : XDEV_FLAG_OFFLINE sample_header <> 0) by discriminate.
  destruct (offline_flag_life sample_header QDMA_VF (sample_platform 5000)
              Hflag) as [Hcreate Honline].
  split.
  - assert (Hnn : kzalloc_rv (sample_platform 5000) <> NULL) by discriminate.
    destruct (Hcreate (chars "qdma_vf") (sample_conf 1000) empty_world Hnn)
      as [_ Hset].
    exact Hset.
  - destruct (Honline 1000 5000 created) as (_ & Hlate & _).
    apply Hlate.
    + discriminate.
    + vm_compute. reflexivity.
    + vm_compute. discriminate.
Defined.

(** C8, as stated, fails: in the virtual function driver, with
    [qdma_device_init] succeeding and [xdev_sriov_vf_online] failing,
    [qdma_device_online] returns the error and leaves the offline flag of
    the object clear. *)
Lemma offline_flag_counterexample :
  let r := qdma_device_online sample_header QDMA_VF (vf_online_fails 5000)
             1000 5000 created in
  offline sample_header created 5000 = true
  /\ snd r = -16
  /\ offline sample_header (fst r) 5000 = false.
Proof. vm_compute. repeat split. Qed.

(** * Further properties of the registry *)

Lemma find_by_pdev_from_snoc_none m l x q :
  (forall a, In a l -> pdev (conf (m a)) <> q) ->
  find_by_pdev_from m (l ++ [x]) q
  = if pdev (conf (m x)) =? q then x else NULL.
Proof.
  induction l as [| a l IH]; intros Hnone; simpl; [reflexivity |].
  destruct (Z.eqb_spec (pdev (conf (m a))) q) as [Heq | _].
  - exfalso. apply (Hnone a); [now left | assumption].
  - apply IH. intros b Hb. apply Hnone. now right.
Qed.

Lemma find_by_pdev_from_snoc_some m l x q :
  (exists a, In a l /\ pdev (conf (m a)) = q) ->
  find_by_pdev_from m (l ++ [x]) q = find_by_pdev_from m l q.
Proof.
  induction l as [| a l IH]; intros (b & Hb & Hst); simpl; [destruct Hb |].
  destruct (Z.eqb_spec (pdev (conf (m a))) q) as [_ | Hne]; [reflexivity |].
  apply IH. destruct Hb as [-> | Hb]; [contradiction | now exists b].
Qed.

Lemma find_by_pdev_from_stored m m' l q :
  (forall a, pdev (conf (m' a)) = pdev (conf (m a))) ->
  find_by_pdev_from m' l q = find_by_pdev_from m l q.
Proof.
  intros Hst. induction l as [| a l IH]; simpl; [reflexivity |].
  now rewrite Hst, IH.
Qed.

(** X1: lookup by bus reference after an insertion.  The inserted device
    answers for its bus reference when no entry stored that reference
    before; a reference some entry stored already keeps its answer, so a
    second device with the same reference is shadowed; any other reference
    is still not found. *)
Theorem xdev_find_by_pdev_after_add :
  forall (hdr : header) (build : build_cfg) (pf : platform)
         (w : world) (xdev q : ptr),
    let w' := xdev_list_add hdr build pf xdev w in
    ((forall a, In a (xdev_list w) -> stored_pdev w a <> stored_pdev w xdev) ->
     xdev_find_by_pdev w' (stored_pdev w xdev) = xdev)
    /\ ((exists a, In a (xdev_list w) /\ stored_pdev w a = q) ->
        xdev_find_by_pdev w' q = xdev_find_by_pdev w q)
    /\ ((forall a, In a (xdev_list w) -> stored_pdev w a <> q) ->
        q <> stored_pdev w xdev ->
        xdev_find_by_pdev w' q = NULL).
Proof.
  intros hdr build pf w xdev q w'.
  assert (Hfind : forall r,
             xdev_find_by_pdev w' r
             = find_by_pdev_from (mem w) (xdev_list w ++ [xdev]) r).
  { intros r. unfold xdev_find_by_pdev, w'.
    destruct (xdev_list_add_spec hdr build pf xdev w) as (-> & _).
    apply find_by_pdev_from_stored. intros a.
    apply (xdev_list_add_stored_pdev hdr build pf xdev w a). }
  rewrite !Hfind. unfold stored_pdev, xdev_find_by_pdev.
  split; [| split].
  - intros Hnone. rewrite find_by_pdev_from_snoc_none by assumption.
    now rewrite Z.eqb_refl.
  - intros Hsome. now apply find_by_pdev_from_snoc_some.
  - intros Hnone Hq. rewrite find_by_pdev_from_snoc_none by assumption.
    destruct (Z.eqb_spec (pdev (conf (mem w xdev))) q); [congruence | reflexivity].
Qed.

Lemma xdev_find_by_pdev_after_add_witness :
  xdev_find_by_pdev
    (xdev_list_add sample_header (QDMA_PF true) (sample_platform 0) 5000
       three_objects) 1000 = 5000
  /\ xdev_find_by_pdev
       (xdev_list_add sample_header (QDMA_PF true) (sample_platform 0) 7000
          two_devices) 1001 = xdev_find_by_pdev two_devices 1001
  /\ xdev_find_by_pdev
       (xdev_list_add sample_header (QDMA_PF true) (sample_platform 0) 5000
          three_objects) 2000 = NULL.
Proof.
  split; [| split].
  - apply (xdev_find_by_pdev_after_add sample_header (QDMA_PF true)
             (sample_platform 0) three_objects 5000 0).
    intros a [].
  - apply (xdev_find_by_pdev_after_add sample_header (QDMA_PF true)
             (sample_platform 0) two_devices 7000 1001).
    exists 6000. rewrite two_devices_list.
    split; [right; left; reflexivity | vm_compute; reflexivity].
  - apply (xdev_find_by_pdev_after_add sample_header (QDMA_PF true)
             (sample_platform 0) three_objects 5000 2000).
    + intros a [].
    + vm_compute. discriminate.
Defined.

Lemma remove_one_In a b l : In b (remove_one a l) -> In b l.
Proof.
  induction l as [| c l IH]; simpl; [tauto |].
  destruct (Z.eqb_spec c a); [now right |].
  intros [-> | Hin]; [now left | right; now apply IH].
Qed.

Lemma remove_one_In_other a b l : b <> a -> In b l -> In b (remove_one a l).
Proof.
  intros Hne. induction l as [| c l IH]; simpl; [tauto |].
  destruct (Z.eqb_spec c a) as [-> | _].
  - intros [<- | Hin]; [contradiction | assumption].
  - intros [-> | Hin]; [now left | right; now apply IH].
Qed.

Lemma remove_one_NoDup a l : NoDup l -> ~ In a (remove_one a l).
Proof.
  induction 1 as [| c l Hc Hnd IH]; simpl; [tauto |].
  destruct (Z.eqb_spec c a) as [-> | Hne]; [assumption |].
  intros [-> | Hin]; [now apply Hne | now apply IH].
Qed.

Lemma find_by_pdev_from_In m l q :
  find_by_pdev_from m l q <> NULL -> In (find_by_pdev_from m l q) l.
Proof.
  induction l as [| a l IH]; simpl; [congruence |].
  destruct (pdev (conf (m a)) =? q); [now left | right; now apply IH].
Qed.

Lemma find_by_pdev_from_none m l q :
  (forall a, In a l -> pdev (conf (m a)) <> q) ->
  find_by_pdev_from m l q = NULL.
Proof.
  induction l as [| a l IH]; intros Hnone; simpl; [reflexivity |].
  destruct (Z.eqb_spec (pdev (conf (m a))) q) as [Heq | _].
  - exfalso. apply (Hnone a); [now left | assumption].
  - apply IH. intros b Hb. apply Hnone. now right.
Qed.

(** X2: removal.  [xdev_list_remove] writes no object, so no index is
    recomputed; on a list without repetition the device is gone and every
    other entry stays; its handle is turned down by [xdev_check_hndl] for
    every bus reference, and the lookup by its bus reference finds nothing
    when no other entry stores that reference. *)
Theorem xdev_list_remove_spec :
  forall (w : world) (xdev : ptr),
    NoDup (xdev_list w) ->
    let w' := xdev_list_remove xdev w in
    mem w' = mem w
    /\ (forall a, In a (xdev_list w') <-> In a (xdev_list w) /\ a <> xdev)
    /\ (forall q, xdev <> NULL -> xdev_check_hndl w' q xdev = - EINVAL)
    /\ ((forall a, In a (xdev_list w) -> a <> xdev ->
                   stored_pdev w a <> stored_pdev w xdev) ->
        xdev_find_by_pdev w' (stored_pdev w xdev) = NULL).
Proof.
  intros w xdev Hnd w'.
  assert (Hgone : ~ In xdev (xdev_list w'))
    by (apply remove_one_NoDup; assumption).
  split; [reflexivity | split; [| split]].
  - intros a. split.
    + intros Hin. split; [now apply (remove_one_In xdev) |].
      intros ->. contradiction.
    + intros [Hin Hne]. now apply remove_one_In_other.
  - intros q Hx.
    destruct (xdev_check_hndl_values w' q xdev) as [Hok | Hbad];
      [| assumption].
    exfalso. apply xdev_check_hndl_ok in Hok as (_ & _ & Hfind).
    apply Hgone. rewrite <- Hfind. apply find_by_pdev_from_In.
    unfold xdev_find_by_pdev in Hfind. now rewrite Hfind.
  - intros Hothers. apply find_by_pdev_from_none.
    intros a Ha. apply Hothers.
    + now apply (remove_one_In xdev).
    + intros ->. contradiction.
Qed.

Lemma xdev_list_remove_spec_witness :
  xdev_check_hndl (xdev_list_remove 5000 two_devices) 1000 5000 = - EINVAL
  /\ xdev_find_by_pdev (xdev_list_remove 5000 two_devices) 1000 = NULL.
Proof.
  assert (Hnd : NoDup (xdev_list two_devices)).
  { rewrite two_devices_list.
    constructor; [intros [H | []]; discriminate |].
    constructor; [intros [] | constructor]. }
  destruct (xdev_list_remove_spec two_devices 5000 Hnd)
    as (_ & _ & Hcheck & Hfind).
  split.
  - apply Hcheck. discriminate.
  - apply Hfind. intros a Ha Hne. rewrite two_devices_list in Ha.
    destruct Ha as [<- | [<- | []]]; [now elim Hne |].
    vm_compute. discriminate.
Defined.

(** X3: an insertion followed by the removal of the same object gives the
    list back, whatever build and platform; the objects that were on the
    list are as they were. *)
Theorem xdev_list_add_remove :
  forall (hdr : header) (build : build_cfg) (pf : platform)
         (w : world) (xdev : ptr),
    ~ In xdev (xdev_list w) ->
    let w' := xdev_list_remove xdev (xdev_list_add hdr build pf xdev w) in
    xdev_list w' = xdev_list w
    /\ (forall a, In a (xdev_list w) -> mem w' a = mem w a)
    /\ (forall q, xdev_find_by_pdev w' q = xdev_find_by_pdev w q).
Proof.
  intros hdr build pf w xdev Hfresh w'.
  destruct (xdev_list_add_spec hdr build pf xdev w) as (Hl & Hother & _).
  assert (Hlist : xdev_list w' = xdev_list w).
  { unfold w', xdev_list_remove. cbn [xdev_list with_xdev_list].
    rewrite Hl. now apply remove_one_snoc. }
  assert (Hmem : forall a, In a (xdev_list w) -> mem w' a = mem w a).
  { intros a Ha. unfold w', xdev_list_remove. cbn [mem with_xdev_list].
    apply Hother. intros ->. contradiction. }
  split; [exact Hlist | split; [exact Hmem |]].
  intros q. unfold xdev_find_by_pdev. rewrite Hlist.
  now apply find_by_pdev_from_ext.
Qed.

Lemma xdev_list_add_remove_witness :
  xdev_list (xdev_list_remove 7000
               (xdev_list_add sample_header (QDMA_PF true)
                  (sample_platform 0) 7000 two_devices))
  = xdev_list two_devices.
Proof.
  apply (xdev_list_add_remove sample_header (QDMA_PF true)
           (sample_platform 0) two_devices 7000).
  rewrite two_devices_list. intros [H | [H | []]]; discriminate.
Defined.

Lemma find_by_idx_from_cases m l i :
  (find_by_idx_from m l i = NULL /\
   forall a, In a l -> a <> NULL -> bdf (conf (m a)) <> u32 i)
  \/
  (exists l1 l2,
      l = l1 ++ find_by_idx_from m l i :: l2 /\
      bdf (conf (m (find_by_idx_from m l i))) = u32 i /\
      forall b, In b l1 -> bdf (conf (m b)) <> u32 i).
Proof.
  induction l as [| a l IH]; simpl.
  - left. split; [reflexivity | intros a []].
  - destruct (Z.eqb_spec (bdf (conf (m a))) (u32 i)) as [Heq | Hne].
    + right. exists [], l. simpl. repeat split; [assumption | intros b []].
    + destruct IH as [[Hnull Hall] | (l1 & l2 & Hl & Hst & Hbefore)].
      * left. split; [assumption |].
        intros b [<- | Hin] Hb; [assumption | now apply Hall].
      * right. exists (a :: l1), l2. simpl. repeat split.
        -- now rewrite <- Hl.
        -- assumption.
        -- intros b [<- | Hin]; [assumption | now apply Hbefore].
Qed.

Lemma find_by_idx_from_snoc_none m l x i :
  (forall a, In a l -> bdf (conf (m a)) <> u32 i) ->
  find_by_idx_from m (l ++ [x]) i
  = if bdf (conf (m x)) =? u32 i then x else NULL.
Proof.
  induction l as [| a l IH]; intros Hnone; simpl; [reflexivity |].
  destruct (Z.eqb_spec (bdf (conf (m a))) (u32 i)) as [Heq | _].
  - exfalso. apply (Hnone a); [now left | assumption].
  - apply IH. intros b Hb. apply Hnone. now right.
Qed.

Lemma find_by_idx_from_ext m m' l i :
  (forall a, In a l -> m' a = m a) ->
  find_by_idx_from m' l i = find_by_idx_from m l i.
Proof.
  induction l as [| a l IH]; intros Hext; simpl; [reflexivity |].
  rewrite (Hext a) by (now left).
  rewrite IH by (intros b Hb; apply Hext; now right). reflexivity.
Qed.

Lemma find_by_idx_from_u32 m l i j :
  u32 i = u32 j -> find_by_idx_from m l i = find_by_idx_from m l j.
Proof.
  intros Hij. induction l as [| a l IH]; simpl; [reflexivity |].
  now rewrite Hij, IH.
Qed.

(** X4: [xdev_find_by_idx] looks a device up by its bus address
    ([conf.bdf]), not by its per-card index, and takes its [int] argument
    as an unsigned word: it yields the first entry of the list whose bus
    address is the argument modulo 2^32, or NULL when no entry has it; two
    arguments that agree modulo 2^32 give the same answer, and the index
    fields do not matter.  Right after its insertion a device is found
    under every argument that is, modulo 2^32, the bus address packed
    from its bus, slot and function, provided no entry had that address
    before. *)
Theorem xdev_find_by_idx_spec :
  forall (hdr : header) (build : build_cfg) (pf : platform)
         (w : world) (i : Z) (xdev : ptr),
    ((xdev_find_by_idx w i = NULL /\
      forall a, In a (xdev_list w) -> a <> NULL -> stored_bdf w a <> u32 i)
     \/
     (exists l1 l2,
         xdev_list w = l1 ++ xdev_find_by_idx w i :: l2 /\
         stored_bdf w (xdev_find_by_idx w i) = u32 i /\
         forall b, In b l1 -> stored_bdf w b <> u32 i))
    /\ (forall j, u32 j = u32 i ->
                  xdev_find_by_idx w j = xdev_find_by_idx w i)
    /\ (forall f, xdev_find_by_idx
                    (with_mem (fun a => upd_idx (f a) (mem w a)) w) i
                  = xdev_find_by_idx w i)
    /\ (~ In xdev (xdev_list w) ->
        (forall a, In a (xdev_list w) ->
                   stored_bdf w a <> pci_bdf hdr (pd_of pf w xdev)) ->
        u32 i = pci_bdf hdr (pd_of pf w xdev) ->
        xdev_find_by_idx (xdev_list_add hdr build pf xdev w) i = xdev).
Proof.
  intros hdr build pf w i xdev. split; [| split; [| split]].
  - apply find_by_idx_from_cases.
  - intros j Hj. now apply find_by_idx_from_u32.
  - intros f. unfold xdev_find_by_idx. cbn [mem xdev_list with_mem].
    induction (xdev_list w) as [| a l IH]; simpl; [reflexivity |].
    now rewrite IH.
  - intros Hfresh Hnone Hi.
    destruct (xdev_list_add_spec hdr build pf xdev w) as (Hl & Hother & Hx & _).
    cbv zeta in Hx. unfold xdev_find_by_idx. rewrite Hl.
    rewrite find_by_idx_from_snoc_none.
    + rewrite Hx. cbn [bdf conf set_conf conf_set_cur_cfg_state conf_set_idx
                         conf_set_bdf].
      fold (pci_bdf hdr (pd_of pf w xdev)). rewrite Hi.
      now rewrite Z.eqb_refl.
    + intros a Ha. rewrite Hother by (intros ->; contradiction).
      rewrite Hi. now apply Hnone.
Qed.

Lemma xdev_find_by_idx_spec_witness :
  xdev_find_by_idx
    (xdev_list_add sample_header (QDMA_PF true) (sample_platform 0) 7000
       (insert_all sample_header (QDMA_PF true) (sample_platform 0)
          [5000; 6000] three_objects)) 0x2000 = 7000.
Proof.
  set (w := insert_all sample_header (QDMA_PF true) (sample_platform 0)
              [5000; 6000] three_objects).
  assert (Hl : xdev_list w = [5000; 6000]) by (vm_compute; reflexivity).
  destruct (xdev_find_by_idx_spec sample_header (QDMA_PF true)
              (sample_platform 0) w 0x2000 7000) as (_ & _ & _ & Hnew).
  apply Hnew.
  - rewrite Hl. intros [H | [H | []]]; discriminate.
  - intros a Ha. rewrite Hl in Ha.
    destruct Ha as [<- | [<- | []]]; vm_compute; discriminate.
  - vm_compute. reflexivity.
Defined.

(** X5: what an insertion does to the inserted object: the bus address
    is the packed bus, slot and function of its device, the configuration
    state is CFG_UNCONFIGURED whatever the caller had put there, and
    besides these two and the index nothing of the object changes; no
    call leaves the file and the platform state is as before. *)
Theorem xdev_list_add_object :
  forall (hdr : header) (build : build_cfg) (pf : platform)
         (w : world) (xdev : ptr),
    let w' := xdev_list_add hdr build pf xdev w in
    let x := mem w xdev in
    let x' := mem w' xdev in
    stored_bdf w' xdev = pci_bdf hdr (pd_of pf w xdev)
    /\ cur_cfg_state (conf x') = CFG_UNCONFIGURED hdr
    /\ (pdev (conf x') = pdev (conf x)
        /\ bar_num_config (conf x') = bar_num_config (conf x)
        /\ bar_num_user (conf x') = bar_num_user (conf x)
        /\ qsets_max (conf x') = qsets_max (conf x)
        /\ vf_max (conf x') = vf_max (conf x)
        /\ name (conf x') = name (conf x))
    /\ (mod_name x' = mod_name x /\ regs x' = regs x
        /\ stm_regs x' = stm_regs x /\ stm_en x' = stm_en x
        /\ stm_rev x' = stm_rev x /\ flags x' = flags x
        /\ flr_prsnt x' = flr_prsnt x /\ st_mode_en x' = st_mode_en x
        /\ mm_mode_en x' = mm_mode_en x
        /\ mm_channel_max x' = mm_channel_max x)
    /\ (pci_regions w' = pci_regions w /\ pci_enabled w' = pci_enabled w
        /\ iomapped w' = iomapped w /\ trace w' = trace w).
Proof.
  intros hdr build pf w xdev w' x x'.
  destruct (xdev_list_add_spec hdr build pf xdev w)
    as (_ & _ & Hx & Hr & He & Hi & Ht).
  cbv zeta in Hx. fold w' in Hx, Hr, He, Hi, Ht.
  unfold stored_bdf. subst x'. rewrite Hx.
  repeat split; assumption.
Qed.

(** *** The bus address *)

Lemma testbit_31 m : 0 <= m -> Z.testbit 31 m = (m <? 5).
Proof.
  intros Hm. change 31 with (Z.ones 5).
  destruct (Z.ltb_spec m 5).
  - apply Z.ones_spec_low. lia.
  - apply Z.ones_spec_high. lia.
Qed.

Lemma testbit_7 m : 0 <= m -> Z.testbit 7 m = (m <? 3).
Proof.
  intros Hm. change 7 with (Z.ones 3).
  destruct (Z.ltb_spec m 3).
  - apply Z.ones_spec_low. lia.
  - apply Z.ones_spec_high. lia.
Qed.

Lemma testbit_small a k m :
  0 <= a < 2 ^ k -> 0 <= k <= m -> Z.testbit a m = false.
Proof.
  intros Ha Hk. rewrite <- (Z.mod_small a (2 ^ k)) by assumption.
  now apply Z.mod_pow2_bits_high.
Qed.

Lemma PCI_SLOT_bits devfn m : 5 <= m -> Z.testbit (PCI_SLOT devfn) m = false.
Proof.
  intros Hm. unfold PCI_SLOT. rewrite Z.land_spec, testbit_31 by lia.
  destruct (Z.ltb_spec m 5); [lia | apply andb_false_r].
Qed.

Lemma PCI_FUNC_bits devfn m : 3 <= m -> Z.testbit (PCI_FUNC devfn) m = false.
Proof.
  intros Hm. unfold PCI_FUNC. rewrite Z.land_spec, testbit_7 by lia.
  destruct (Z.ltb_spec m 3); [lia | apply andb_false_r].
Qed.

Lemma pci_bdf_bits hdr pd m :
  0 <= m ->
  Z.testbit (pci_bdf hdr pd) m
  = (m <? 32)
    && (Z.testbit (bus_number pd) (m - PCI_SHIFT_BUS hdr)
        || Z.testbit (PCI_SLOT (devfn pd)) (m - PCI_SHIFT_DEV hdr)
        || Z.testbit (PCI_FUNC (devfn pd)) m).
Proof.
  intros Hm. unfold pci_bdf, u32.
  destruct (Z.ltb_spec m 32).
  - rewrite Z.mod_pow2_bits_low by lia.
    rewrite !Z.lor_spec, !Z.shiftl_spec by assumption. reflexivity.
  - rewrite Z.mod_pow2_bits_high by lia. reflexivity.
Qed.

(** X6: the bus address can be unpacked.  When the bus number is a byte
    and the shifts of the header leave room for the three bits of the
    function, the five bits of the slot and the eight bits of the bus, the
    packed word gives back the bus, the slot and the function; so devices
    with the same bus address have the same bus, slot and function. *)
Theorem pci_bdf_unpack :
  forall (hdr : header) (pd : pci_dev),
    0 <= bus_number pd < 256 ->
    3 <= PCI_SHIFT_DEV hdr ->
    PCI_SHIFT_DEV hdr + 5 <= PCI_SHIFT_BUS hdr ->
    PCI_SHIFT_BUS hdr + 8 <= 32 ->
    Z.shiftr (pci_bdf hdr pd) (PCI_SHIFT_BUS hdr) = bus_number pd
    /\ Z.land (Z.shiftr (pci_bdf hdr pd) (PCI_SHIFT_DEV hdr)) 31
       = PCI_SLOT (devfn pd)
    /\ Z.land (pci_bdf hdr pd) 7 = PCI_FUNC (devfn pd).
Proof.
  intros hdr pd Hbus Hsd Hsb Hsb32.
  set (sb := PCI_SHIFT_BUS hdr) in *. set (sd := PCI_SHIFT_DEV hdr) in *.
  split; [| split]; apply Z.bits_inj'; intros m Hm.
  - rewrite Z.shiftr_spec, pci_bdf_bits by lia. fold sb sd.
    replace (m + sb - sb) with m by lia.
    rewrite (PCI_SLOT_bits (devfn pd) (m + sb - sd)) by lia.
    rewrite (PCI_FUNC_bits (devfn pd) (m + sb)) by lia.
    rewrite !orb_false_r.
    destruct (Z.ltb_spec (m + sb) 32); [reflexivity |].
    symmetry. apply (testbit_small _ 8); [assumption | lia].
  - rewrite Z.land_spec, Z.shiftr_spec, pci_bdf_bits, testbit_31 by lia.
    fold sb sd. replace (m + sd - sd) with m by lia.
    destruct (Z.ltb_spec m 5).
    + rewrite andb_true_r.
      rewrite (Z.testbit_neg_r (bus_number pd)) by lia.
      rewrite (PCI_FUNC_bits (devfn pd) (m + sd)) by lia.
      destruct (Z.ltb_spec (m + sd) 32); [| lia].
      now rewrite orb_false_r.
    + rewrite andb_false_r. symmetry. now apply PCI_SLOT_bits.
  - rewrite Z.land_spec, pci_bdf_bits, testbit_7 by lia. fold sb sd.
    destruct (Z.ltb_spec m 3).
    + rewrite andb_true_r.
      rewrite (Z.testbit_neg_r (bus_number pd)) by lia.
      rewrite (Z.testbit_neg_r (PCI_SLOT (devfn pd))) by lia.
      destruct (Z.ltb_spec m 32); [reflexivity | lia].
    + rewrite andb_false_r. symmetry. now apply PCI_FUNC_bits.
Qed.

Lemma pci_bdf_unpack_witness :
  Z.shiftr (pci_bdf sample_header (sample_pci_dev 3052)) 12 = 3
  /\ Z.land (Z.shiftr (pci_bdf sample_header (sample_pci_dev 3052)) 4) 31 = 5
  /\ Z.land (pci_bdf sample_header (sample_pci_dev 3052)) 7 = 2.
Proof.
  apply (pci_bdf_unpack sample_header (sample_pci_dev 3052)).
  - split; [discriminate | reflexivity].
  - discriminate.
  - discriminate.
  - discriminate.
Defined.

(** * Further properties of the dump *)

Lemma dump_lines_snoc pf w l a :
  dump_lines pf w (l ++ [a]) = dump_lines pf w l ++ dump_line pf (mem w a).
Proof.
  unfold dump_lines. rewrite map_app, concat_app. simpl.
  now rewrite app_nil_r.
Qed.

Lemma dump_lines_cons pf w l a :
  dump_lines pf w (a :: l) = dump_line pf (mem w a) ++ dump_lines pf w l.
Proof. reflexivity. Qed.

(** The loop writes whole lines for a prefix of the entries still to
    visit; it goes on as long as [len] stays below [buflen]. *)
Lemma dump_loop_prefix pf w buflen :
  forall l out len,
    exists k,
      (k <= List.length l)%nat
      /\ dump_loop pf w buflen l out len
         = (out ++ dump_lines pf w (firstn k l),
            len + Z.of_nat (List.length (dump_lines pf w (firstn k l))))
      /\ (k = List.length l
          \/ buflen <= len + Z.of_nat
                               (List.length (dump_lines pf w (firstn k l))))
      /\ (forall j, (0 < j < k)%nat ->
                    len + Z.of_nat
                            (List.length (dump_lines pf w (firstn j l)))
                    < buflen).
Proof.
  induction l as [| a l IH]; intros out len.
  - exists 0%nat. simpl. rewrite app_nil_r, Z.add_0_r.
    split; [lia | split; [reflexivity | split; [now left |]]].
    intros j Hj. lia.
  - cbn [dump_loop]. cbv zeta.
    set (line := dump_line pf (mem w a)).
    destruct (Z.geb_spec (len + Z.of_nat (List.length line)) buflen)
      as [Hge | Hlt].
    + exists 1%nat. cbn [firstn]. rewrite dump_lines_cons.
      unfold dump_lines at 1 2 3. simpl List.concat. rewrite !app_nil_r.
      fold line. split; [simpl; lia | split; [reflexivity | split]].
      * right. lia.
      * intros j Hj. lia.
    + destruct (IH (out ++ line) (len + Z.of_nat (List.length line)))
        as (k & Hk & Heq & Hstop & Hmin).
      exists (S k). cbn [firstn]. rewrite dump_lines_cons. fold line.
      rewrite length_app, Nat2Z.inj_add, Z.add_assoc, app_assoc.
      split; [simpl; lia | split; [exact Heq | split]].
      * destruct Hstop as [-> | Hstop]; [now left | right; lia].
      * intros j Hj. destruct j as [| j]; [lia |].
        cbn [firstn]. rewrite dump_lines_cons. fold line.
        rewrite length_app, Nat2Z.inj_add, Z.add_assoc.
        destruct j as [| j].
        -- change (dump_lines pf w (firstn 0 l)) with (@nil ascii).
           cbn [List.length]. lia.
        -- apply Hmin. lia.
Qed.

Lemma xdev_list_dump_prefix :
  forall (pf : platform) (buflen : Z) (w : world),
    exists k,
      (k <= List.length (xdev_list w))%nat
      /\ fst (xdev_list_dump pf buflen w)
         = dump_lines pf w (firstn k (xdev_list w))
      /\ snd (xdev_list_dump pf buflen w)
         = Z.of_nat (List.length (fst (xdev_list_dump pf buflen w)))
      /\ (k = List.length (xdev_list w)
          \/ buflen <= snd (xdev_list_dump pf buflen w))
      /\ (forall j, (0 < j < k)%nat ->
                    Z.of_nat (List.length
                                (dump_lines pf w (firstn j (xdev_list w))))
                    < buflen).
Proof.
  intros pf buflen w. unfold xdev_list_dump.
  destruct (dump_loop_prefix pf w buflen (xdev_list w) [] 0)
    as (k & Hk & Heq & Hstop & Hmin).
  exists k. rewrite Heq. cbn [fst snd app]. rewrite !Z.add_0_l.
  split; [exact Hk | split; [reflexivity | split; [reflexivity |]]].
  split; [exact Hstop | exact Hmin].
Qed.

(** X7: [xdev_list_dump] never cuts a line.  What it leaves in the
    buffer is the lines of the first [k] entries of the list, in list
    order, with the terminator right behind them; it stops before the end
    of the list only once the length has reached [buflen], and up to the
    last line written the length was below [buflen]. *)
Theorem xdev_list_dump_whole_lines :
  forall (pf : platform) (buflen : Z) (w : world),
    exists k,
      (k <= List.length (xdev_list w))%nat
      /\ fst (xdev_list_dump pf buflen w)
         = dump_lines pf w (firstn k (xdev_list w))
      /\ snd (xdev_list_dump pf buflen w)
         = Z.of_nat (List.length (fst (xdev_list_dump pf buflen w)))
      /\ (k = List.length (xdev_list w)
          \/ buflen <= snd (xdev_list_dump pf buflen w))
      /\ (forall j, (0 < j < k)%nat ->
                    Z.of_nat (List.length
                                (dump_lines pf w (firstn j (xdev_list w))))
                    < buflen).
Proof. exact xdev_list_dump_prefix. Qed.

(** X8: a buffer longer than the whole listing receives the whole
    listing: the line of every entry, in list order, and the length
    returned is the length of the listing, below [buflen]. *)
Theorem xdev_list_dump_fits :
  forall (pf : platform) (buflen : Z) (w : world),
    Z.of_nat (List.length (dump_lines pf w (xdev_list w))) < buflen ->
    xdev_list_dump pf buflen w
    = (dump_lines pf w (xdev_list w),
       Z.of_nat (List.length (dump_lines pf w (xdev_list w)))).
Proof.
  intros pf buflen w Hfits.
  destruct (xdev_list_dump_prefix pf buflen w)
    as (k & Hk & Hout & Hlen & Hstop & _).
  assert (Hall : k = List.length (xdev_list w)).
  { destruct Hstop as [-> | Hstop]; [reflexivity |].
    exfalso. rewrite Hlen, Hout in Hstop.
    assert (Hmono : Z.of_nat (List.length
                                (dump_lines pf w (firstn k (xdev_list w))))
                    <= Z.of_nat (List.length
                                   (dump_lines pf w (xdev_list w)))).
    { rewrite <- (firstn_skipn k (xdev_list w)) at 2.
      unfold dump_lines. rewrite map_app, concat_app, length_app. lia. }
    lia. }
  subst k. rewrite firstn_all in Hout.
  destruct (xdev_list_dump pf buflen w) as [out len].
  cbn [fst snd] in *. now subst.
Qed.

Lemma xdev_list_dump_fits_witness :
  xdev_list_dump (sample_platform 0) 64 two_devices
  = (dump_lines (sample_platform 0) two_devices (xdev_list two_devices),
     Z.of_nat (List.length (dump_lines (sample_platform 0) two_devices
                              (xdev_list two_devices)))).
Proof.
  apply (xdev_list_dump_fits (sample_platform 0) 64 two_devices).
  vm_compute. reflexivity.
Defined.

(** *** The length of a line *)

Lemma hex_digits_length fuel :
  forall n acc k,
    (1 <= k <= fuel)%nat -> 0 <= n < 16 ^ Z.of_nat k ->
    (List.length acc < List.length (hex_digits fuel n acc)
     <= k + List.length acc)%nat.
Proof.
  induction fuel as [| f IH]; intros n acc k Hk Hn; [lia |].
  cbn [hex_digits]. cbv zeta.
  destruct (Z.eqb_spec (n / 16) 0) as [Hq | Hq].
  - cbn [List.length]. lia.
  - assert (Hk2 : (2 <= k)%nat).
    { destruct k as [| [| k]]; try lia.
      exfalso. apply Hq. apply Z.div_small. change (16 ^ Z.of_nat 1) with 16 in Hn.
      lia. }
    assert (Hn' : 0 <= n / 16 < 16 ^ Z.of_nat (k - 1)).
    { split; [apply Z.div_pos; lia |].
      apply Z.div_lt_upper_bound; [lia |].
      replace (Z.of_nat k) with (1 + Z.of_nat (k - 1)) in Hn by lia.
      rewrite Z.pow_add_r in Hn by lia. change (16 ^ 1) with 16 in Hn. lia. }
    specialize (IH (n / 16) (hex_digit (n mod 16) :: acc) (k - 1)%nat
                   ltac:(lia) Hn').
    cbn [List.length] in IH. lia.
Qed.

Lemma fmt_x_exact width n :
  (1 <= width <= 8)%nat -> 0 <= n < 16 ^ Z.of_nat width ->
  List.length (fmt_x width n) = width.
Proof.
  intros Hw Hn. unfold fmt_x. cbv zeta.
  assert (Hu : u32 n = n).
  { apply u32_small. split; [lia |].
    apply Z.lt_le_trans with (16 ^ Z.of_nat width); [lia |].
    change (2 ^ 32) with (16 ^ 8). apply Z.pow_le_mono_r; lia. }
  rewrite Hu, zero_pad_length.
  pose proof (hex_digits_length 8 n [] width ltac:(lia) Hn) as Hlen.
  cbn [List.length] in Hlen. lia.
Qed.

Lemma PCI_SLOT_range devfn : 0 <= PCI_SLOT devfn < 32.
Proof.
  unfold PCI_SLOT. change 31 with (Z.ones 5). rewrite Z.land_ones by lia.
  apply Z.mod_pos_bound. reflexivity.
Qed.

Lemma PCI_FUNC_range devfn : 0 <= PCI_FUNC devfn < 8.
Proof.
  unfold PCI_FUNC. change 7 with (Z.ones 3). rewrite Z.land_ones by lia.
  apply Z.mod_pos_bound. reflexivity.
Qed.

Lemma dump_line_exact pf x :
  fits_format pf x -> List.length (dump_line pf x) = 19%nat.
Proof.
  intros [Hbdf Hbus]. unfold dump_line. cbv zeta. rewrite !length_app.
  pose proof (PCI_SLOT_range (devfn (pci_dev_at pf (pdev (conf x))))).
  pose proof (PCI_FUNC_range (devfn (pci_dev_at pf (pdev (conf x))))).
  rewrite (fmt_x_exact 5)
    by (try lia; change (16 ^ Z.of_nat 5) with (2 ^ 20); exact Hbdf).
  rewrite !(fmt_x_exact 2)
    by (try lia; change (16 ^ Z.of_nat 2) with 256; lia).
  reflexivity.
Qed.

Lemma dump_lines_exact pf w l :
  (forall a, In a l -> fits_format pf (mem w a)) ->
  List.length (dump_lines pf w l) = (19 * List.length l)%nat.
Proof.
  induction l as [| a l IH]; intros Hall; [reflexivity |].
  rewrite dump_lines_cons, length_app, dump_line_exact, IH.
  - cbn [List.length]. lia.
  - intros b Hb. apply Hall. now right.
  - apply Hall. now left.
Qed.

(** X9: when the bus address of every entry has at most five hex digits
    and its bus number is a byte, every line has 19 characters, the length
    returned is 19 times the number of lines written, and with a buffer of
    one byte at least the terminator is stored less than 19 bytes beyond
    [buflen]. *)
Theorem xdev_list_dump_length :
  forall (pf : platform) (buflen : Z) (w : world),
    (forall a, In a (xdev_list w) -> fits_format pf (mem w a)) ->
    (exists k,
        (k <= List.length (xdev_list w))%nat
        /\ snd (xdev_list_dump pf buflen w) = 19 * Z.of_nat k
        /\ (k = List.length (xdev_list w) \/ buflen <= 19 * Z.of_nat k))
    /\ (1 <= buflen -> snd (xdev_list_dump pf buflen w) < buflen + 19).
Proof.
  intros pf buflen w Hfit.
  destruct (xdev_list_dump_prefix pf buflen w)
    as (k & Hk & Hout & Hlen & Hstop & Hmin).
  assert (Hpre : forall j, (j <= k)%nat ->
             List.length (dump_lines pf w (firstn j (xdev_list w)))
             = (19 * j)%nat).
  { intros j Hj. rewrite dump_lines_exact.
    - rewrite length_firstn. lia.
    - intros a Ha. apply Hfit.
      rewrite <- (firstn_skipn j (xdev_list w)). apply in_or_app. now left. }
  assert (Hsnd : snd (xdev_list_dump pf buflen w) = 19 * Z.of_nat k).
  { rewrite Hlen, Hout, Hpre by lia. lia. }
  split.
  - exists k. split; [exact Hk | split; [exact Hsnd |]].
    destruct Hstop as [-> | Hstop]; [now left | right; lia].
  - intros Hbuf. rewrite Hsnd.
    destruct k as [| [| k]]; try lia.
    specialize (Hmin (S k) ltac:(lia)). rewrite Hpre in Hmin by lia. lia.
Qed.

Lemma xdev_list_dump_length_witness :
  snd (xdev_list_dump (sample_platform 0) 20 two_devices) < 20 + 19.
Proof.
  apply (xdev_list_dump_length (sample_platform 0) 20 two_devices).
  - intros a Ha. rewrite two_devices_list in Ha.
    destruct Ha as [<- | [<- | []]]; vm_compute; repeat split; discriminate.
  - discriminate.
Defined.


(** * Further properties of the bar mapping *)

Lemma xdev_map_bars_unfold hdr build pf x p w :
  xdev_map_bars hdr build pf x p w
  = let w1 :=
      store x (fun y => set_conf (conf_set_bar_num_config
                                    (QDMA_CONFIG_BAR hdr) (conf y)) y) w in
    let r := config_cookie hdr pf p in
    let w2 := fst (pci_iomap pf p (QDMA_CONFIG_BAR hdr)
                     (config_map_len hdr pf p) w1) in
    let w3 := store x (set_regs r) w2 in
    if r =? NULL then (w3, - EINVAL)
    else if negb (signature_ok hdr build pf p)
    then (xdev_unmap_bars x p w3, - EINVAL)
    else if is_stm_device hdr pf p then
      let s := stm_cookie hdr pf p in
      let w4 := fst (pci_iomap pf p (STM_BAR hdr)
                       (stm_map_len hdr pf p) w3) in
      let w5 := store x (set_stm_regs s) w4 in
      if s =? NULL then (w5, - EINVAL)
      else if negb (stm_rev_ok hdr (stm_rev_word hdr pf p))
      then (xdev_unmap_bars x p w5, - EINVAL)
      else (store x (set_stm 1 (Z.land (stm_rev_word hdr pf p) 255)) w5, 0)
    else (store x (fun y => set_stm 0 (stm_rev y) y) w3, 0).
Proof.
  unfold xdev_map_bars, signature_ok, stm_rev_word, is_stm_device,
    config_bar_id_ok, readl, pci_iomap, stm_cookie, config_cookie,
    config_map_len, stm_map_len.
  cbv zeta. cbn [fst snd]. rewrite !mem_store_same. cbn [regs set_regs].
  destruct (_ =? NULL); [reflexivity |].
  match goal with |- context [if negb ?c then _ else _] => destruct c end;
    cbn [negb]; [| reflexivity].
  destruct (device (pci_dev_at pf p) =? STM_ENABLED_DEVICE hdr);
    [| reflexivity].
  rewrite ?mem_store_same. cbn [stm_regs set_stm_regs]. reflexivity.
Qed.

Lemma xdev_unmap_bars_unmapped x p v :
  regs (mem v x) = NULL -> stm_regs (mem v x) = NULL ->
  xdev_unmap_bars x p v = v.
Proof.
  intros Hregs Hstm. unfold xdev_unmap_bars. rewrite Hregs. cbn.
  now rewrite Hstm.
Qed.

Lemma xdev_unmap_bars_effect :
  forall (x p : ptr) (w : world),
    let w' := xdev_unmap_bars x p w in
    regs (mem w' x) = NULL /\ stm_regs (mem w' x) = NULL
    /\ xdev_unmap_bars x p w' = w'
    /\ trace w'
       = trace w
           ++ (if regs (mem w x) =? NULL then []
               else [EvPciIounmap p (regs (mem w x))])
           ++ (if stm_regs (mem w x) =? NULL then []
               else [EvPciIounmap p (stm_regs (mem w x))])
    /\ iomapped w'
       = (let l := if regs (mem w x) =? NULL then iomapped w
                   else remove_one (regs (mem w x)) (iomapped w) in
          if stm_regs (mem w x) =? NULL then l
          else remove_one (stm_regs (mem w x)) l)
    /\ conf (mem w' x) = conf (mem w x)
    /\ flags (mem w' x) = flags (mem w x)
    /\ (forall b, b <> x -> mem w' b = mem w b)
    /\ xdev_list w' = xdev_list w.
Proof.
  intros x p w w'.
  assert (Hnull : regs (mem w' x) = NULL /\ stm_regs (mem w' x) = NULL).
  { subst w'. unfold xdev_unmap_bars.
    destruct (Z.eqb_spec (regs (mem w x)) NULL) as [Hr | Hr].
    - destruct (Z.eqb_spec (stm_regs (mem w x)) NULL) as [Hs | Hs].
      + split; assumption.
      + rewrite mem_store_same. cbn. split; [assumption | reflexivity].
    - rewrite !mem_store_same. cbn [stm_regs set_regs regs].
      change (stm_regs (mem (pci_iounmap p (regs (mem w x)) w) x))
        with (stm_regs (mem w x)).
      destruct (Z.eqb_spec (stm_regs (mem w x)) NULL) as [Hs | Hs].
      + rewrite mem_store_same. cbn. split; [reflexivity | exact Hs].
      + rewrite !mem_store_same. cbn. rewrite ?Z.eqb_refl.
        split; reflexivity. }
  destruct Hnull as [Hregs Hstm].
  split; [exact Hregs | split; [exact Hstm | split]].
  { now apply xdev_unmap_bars_unmapped. }
  assert (Hother : forall (f : xlnx_dma_dev -> xlnx_dma_dev) (v : world),
             mem v = mem w ->
             forall b, b <> x -> mem (store x f v) b = mem w b).
  { intros f v Hv b Hb. rewrite mem_store_other by assumption.
    now rewrite Hv. }
  subst w'. unfold xdev_unmap_bars. cbv zeta.
  destruct (Z.eqb_spec (regs (mem w x)) NULL) as [Hr | Hr].
  - destruct (Z.eqb_spec (stm_regs (mem w x)) NULL) as [Hs | Hs].
    + rewrite !app_nil_r. repeat split.
    + rewrite !mem_store_same.
      split; [reflexivity |].
      split; [reflexivity | split; [reflexivity | split; [reflexivity |]]].
      split; [now apply Hother | reflexivity].
  - rewrite !mem_store_same. cbn [stm_regs set_regs regs].
    change (stm_regs (mem (pci_iounmap p (regs (mem w x)) w) x))
      with (stm_regs (mem w x)).
    destruct (Z.eqb_spec (stm_regs (mem w x)) NULL) as [Hs | Hs].
    + rewrite !mem_store_same.
      split; [cbn; rewrite ?app_nil_r, <- ?app_assoc; reflexivity |].
      split; [reflexivity | split; [reflexivity | split; [reflexivity |]]].
      split; [now apply Hother | reflexivity].
    + rewrite !mem_store_same.
      split; [cbn; rewrite ?app_nil_r, <- ?app_assoc; reflexivity |].
      split; [cbn; rewrite ?Z.eqb_refl; reflexivity |].
      split; [cbn; rewrite ?Z.eqb_refl; reflexivity |].
      split; [cbn; rewrite ?Z.eqb_refl; reflexivity |].
      split; [| reflexivity].
      intros b Hb. rewrite mem_store_other by assumption.
      now apply Hother.
Qed.

(** X10: [xdev_unmap_bars] unmaps what is mapped and nothing else:
    [pci_iounmap] is called for [regs] and then for [stm_regs], each only
    when it is not NULL; both pointers are NULL afterwards, so a second
    call does nothing at all; the configuration and the flags of the
    object, the other objects and the list are left alone. *)
Theorem xdev_unmap_bars_spec :
  forall (x p : ptr) (w : world),
    let w' := xdev_unmap_bars x p w in
    regs (mem w' x) = NULL /\ stm_regs (mem w' x) = NULL
    /\ xdev_unmap_bars x p w' = w'
    /\ trace w'
       = trace w
           ++ (if regs (mem w x) =? NULL then []
               else [EvPciIounmap p (regs (mem w x))])
           ++ (if stm_regs (mem w x) =? NULL then []
               else [EvPciIounmap p (stm_regs (mem w x))])
    /\ iomapped w'
       = (let l := if regs (mem w x) =? NULL then iomapped w
                   else remove_one (regs (mem w x)) (iomapped w) in
          if stm_regs (mem w x) =? NULL then l
          else remove_one (stm_regs (mem w x)) l)
    /\ conf (mem w' x) = conf (mem w x)
    /\ flags (mem w' x) = flags (mem w x)
    /\ (forall b, b <> x -> mem w' b = mem w b)
    /\ xdev_list w' = xdev_list w.
Proof. exact xdev_unmap_bars_effect. Qed.

Lemma pci_iomap_mem pf p bar len w :
  mem (fst (pci_iomap pf p bar len w)) = mem w.
Proof. unfold pci_iomap. cbv zeta. now destruct (_ =? NULL). Qed.

Ltac read_object :=
  repeat (rewrite mem_store_same || rewrite pci_iomap_mem);
  cbn [conf regs stm_regs stm_en stm_rev flags set_conf set_regs
       set_stm_regs set_stm bar_num_config conf_set_bar_num_config].

Lemma config_map_len_le hdr pf p :
  config_map_len hdr pf p <= QDMA_MAX_BAR_LEN_MAPPED hdr.
Proof.
  unfold config_map_len.
  destruct (Z.gtb_spec (i32 (pci_resource_len_rv pf p (QDMA_CONFIG_BAR hdr)))
                       (QDMA_MAX_BAR_LEN_MAPPED hdr)); lia.
Qed.

Lemma config_map_len_min hdr pf p :
  0 <= pci_resource_len_rv pf p (QDMA_CONFIG_BAR hdr) < 2 ^ 31 ->
  config_map_len hdr pf p
  = Z.min (pci_resource_len_rv pf p (QDMA_CONFIG_BAR hdr))
          (QDMA_MAX_BAR_LEN_MAPPED hdr).
Proof.
  intros Hlen. unfold config_map_len. rewrite i32_small by lia.
  destruct (Z.gtb_spec (pci_resource_len_rv pf p (QDMA_CONFIG_BAR hdr))
                       (QDMA_MAX_BAR_LEN_MAPPED hdr)); lia.
Qed.

Lemma config_map_len_high hdr pf p :
  2 ^ 31 <= pci_resource_len_rv pf p (QDMA_CONFIG_BAR hdr) < 2 ^ 32 ->
  0 <= QDMA_MAX_BAR_LEN_MAPPED hdr ->
  config_map_len hdr pf p
  = pci_resource_len_rv pf p (QDMA_CONFIG_BAR hdr) - 2 ^ 32.
Proof.
  intros Hlen Hmax. unfold config_map_len. rewrite i32_high by lia.
  destruct (Z.gtb_spec
              (pci_resource_len_rv pf p (QDMA_CONFIG_BAR hdr) - 2 ^ 32)
              (QDMA_MAX_BAR_LEN_MAPPED hdr)); lia.
Qed.

(** X11: the outcome of [xdev_map_bars] is 0 or -EINVAL, and it is 0
    exactly when the config bar could be mapped, its identification word
    carries the signature (the virtual function driver does not look at
    it) and, on a device with STM, the STM bar could be mapped and shows
    a supported revision.  On success the object records the cookie of the
    config bar and the config bar number, [stm_en] tells whether the
    device has STM, and with STM the cookie of its bar and the low byte of
    the revision word are recorded. *)
Theorem xdev_map_bars_result :
  forall (hdr : header) (build : build_cfg) (pf : platform)
         (x p : ptr) (w : world),
    let r := xdev_map_bars hdr build pf x p w in
    (snd r = 0 \/ snd r = - EINVAL)
    /\ (snd r = 0 <->
        config_cookie hdr pf p <> NULL
        /\ signature_ok hdr build pf p = true
        /\ (is_stm_device hdr pf p = true ->
            stm_cookie hdr pf p <> NULL
            /\ stm_rev_ok hdr (stm_rev_word hdr pf p) = true))
    /\ (snd r = 0 ->
        regs (mem (fst r) x) = config_cookie hdr pf p
        /\ bar_num_config (conf (mem (fst r) x)) = QDMA_CONFIG_BAR hdr
        /\ stm_en (mem (fst r) x) = (if is_stm_device hdr pf p then 1 else 0)
        /\ (is_stm_device hdr pf p = true ->
            stm_regs (mem (fst r) x) = stm_cookie hdr pf p
            /\ stm_rev (mem (fst r) x)
               = Z.land (stm_rev_word hdr pf p) 255)).
Proof.
  intros hdr build pf x p w r. subst r.
  rewrite xdev_map_bars_unfold. cbv zeta.
  destruct (Z.eqb_spec (config_cookie hdr pf p) NULL) as [Hc | Hc].
  { cbn [fst snd]. split; [now right | split].
    - split; [discriminate | intros (H & _); contradiction].
    - discriminate. }
  destruct (signature_ok hdr build pf p); cbn [negb].
  2: { cbn [fst snd]. split; [now right | split].
       - split; [discriminate | intros (_ & H & _); discriminate].
       - discriminate. }
  destruct (is_stm_device hdr pf p).
  - destruct (Z.eqb_spec (stm_cookie hdr pf p) NULL) as [Hs | Hs].
    { cbn [fst snd]. split; [now right | split].
      - split; [discriminate |].
        intros (_ & _ & H). destruct (H eq_refl). contradiction.
      - discriminate. }
    destruct (stm_rev_ok hdr (stm_rev_word hdr pf p)); cbn [negb fst snd].
    + split; [now left | split].
      * split; [intros _ | reflexivity].
        split; [assumption | split; [reflexivity | intros _; now split]].
      * intros _. read_object.
        split; [reflexivity | split; [reflexivity | split; [reflexivity |]]].
        intros _. split; reflexivity.
    + split; [now right | split].
      * split; [discriminate |].
        intros (_ & _ & H). destruct (H eq_refl). discriminate.
      * discriminate.
  - cbn [fst snd]. split; [now left | split].
    + split; [intros _ | reflexivity].
      split; [assumption | split; [reflexivity | discriminate]].
    + intros _. read_object.
      split; [reflexivity | split; [reflexivity | split; [reflexivity |]]].
      discriminate.
Qed.

Lemma xdev_map_bars_result_witness :
  snd (xdev_map_bars sample_header (QDMA_PF true) (sample_platform 5000)
         5000 1000 three_objects) = 0
  /\ regs (mem (fst (xdev_map_bars sample_header (QDMA_PF true)
                       (sample_platform 5000) 5000 1000 three_objects))
               5000) = 1100.
Proof.
  destruct (xdev_map_bars_result sample_header (QDMA_PF true)
              (sample_platform 5000) 5000 1000 three_objects)
    as (_ & Hiff & Hpost).
  assert (Hok : snd (xdev_map_bars sample_header (QDMA_PF true)
                       (sample_platform 5000) 5000 1000 three_objects) = 0).
  { apply Hiff. split; [discriminate | split; [reflexivity |]].
    discriminate. }
  split; [exact Hok |]. now destruct (Hpost Hok) as (Hregs & _).
Defined.

(** X12: a config bar without the signature.  In the physical function
    driver, when the bar is mapped and the upper 16 bits of its first word
    are not 0x1FD3, [xdev_map_bars] unmaps it again and returns -EINVAL:
    [regs] is NULL, the mappings are what they were, and the two calls
    are the only ones made. *)
Theorem xdev_map_bars_signature_mismatch :
  forall (hdr : header) (build : build_cfg) (pf : platform)
         (x p : ptr) (w : world),
    config_cookie hdr pf p <> NULL ->
    signature_ok hdr build pf p = false ->
    stm_regs (mem w x) = NULL ->
    let r := xdev_map_bars hdr build pf x p w in
    snd r = - EINVAL
    /\ regs (mem (fst r) x) = NULL
    /\ iomapped (fst r) = iomapped w
    /\ trace (fst r)
       = trace w
           ++ [EvPciIomap p (QDMA_CONFIG_BAR hdr) (config_map_len hdr pf p);
               EvPciIounmap p (config_cookie hdr pf p)].
Proof.
  intros hdr build pf x p w Hc Hsig Hstm r. subst r.
  rewrite xdev_map_bars_unfold. cbv zeta.
  destruct (Z.eqb_spec (config_cookie hdr pf p) NULL) as [| _];
    [contradiction |].
  rewrite Hsig. cbn [negb fst snd].
  set (w3 := store x (set_regs (config_cookie hdr pf p)) _).
  assert (Hregs3 : regs (mem w3 x) = config_cookie hdr pf p)
    by (unfold w3; now rewrite mem_store_same).
  assert (Hstm3 : stm_regs (mem w3 x) = NULL).
  { unfold w3. read_object. exact Hstm. }
  assert (Hi3 : iomapped w3 = config_cookie hdr pf p :: iomapped w).
  { unfold w3, pci_iomap. cbn. fold (config_cookie hdr pf p).
    destruct (Z.eqb_spec (config_cookie hdr pf p) NULL);
      [contradiction | reflexivity]. }
  assert (Ht3 : trace w3
                = trace w ++ [EvPciIomap p (QDMA_CONFIG_BAR hdr)
                                         (config_map_len hdr pf p)]).
  { unfold w3, pci_iomap. cbn. destruct (_ =? NULL); reflexivity. }
  clearbody w3.
  destruct (xdev_unmap_bars_effect x p w3)
    as (Hr & _ & _ & Ht & Hi & _).
  cbv zeta in Ht, Hi. rewrite Hregs3, Hstm3 in Ht, Hi.
  destruct (Z.eqb_spec (config_cookie hdr pf p) NULL) as [| _];
    [contradiction |].
  cbn [Z.eqb NULL] in Ht, Hi.
  split; [reflexivity | split; [exact Hr | split]].
  - rewrite Hi, Hi3. apply remove_one_head.
  - rewrite Ht, Ht3, <- app_assoc. reflexivity.
Qed.

Lemma xdev_map_bars_signature_mismatch_witness :
  snd (xdev_map_bars sample_header (QDMA_PF true) (no_signature 5000)
         5000 1000 three_objects) = - EINVAL
  /\ regs (mem (fst (xdev_map_bars sample_header (QDMA_PF true)
                       (no_signature 5000) 5000 1000 three_objects))
               5000) = NULL.
Proof.
  destruct (xdev_map_bars_signature_mismatch sample_header (QDMA_PF true)
              (no_signature 5000) 5000 1000 three_objects)
    as (Hrv & Hregs & _).
  - discriminate.
  - reflexivity.
  - reflexivity.
  - split; assumption.
Defined.

(** X13: an STM bar that cannot be mapped.  When the config bar is mapped
    and accepted and the device has STM but [pci_iomap] of the STM bar
    fails, [xdev_map_bars] returns -EINVAL and leaves the config bar
    mapped: [regs] still holds its cookie and the mapping is live.  A call
    of [xdev_unmap_bars] then releases it. *)
Theorem xdev_map_bars_stm_map_failure :
  forall (hdr : header) (build : build_cfg) (pf : platform)
         (x p : ptr) (w : world),
    config_cookie hdr pf p <> NULL ->
    signature_ok hdr build pf p = true ->
    is_stm_device hdr pf p = true ->
    stm_cookie hdr pf p = NULL ->
    let r := xdev_map_bars hdr build pf x p w in
    snd r = - EINVAL
    /\ regs (mem (fst r) x) = config_cookie hdr pf p
    /\ stm_regs (mem (fst r) x) = NULL
    /\ iomapped (fst r) = config_cookie hdr pf p :: iomapped w
    /\ iomapped (xdev_unmap_bars x p (fst r)) = iomapped w.
Proof.
  intros hdr build pf x p w Hc Hsig Hdev Hs r. subst r.
  rewrite xdev_map_bars_unfold. cbv zeta.
  destruct (Z.eqb_spec (config_cookie hdr pf p) NULL) as [| _];
    [contradiction |].
  rewrite Hsig, Hdev, Hs. cbn [negb fst snd Z.eqb NULL].
  set (w5 := store x (set_stm_regs _) _).
  assert (Hregs : regs (mem w5 x) = config_cookie hdr pf p)
    by (unfold w5; read_object; reflexivity).
  assert (Hstm : stm_regs (mem w5 x) = NULL)
    by (unfold w5; read_object; reflexivity).
  assert (Hi : iomapped w5 = config_cookie hdr pf p :: iomapped w).
  { unfold w5, pci_iomap. cbn. fold (stm_cookie hdr pf p).
    fold (config_cookie hdr pf p). rewrite Hs. cbn.
    destruct (Z.eqb_spec (config_cookie hdr pf p) NULL);
      [contradiction | reflexivity]. }
  clearbody w5.
  split; [reflexivity | split; [exact Hregs | split; [exact Hstm |]]].
  split; [exact Hi |].
  destruct (xdev_unmap_bars_effect x p w5) as (_ & _ & _ & _ & Hu & _).
  cbv zeta in Hu. rewrite Hu, Hregs, Hstm, Hi.
  destruct (Z.eqb_spec (config_cookie hdr pf p) NULL) as [| _];
    [contradiction |].
  cbn [Z.eqb NULL]. apply remove_one_head.
Qed.

Lemma xdev_map_bars_stm_map_failure_witness :
  snd (xdev_map_bars sample_header (QDMA_PF true)
         (stm_platform 5000 NULL 0) 5000 1000 three_objects) = - EINVAL
  /\ regs (mem (fst (xdev_map_bars sample_header (QDMA_PF true)
                       (stm_platform 5000 NULL 0) 5000 1000 three_objects))
               5000) = 1100.
Proof.
  destruct (xdev_map_bars_stm_map_failure sample_header (QDMA_PF true)
              (stm_platform 5000 NULL 0) 5000 1000 three_objects)
    as (Hrv & Hregs & _).
  - discriminate.
  - reflexivity.
  - reflexivity.
  - reflexivity.
  - split; assumption.
Defined.

(** X14: the length asked for the config bar.  The first call
    [xdev_map_bars] makes is [pci_iomap] of the config bar, with the
    length of the resource as the [int] [map_len] holds it, replaced by
    QDMA_MAX_BAR_LEN_MAPPED when it is above that.  The value passed is
    never above the maximum; it is the smaller of the resource length and
    the maximum when the resource length is below 2^31, whereas a
    resource length from 2^31 up to 2^32 arrives as a negative [int],
    2^32 less, and is passed on as it is. *)
Theorem xdev_map_bars_length :
  forall (hdr : header) (build : build_cfg) (pf : platform)
         (x p : ptr) (w : world),
    let len := pci_resource_len_rv pf p (QDMA_CONFIG_BAR hdr) in
    (exists rest,
        trace (fst (xdev_map_bars hdr build pf x p w))
        = trace w
            ++ EvPciIomap p (QDMA_CONFIG_BAR hdr) (config_map_len hdr pf p)
            :: rest)
    /\ config_map_len hdr pf p <= QDMA_MAX_BAR_LEN_MAPPED hdr
    /\ (0 <= len < 2 ^ 31 ->
        config_map_len hdr pf p = Z.min len (QDMA_MAX_BAR_LEN_MAPPED hdr))
    /\ (2 ^ 31 <= len < 2 ^ 32 -> 0 <= QDMA_MAX_BAR_LEN_MAPPED hdr ->
        config_map_len hdr pf p = len - 2 ^ 32).
Proof.
  intros hdr build pf x p w len.
  split; [| split; [apply config_map_len_le |
                    split; [apply config_map_len_min
                           | apply config_map_len_high]]].
  rewrite xdev_map_bars_unfold. cbv zeta.
  set (w3 := store x (set_regs (config_cookie hdr pf p)) _).
  assert (Ht3 : trace w3
                = trace w ++ [EvPciIomap p (QDMA_CONFIG_BAR hdr)
                                         (config_map_len hdr pf p)]).
  { unfold w3, pci_iomap. cbn. destruct (_ =? NULL); reflexivity. }
  assert (Hunmap : forall v, trace v = trace w3 ++ [] \/
                             (exists e, trace v = trace w3 ++ [e]) ->
                             exists rest', trace (xdev_unmap_bars x p v)
                                           = trace w3 ++ rest').
  { intros v Hv.
    destruct (xdev_unmap_bars_effect x p v) as (_ & _ & _ & Ht & _).
    cbv zeta in Ht. rewrite Ht.
    destruct Hv as [-> | (e & ->)]; rewrite <- !app_assoc; eauto. }
  assert (Hgoal : forall v, (exists rest', trace v = trace w3 ++ rest') ->
                            exists rest,
                              trace v
                              = trace w
                                  ++ EvPciIomap p (QDMA_CONFIG_BAR hdr)
                                       (config_map_len hdr pf p) :: rest).
  { intros v (rest' & ->). exists rest'. rewrite Ht3, <- app_assoc.
    reflexivity. }
  destruct (config_cookie hdr pf p =? NULL); cbn [fst].
  { apply Hgoal. exists []. now rewrite app_nil_r. }
  destruct (signature_ok hdr build pf p); cbn [negb fst].
  2: { apply Hgoal, Hunmap. left. now rewrite app_nil_r. }
  destruct (is_stm_device hdr pf p).
  - set (w5 := store x (set_stm_regs (stm_cookie hdr pf p)) _).
    assert (Ht5 : trace w5
                  = trace w3 ++ [EvPciIomap p (STM_BAR hdr)
                                   (stm_map_len hdr pf p)]).
    { unfold w5, pci_iomap. cbn. destruct (_ =? NULL); reflexivity. }
    destruct (stm_cookie hdr pf p =? NULL); cbn [fst].
    { apply Hgoal. eauto. }
    destruct (stm_rev_ok hdr (stm_rev_word hdr pf p)); cbn [negb fst].
    + apply Hgoal. exists [EvPciIomap p (STM_BAR hdr)
                             (stm_map_len hdr pf p)].
      exact Ht5.
    + apply Hgoal, Hunmap. right. eauto.
  - cbn [fst]. apply Hgoal. exists []. now rewrite app_nil_r.
Qed.

(** X15: the revision words [xdev_map_bars] accepts are the 256 words
    whose three upper bytes spell "STM", 0x53544D00 to 0x53544DFF, with
    the low byte, the revision, at most STM_SUPPORTED_REV. *)
Theorem stm_rev_ok_spec :
  forall (hdr : header) (rev : Z),
    stm_rev_ok hdr rev = true
    <-> 0x53544D00 <= rev <= 0x53544DFF
        /\ rev - 0x53544D00 <= STM_SUPPORTED_REV hdr.
Proof.
  intros hdr rev. unfold stm_rev_ok.
  rewrite !andb_true_iff, !Z.eqb_eq, Z.leb_le.
  rewrite !Z.shiftr_div_pow2 by lia.
  change 255 with (Z.ones 8). rewrite !Z.land_ones by lia.
  change (2 ^ 24) with 16777216. change (2 ^ 16) with 65536.
  change (2 ^ 8) with 256.
  split.
  - intros (((H24 & H16) & H8) & H0).
    Z.div_mod_to_equations. lia.
  - intros (Hrange & Hrev).
    Z.div_mod_to_equations. lia.
Qed.

(** * Further properties of the life cycle *)

(** X16: [pci_dma_mask_set] asks for the 64-bit mask first and for the
    32-bit mask only when the first is refused; it succeeds exactly when
    one of them is accepted, the consistent mask it then sets is always
    the 32-bit one, and when both are refused it returns -EINVAL without
    setting a consistent mask.  Nothing but the trace changes. *)
Theorem pci_dma_mask_set_calls :
  forall (pf : platform) (p : ptr) (w : world),
    let r := pci_dma_mask_set pf p w in
    (snd r = 0 <->
     pci_set_dma_mask_rv pf p 64 = 0 \/ pci_set_dma_mask_rv pf p 32 = 0)
    /\ (snd r <> 0 -> snd r = - EINVAL)
    /\ trace (fst r)
       = trace w
           ++ (if pci_set_dma_mask_rv pf p 64 =? 0
               then [EvPciSetDmaMask p 64; EvPciSetConsistentDmaMask p 32]
               else if pci_set_dma_mask_rv pf p 32 =? 0
                    then [EvPciSetDmaMask p 64; EvPciSetDmaMask p 32;
                          EvPciSetConsistentDmaMask p 32]
                    else [EvPciSetDmaMask p 64; EvPciSetDmaMask p 32])
    /\ mem (fst r) = mem w /\ xdev_list (fst r) = xdev_list w
    /\ pci_regions (fst r) = pci_regions w
    /\ pci_enabled (fst r) = pci_enabled w
    /\ iomapped (fst r) = iomapped w.
Proof.
  intros pf p w r. subst r.
  unfold pci_dma_mask_set, pci_set_dma_mask, pci_set_consistent_dma_mask.
  destruct (Z.eqb_spec (pci_set_dma_mask_rv pf p 64) 0) as [H64 | H64].
  - cbn. rewrite <- !app_assoc. repeat split; auto; try discriminate.
    intros H. now elim H.
  - destruct (Z.eqb_spec (pci_set_dma_mask_rv pf p 32) 0) as [H32 | H32].
    + cbn. rewrite <- !app_assoc. repeat split; auto; try discriminate.
      intros H. now elim H.
    + cbn. rewrite <- !app_assoc. repeat split; auto; try discriminate.
      intros [H | H]; contradiction.
Qed.

Lemma only_flags_refl h w : only_flags h w w.
Proof.
  repeat split. exists (flags (mem w h)).
  destruct (mem w h). reflexivity.
Qed.

Lemma only_flags_emit h w w' e : only_flags h w w' -> only_flags h w (emit e w').
Proof. intros H. exact H. Qed.

Lemma only_flags_store h w w' f :
  only_flags h w w' ->
  only_flags h w (store h (fun x => set_flags (f x) x) w').
Proof.
  intros (Hl & Hr & He & Hi & Hm & g & Hh).
  repeat split; try assumption.
  - intros a Ha. rewrite mem_store_other by assumption. now apply Hm.
  - exists (f (mem w' h)). rewrite mem_store_same, Hh. reflexivity.
Qed.

Lemma qdma_device_offline_only_flags hdr build p h w :
  only_flags h w (qdma_device_offline hdr build p h w).
Proof.
  unfold qdma_device_offline.
  destruct (h =? 0); [apply only_flags_refl |].
  destruct (xdev_check_hndl w p h <? 0); [apply only_flags_refl |].
  unfold qdma_mbox_cleanup, qdma_device_cleanup, xdev_sriov_vf_offline,
    xdev_sriov_disable, xdev_flag_set.
  destruct build as [| []]; repeat apply only_flags_emit;
    apply only_flags_store, only_flags_refl.
Qed.

Lemma qdma_device_online_only_flags hdr build pf p h w :
  only_flags h w (fst (qdma_device_online hdr build pf p h w)).
Proof.
  unfold qdma_device_online.
  destruct (h =? 0); [apply only_flags_refl |].
  destruct (xdev_check_hndl w p h <? 0); [apply only_flags_refl |].
  unfold qdma_device_init, online_cleanup_qdma, qdma_device_cleanup,
    qdma_mbox_init, qdma_mbox_start, xdev_sriov_vf_online, xdev_sriov_enable,
    xdev_flag_clear.
  destruct (qdma_device_init_rv pf h <? 0);
    [apply only_flags_emit, only_flags_emit, only_flags_refl |].
  destruct build as [| []].
  - destruct (xdev_sriov_vf_online_rv pf h <? 0); cbn [fst];
      repeat apply only_flags_emit; apply only_flags_store, only_flags_emit,
      only_flags_refl.
  - match goal with |- context [if negb ?c then _ else _] => destruct c end;
      cbn [negb fst].
    + repeat apply only_flags_emit; apply only_flags_store, only_flags_emit,
        only_flags_refl.
    + match goal with |- context [if ?c <? 0 then _ else _] =>
                        destruct (c <? 0) end;
        cbn [fst]; repeat apply only_flags_emit;
        apply only_flags_store, only_flags_emit, only_flags_refl.
  - cbn [fst]. repeat apply only_flags_emit;
      apply only_flags_store, only_flags_emit, only_flags_refl.
Qed.

Lemma only_flags_conf h w w' a :
  only_flags h w w' -> conf (mem w' a) = conf (mem w a)
                       /\ regs (mem w' a) = regs (mem w a)
                       /\ stm_regs (mem w' a) = stm_regs (mem w a).
Proof.
  intros (_ & _ & _ & _ & Hm & f & Hh).
  destruct (Z.eq_dec a h) as [-> | Hne].
  - rewrite Hh. repeat split.
  - rewrite Hm by assumption. repeat split.
Qed.

Lemma only_flags_check h w w' q k :
  only_flags h w w' -> xdev_check_hndl w' q k = xdev_check_hndl w q k.
Proof.
  intros Hof. pose proof Hof as (Hl & _).
  assert (Hst : forall a, pdev (conf (mem w' a)) = pdev (conf (mem w a))).
  { intros a. now destruct (only_flags_conf h w w' a Hof) as (-> & _). }
  unfold xdev_check_hndl, xdev_find_by_pdev.
  rewrite Hl, (find_by_pdev_from_stored (mem w) (mem w')) by assumption.
  now rewrite Hst.
Qed.

Lemma only_flags_trans h w1 w2 w3 :
  only_flags h w1 w2 -> only_flags h w2 w3 -> only_flags h w1 w3.
Proof.
  intros (A1 & A2 & A3 & A4 & A5 & f & A6) (B1 & B2 & B3 & B4 & B5 & g & B6).
  repeat split; try congruence.
  - intros a Ha. rewrite B5, A5 by assumption. reflexivity.
  - exists g. rewrite B6, A6. reflexivity.
Qed.

Lemma qdma_device_offline_effect :
  forall (hdr : header) (build : build_cfg) (p : ptr) (h : Z) (w : world),
    let w' := qdma_device_offline hdr build p h w in
    only_flags h w w'
    /\ (h = 0 \/ xdev_check_hndl w p h <> 0 -> w' = w)
    /\ (h <> 0 -> xdev_check_hndl w p h = 0 ->
        trace w' = trace w ++ offline_calls build h
        /\ flags (mem w' h) = Z.lor (flags (mem w h)) (XDEV_FLAG_OFFLINE hdr)
        /\ (XDEV_FLAG_OFFLINE hdr <> 0 -> offline hdr w' h = true)
        /\ xdev_check_hndl w' p h = 0).
Proof.
  intros hdr build p h w w'.
  pose proof (qdma_device_offline_only_flags hdr build p h w) as Hof.
  fold w' in Hof.
  split; [exact Hof | split].
  - subst w'. unfold qdma_device_offline. intros [-> | Hbad]; [reflexivity |].
    destruct (h =? 0); [reflexivity |].
    destruct (xdev_check_hndl_values w p h) as [Hok | ->];
      [contradiction | reflexivity].
  - intros Hh Hok.
    assert (Hflags : flags (mem w' h)
                     = Z.lor (flags (mem w h)) (XDEV_FLAG_OFFLINE hdr)).
    { subst w'. unfold qdma_device_offline.
      destruct (Z.eqb_spec h 0) as [| _]; [contradiction |].
      rewrite Hok. cbn [Z.ltb Z.compare].
      unfold qdma_mbox_cleanup, qdma_device_cleanup, xdev_sriov_vf_offline,
        xdev_sriov_disable, xdev_flag_set.
      destruct build as [| []]; cbn; now rewrite Z.eqb_refl. }
    split; [| split; [exact Hflags | split]].
    + subst w'. unfold qdma_device_offline, offline_calls.
      destruct (Z.eqb_spec h 0) as [| _]; [contradiction |].
      rewrite Hok. cbn [Z.ltb Z.compare].
      destruct build as [| []]; cbn; rewrite <- ?app_assoc; reflexivity.
    + intros Hflag. unfold offline, xdev_flag_check.
      rewrite Hflags, land_lor_same.
      destruct (Z.eqb_spec (XDEV_FLAG_OFFLINE hdr) 0);
        [contradiction | reflexivity].
    + now rewrite (only_flags_check h w w' p h Hof).
Qed.

(** X17: [qdma_device_offline] does nothing at all for a handle that is
    null or not valid.  For a valid handle it sets the offline flag, makes
    the call of its role and then [qdma_device_cleanup] and
    [qdma_mbox_cleanup], in this order, and changes nothing else: the list,
    the regions, the mappings, the configuration and the bars of the
    object stay, and the handle stays valid. *)
Theorem qdma_device_offline_spec :
  forall (hdr : header) (build : build_cfg) (p : ptr) (h : Z) (w : world),
    let w' := qdma_device_offline hdr build p h w in
    only_flags h w w'
    /\ (h = 0 \/ xdev_check_hndl w p h <> 0 -> w' = w)
    /\ (h <> 0 -> xdev_check_hndl w p h = 0 ->
        trace w' = trace w ++ offline_calls build h
        /\ flags (mem w' h) = Z.lor (flags (mem w h)) (XDEV_FLAG_OFFLINE hdr)
        /\ (XDEV_FLAG_OFFLINE hdr <> 0 -> offline hdr w' h = true)
        /\ xdev_check_hndl w' p h = 0).
Proof. exact qdma_device_offline_effect. Qed.

Lemma qdma_device_offline_spec_witness :
  trace (qdma_device_offline sample_header (QDMA_PF true) 1000 5000 one_device)
  = trace one_device
      ++ [EvSriovDisable 5000; EvDeviceCleanup 5000; EvMboxCleanup 5000]
  /\ qdma_device_offline sample_header (QDMA_PF true) 1001 5000 one_device
     = one_device.
Proof.
  destruct (qdma_device_offline_spec sample_header (QDMA_PF true) 1000 5000
              one_device) as (_ & _ & Hvalid).
  destruct (qdma_device_offline_spec sample_header (QDMA_PF true) 1001 5000
              one_device) as (_ & Hinvalid & _).
  split.
  - apply Hvalid; [discriminate | vm_compute; reflexivity].
  - apply Hinvalid. right. vm_compute. discriminate.
Defined.

Lemma qdma_device_online_effect :
  forall (hdr : header) (build : build_cfg) (pf : platform)
         (p : ptr) (h : Z) (w : world),
    let r := qdma_device_online hdr build pf p h w in
    only_flags h w (fst r)
    /\ (snd r = 0 <->
        h <> 0 /\ xdev_check_hndl w p h = 0
        /\ 0 <= qdma_device_init_rv pf h /\ role_step_ok build pf w h)
    /\ (snd r <> 0 -> snd r < 0)
    /\ exists evs,
        trace (fst r) = trace w ++ evs
        /\ (h = 0 \/ xdev_check_hndl w p h <> 0 -> evs = [])
        /\ (h <> 0 -> xdev_check_hndl w p h = 0 ->
            hd_error evs = Some (EvDeviceInit h)
            /\ (In (EvMboxInit h) evs <-> 0 <= qdma_device_init_rv pf h)
            /\ (snd r <> 0 -> last evs EvKzalloc = EvDeviceCleanup h)).
Proof.
  intros hdr build pf p h w r.
  split; [apply qdma_device_online_only_flags |].
  subst r. unfold qdma_device_online.
  destruct (Z.eqb_spec h 0) as [Hh | Hh].
  { cbn [fst snd]. split; [| split].
    - split; [discriminate | intros (H & _); contradiction].
    - intros _. reflexivity.
    - exists []. rewrite app_nil_r.
      split; [reflexivity | split; [reflexivity | contradiction]]. }
  destruct (xdev_check_hndl_values w p h) as [Hok | Hbad].
  2: { replace (xdev_check_hndl w p h <? 0) with true
         by (rewrite Hbad; reflexivity).
       cbn [fst snd]. split; [| split].
       - split; [discriminate |].
         intros (_ & H & _). rewrite H in Hbad. discriminate.
       - intros _. reflexivity.
       - exists []. rewrite app_nil_r.
         split; [reflexivity | split; [reflexivity |]].
         intros _ H. rewrite H in Hbad. discriminate. }
  replace (xdev_check_hndl w p h <? 0) with false
    by (rewrite Hok; reflexivity).
  unfold qdma_device_init, online_cleanup_qdma, qdma_device_cleanup,
    qdma_mbox_init, qdma_mbox_start, xdev_sriov_vf_online, xdev_sriov_enable,
    xdev_flag_clear.
  destruct (Z.ltb_spec (qdma_device_init_rv pf h) 0) as [Hinit | Hinit].
  { cbn [fst snd]. split; [| split].
    - split; [lia | intros (_ & _ & H & _); lia].
    - intros _. assumption.
    - exists [EvDeviceInit h; EvDeviceCleanup h].
      split; [cbn; now rewrite <- app_assoc |].
      split; [intros [? | ?]; contradiction |].
      intros _ _. split; [reflexivity | split; [| reflexivity]].
      split; [intros [H | [H | []]]; discriminate | lia]. }
  assert (Hvf : forall f e (v : world),
             mem v = mem w ->
             vf_max (conf (mem (emit e (store h (fun x => set_flags (f x) x)
                                               v)) h))
             = vf_max (conf (mem w h))).
  { intros f e v Hv. cbn. now rewrite Z.eqb_refl, Hv. }
  unfold role_step_ok.
  destruct build as [| []].
  - destruct (Z.ltb_spec (xdev_sriov_vf_online_rv pf h) 0) as [Hvfo | Hvfo];
      cbn [fst snd].
    + split; [| split].
      * split; [lia | intros (_ & _ & _ & H); lia].
      * intros _. assumption.
      * exists [EvDeviceInit h; EvMboxInit h; EvMboxStart h;
                EvSriovVfOnline h; EvDeviceCleanup h].
        split; [cbn; now rewrite <- !app_assoc |].
        split; [intros [? | ?]; contradiction |].
        intros _ _. split; [reflexivity | split; [| reflexivity]].
        split; [intros _; assumption | intros _; right; now left].
    + split; [| split].
      * split; [intros _; auto | reflexivity].
      * intros H. now elim H.
      * exists [EvDeviceInit h; EvMboxInit h; EvMboxStart h;
                EvSriovVfOnline h].
        split; [cbn; now rewrite <- !app_assoc |].
        split; [intros [? | ?]; contradiction |].
        intros _ _. split; [reflexivity | split].
        -- split; [intros _; assumption | intros _; right; now left].
        -- intros H. now elim H.
  - rewrite !Hvf by reflexivity.
    destruct (Z.eqb_spec (vf_max (conf (mem w h))) 0) as [Hvm | Hvm];
      cbn [negb].
    + cbn [fst snd]. split; [| split].
      * split; [intros _; auto | reflexivity].
      * intros H. now elim H.
      * exists [EvDeviceInit h; EvMboxInit h].
        split; [cbn; now rewrite <- !app_assoc |].
        split; [intros [? | ?]; contradiction |].
        intros _ _. split; [reflexivity | split].
        -- split; [intros _; assumption | intros _; right; now left].
        -- intros H. now elim H.
    + destruct (Z.ltb_spec (xdev_sriov_enable_rv pf h
                              (vf_max (conf (mem w h)))) 0) as [Hen | Hen];
        cbn [fst snd].
      * split; [| split].
        -- split; [lia | intros (_ & _ & _ & [H | H]); [contradiction | lia]].
        -- intros _. assumption.
        -- exists [EvDeviceInit h; EvMboxInit h;
                   EvSriovEnable h (vf_max (conf (mem w h)));
                   EvDeviceCleanup h].
           split; [cbn; now rewrite <- !app_assoc |].
           split; [intros [? | ?]; contradiction |].
           intros _ _. split; [reflexivity | split; [| reflexivity]].
           split; [intros _; assumption | intros _; right; now left].
      * split; [| split].
        -- split; [intros _; auto | reflexivity].
        -- intros H. now elim H.
        -- exists [EvDeviceInit h; EvMboxInit h;
                   EvSriovEnable h (vf_max (conf (mem w h)))].
           split; [cbn; now rewrite <- !app_assoc |].
           split; [intros [? | ?]; contradiction |].
           intros _ _. split; [reflexivity | split].
           ++ split; [intros _; assumption | intros _; right; now left].
           ++ intros H. now elim H.
  - cbn [fst snd]. split; [| split].
    + split; [intros _; auto | reflexivity].
    + intros H. now elim H.
    + exists [EvDeviceInit h; EvMboxInit h].
      split; [cbn; now rewrite <- !app_assoc |].
      split; [intros [? | ?]; contradiction |].
      intros _ _. split; [reflexivity | split].
      * split; [intros _; assumption | intros _; right; now left].
      * intros H. now elim H.
Qed.

(** X18: [qdma_device_online] returns 0 exactly when the handle is not
    null and valid, [qdma_device_init] does not fail and the step of the
    role succeeds; every other outcome is negative.  In all cases it
    changes at most the flag word of the object and the trace.  It makes
    no call for a handle that is null or not valid; past validation the
    first call is [qdma_device_init], [qdma_mbox_init] is called only
    after that has succeeded, and every failure ends with
    [qdma_device_cleanup]. *)
Theorem qdma_device_online_spec :
  forall (hdr : header) (build : build_cfg) (pf : platform)
         (p : ptr) (h : Z) (w : world),
    let r := qdma_device_online hdr build pf p h w in
    only_flags h w (fst r)
    /\ (snd r = 0 <->
        h <> 0 /\ xdev_check_hndl w p h = 0
        /\ 0 <= qdma_device_init_rv pf h /\ role_step_ok build pf w h)
    /\ (snd r <> 0 -> snd r < 0)
    /\ exists evs,
        trace (fst r) = trace w ++ evs
        /\ (h = 0 \/ xdev_check_hndl w p h <> 0 -> evs = [])
        /\ (h <> 0 -> xdev_check_hndl w p h = 0 ->
            hd_error evs = Some (EvDeviceInit h)
            /\ (In (EvMboxInit h) evs <-> 0 <= qdma_device_init_rv pf h)
            /\ (snd r <> 0 -> last evs EvKzalloc = EvDeviceCleanup h)).
Proof. exact qdma_device_online_effect. Qed.

Lemma qdma_device_online_spec_witness :
  snd (qdma_device_online sample_header QDMA_VF (sample_platform 5000)
         1000 5000 created) = 0
  /\ snd (qdma_device_online sample_header QDMA_VF (vf_online_fails 5000)
            1000 5000 created) < 0.
Proof.
  destruct (qdma_device_online_spec sample_header QDMA_VF
              (sample_platform 5000) 1000 5000 created) as (_ & Hiff & _).
  destruct (qdma_device_online_spec sample_header QDMA_VF
              (vf_online_fails 5000) 1000 5000 created) as (_ & _ & Hneg & _).
  split.
  - apply Hiff. split; [discriminate |].
    split; [vm_compute; reflexivity |].
    split; vm_compute; discriminate.
  - apply Hneg. vm_compute. discriminate.
Defined.

Lemma qdma_device_online_flags hdr build pf p h w :
  h <> 0 -> xdev_check_hndl w p h = 0 -> 0 <= qdma_device_init_rv pf h ->
  flags (mem (fst (qdma_device_online hdr build pf p h w)) h)
  = Z.ldiff (flags (mem w h)) (XDEV_FLAG_OFFLINE hdr).
Proof.
  intros Hh Hok Hinit. unfold qdma_device_online.
  destruct (Z.eqb_spec h 0) as [| _]; [contradiction |].
  replace (xdev_check_hndl w p h <? 0) with false
    by (rewrite Hok; reflexivity).
  unfold qdma_device_init, online_cleanup_qdma, qdma_device_cleanup,
    qdma_mbox_init, qdma_mbox_start, xdev_sriov_vf_online, xdev_sriov_enable,
    xdev_flag_clear.
  destruct (Z.ltb_spec (qdma_device_init_rv pf h) 0) as [| _]; [lia |].
  destruct build as [| []].
  - destruct (xdev_sriov_vf_online_rv pf h <? 0); cbn;
      now rewrite Z.eqb_refl.
  - match goal with |- context [if negb ?c then _ else _] => destruct c end;
      cbn [negb].
    + cbn. now rewrite Z.eqb_refl.
    + match goal with |- context [if ?c <? 0 then _ else _] =>
                        destruct (c <? 0) end;
        cbn; now rewrite Z.eqb_refl.
  - cbn. now rewrite Z.eqb_refl.
Qed.

(** X19: online and offline undo each other on the flag.  For a valid
    handle, [qdma_device_offline] after [qdma_device_online] leaves the
    offline flag set whatever the outcome of online was, and
    [qdma_device_online] after [qdma_device_offline] leaves it clear
    whenever [qdma_device_init] succeeds; the handle stays valid through
    both. *)
Theorem online_offline_flag :
  forall (hdr : header) (build : build_cfg) (pf : platform)
         (p : ptr) (h : Z) (w : world),
    XDEV_FLAG_OFFLINE hdr <> 0 ->
    h <> 0 -> xdev_check_hndl w p h = 0 ->
    let on := fst (qdma_device_online hdr build pf p h w) in
    let off := qdma_device_offline hdr build p h w in
    offline hdr (qdma_device_offline hdr build p h on) h = true
    /\ xdev_check_hndl (qdma_device_offline hdr build p h on) p h = 0
    /\ (0 <= qdma_device_init_rv pf h ->
        offline hdr (fst (qdma_device_online hdr build pf p h off)) h = false)
    /\ xdev_check_hndl (fst (qdma_device_online hdr build pf p h off)) p h = 0.
Proof.
  intros hdr build pf p h w Hflag Hh Hok on off.
  assert (Hon : xdev_check_hndl on p h = 0).
  { unfold on.
    rewrite (only_flags_check h w _ p h
               (qdma_device_online_only_flags hdr build pf p h w)).
    exact Hok. }
  assert (Hoff : xdev_check_hndl off p h = 0).
  { unfold off.
    rewrite (only_flags_check h w _ p h
               (qdma_device_offline_only_flags hdr build p h w)).
    exact Hok. }
  destruct (qdma_device_offline_effect hdr build p h on) as (_ & _ & Hvalid).
  destruct (Hvalid Hh Hon) as (_ & _ & Hset & Hstill).
  split; [now apply Hset | split; [exact Hstill | split]].
  - intros Hinit. unfold offline, xdev_flag_check.
    rewrite qdma_device_online_flags by assumption.
    now rewrite land_ldiff_same.
  - rewrite (only_flags_check h off _ p h
               (qdma_device_online_only_flags hdr build pf p h off)).
    exact Hoff.
Qed.

Lemma online_offline_flag_witness :
  offline sample_header
    (qdma_device_offline sample_header QDMA_VF 1000 5000
       (fst (qdma_device_online sample_header QDMA_VF (sample_platform 5000)
               1000 5000 created))) 5000 = true
  /\ offline sample_header
       (fst (qdma_device_online sample_header QDMA_VF (sample_platform 5000)
               1000 5000
               (qdma_device_offline sample_header QDMA_VF 1000 5000 created)))
       5000 = false.
Proof.
  assert (Hflag : XDEV_FLAG_OFFLINE sample_header <> 0) by discriminate.
  assert (Hh : 5000 <> 0) by discriminate.
  assert (Hok : xdev_check_hndl created 1000 5000 = 0)
    by (vm_compute; reflexivity).
  destruct (online_offline_flag sample_header QDMA_VF (sample_platform 5000)
              1000 5000 created Hflag Hh Hok) as (Hset & _ & Hclear & _).
  split; [exact Hset | apply Hclear]. vm_compute. discriminate.
Defined.

(** X20: [qdma_device_close] with a valid handle, on a list without
    repetition: the object is taken off the list, its handle is turned
    down from then on for every bus reference, its bars are unmapped, the
    regions of the device are released and the device is disabled; a
    second close with the same handle does nothing.  The calls are those
    of [qdma_device_offline], the unmapping, then
    [pci_release_regions], [pci_disable_device] and [kfree]. *)
Theorem qdma_device_close_spec :
  forall (hdr : header) (build : build_cfg) (p : ptr) (h : Z) (w : world),
    h <> 0 -> xdev_check_hndl w p h = 0 -> NoDup (xdev_list w) ->
    let w' := qdma_device_close hdr build p h w in
    xdev_list w' = remove_one h (xdev_list w)
    /\ ~ In h (xdev_list w')
    /\ (forall q, xdev_check_hndl w' q h = - EINVAL)
    /\ qdma_device_close hdr build p h w' = w'
    /\ regs (mem w' h) = NULL /\ stm_regs (mem w' h) = NULL
    /\ pci_regions w' = remove_one p (pci_regions w)
    /\ pci_enabled w' = remove_one p (pci_enabled w)
    /\ (forall a, a <> h -> mem w' a = mem w a)
    /\ trace w'
       = trace (xdev_unmap_bars h p (qdma_device_offline hdr build p h w))
           ++ [EvPciReleaseRegions p; EvPciDisableDevice p; EvKfree h].
Proof.
  intros hdr build p h w Hh Hok Hnd w'.
  pose proof (qdma_device_offline_only_flags hdr build p h w)
    as (Ol & Or & Oe & Oi & Om & _).
  destruct (xdev_unmap_bars_effect h p (qdma_device_offline hdr build p h w))
    as (Ur & Us & _ & _ & _ & _ & _ & Um & Ul).
  destruct (xdev_unmap_bars_frame h p (qdma_device_offline hdr build p h w))
    as (_ & Urg & Uen).
  assert (Hw' : w' = kfree h
                  (xdev_list_remove h
                     (pci_disable_device p
                        (pci_release_regions p
                           (xdev_unmap_bars h p
                              (qdma_device_offline hdr build p h w)))))).
  { unfold w', qdma_device_close.
    destruct (Z.eqb_spec h 0) as [| _]; [contradiction |].
    now rewrite Hok. }
  assert (Hl : xdev_list w' = remove_one h (xdev_list w)).
  { rewrite Hw'. cbn. now rewrite Ul, Ol. }
  assert (Hgone : ~ In h (xdev_list w')).
  { rewrite Hl. now apply remove_one_NoDup. }
  assert (Hcheck : forall q, xdev_check_hndl w' q h = - EINVAL).
  { intros q.
    destruct (xdev_check_hndl_values w' q h) as [Hok' | Hbad];
      [| assumption].
    exfalso. apply xdev_check_hndl_ok in Hok' as (_ & _ & Hfind).
    apply Hgone. rewrite <- Hfind. apply find_by_pdev_from_In.
    unfold xdev_find_by_pdev in Hfind. now rewrite Hfind. }
  split; [exact Hl | split; [exact Hgone | split; [exact Hcheck |]]].
  split.
  { unfold qdma_device_close at 1.
    destruct (Z.eqb_spec h 0) as [| _]; [contradiction |].
    now rewrite (Hcheck p). }
  rewrite Hw'. cbn.
  split; [exact Ur | split; [exact Us |]].
  split; [now rewrite Urg, Or |].
  split; [now rewrite Uen, Oe |].
  split.
  - intros a Ha. rewrite Um by assumption. now apply Om.
  - rewrite <- !app_assoc. reflexivity.
Qed.

Lemma qdma_device_close_spec_witness :
  xdev_list (qdma_device_close sample_header (QDMA_PF true) 1000 5000
               two_devices) = [6000]
  /\ xdev_check_hndl (qdma_device_close sample_header (QDMA_PF true) 1000
                        5000 two_devices) 1000 5000 = - EINVAL.
Proof.
  assert (Hnd : NoDup (xdev_list two_devices)).
  { rewrite two_devices_list.
    constructor; [intros [H | []]; discriminate |].
    constructor; [intros [] | constructor]. }
  assert (Hok : xdev_check_hndl two_devices 1000 5000 = 0)
    by (vm_compute; reflexivity).
  assert (Hh : 5000 <> 0) by discriminate.
  destruct (qdma_device_close_spec sample_header (QDMA_PF true) 1000 5000
              two_devices Hh Hok Hnd) as (Hl & _ & Hcheck & _).
  split; [| apply Hcheck].
  rewrite Hl, two_devices_list. reflexivity.
Defined.

(** *** Open that succeeds *)

Lemma open_setup_ready_conf hdr build pf mn c0 w :
  match open_setup hdr build pf mn c0 w with
  | OpenReturned _ _ => True
  | OpenReady w1 _ x c => c = conf (mem w1 x)
  end.
Proof.
  unfold open_setup.
  cbv zeta.
  destruct mn as [mn |]; [| exact I].
  destruct (pdev c0 =? NULL); [exact I |].
  destruct (negb (xdev_find_by_pdev w (pdev c0) =? NULL)); [exact I |].
  destruct (pci_request_regions pf (pdev c0) w) as [w1 rv1].
  destruct (negb (rv1 =? 0)); [exact I |].
  destruct (pci_enable_device pf (pdev c0) w1) as [w2 rv2].
  destruct (negb (rv2 =? 0)); [exact I |].
  destruct (pci_dma_mask_set pf (pdev c0) _) as [w3 rv3].
  destruct (negb (rv3 =? 0)); [exact I |].
  destruct (open_create hdr build pf mn _ w3) as [w4 xdev].
  destruct (xdev =? NULL); [exact I |].
  destruct (xdev_map_bars hdr build pf xdev (pdev c0) _) as [w6 rv6].
  destruct (negb (rv6 =? 0)); [exact I |].
  match goal with |- context [if ?c then _ else _] => destruct c end;
    [exact I | reflexivity].
Qed.

Lemma open_success_inv hdr build pf mn c0 w :
  open_hndl (snd (qdma_device_open hdr build pf mn c0 w)) <> 0 ->
  exists w1,
    kzalloc_rv pf <> NULL
    /\ held w (pdev c0) (kzalloc_rv pf) w1
    /\ xdev_check_hndl w1 (pdev c0) (kzalloc_rv pf) = 0
    /\ 0 <= qdma_device_init_rv pf (kzalloc_rv pf)
    /\ qdma_device_open hdr build pf mn c0 w
       = (fst (qdma_device_online hdr build pf (pdev c0) (kzalloc_rv pf) w1),
          mk_open_result (QDMA_OPERATION_SUCCESSFUL hdr) (kzalloc_rv pf)
                         (conf (mem w1 (kzalloc_rv pf)))).
Proof.
  unfold qdma_device_open.
  pose proof (open_setup_spec hdr build pf mn c0 w) as Hspec.
  pose proof (open_setup_ready_conf hdr build pf mn c0 w) as Hconf.
  destruct (open_setup hdr build pf mn c0 w) as [w1 res | w1 p x c].
  - destruct Hspec as (Hnull & _). cbn [snd]. intros H. contradiction.
  - destruct Hspec as (-> & Hx & Hheld & ->). subst c.
    destruct (qdma_device_online_effect hdr build pf (pdev c0) (kzalloc_rv pf) w1)
      as (_ & Hiff & Hneg & _).
    destruct (qdma_device_online hdr build pf (pdev c0) (kzalloc_rv pf) w1)
      as [w2 rv] eqn:Hon.
    cbn [fst snd] in *.
    destruct (Z.ltb_spec rv 0) as [Hlt | Hge]; cbn [snd open_hndl].
    + intros H. now elim H.
    + intros _.
      assert (Hrv : rv = 0).
      { destruct (Z.eq_dec rv 0) as [| Hne]; [assumption |].
        specialize (Hneg Hne). lia. }
      destruct (proj1 Hiff Hrv) as (_ & Hok & Hinit & _).
      exists w1.
      split; [exact Hx | split; [exact Hheld |]].
      split; [exact Hok | split; [exact Hinit |]].
      rewrite Hon. reflexivity.
Qed.

(** X21: what a successful open leaves behind.  The handle is the
    address of the new object, the value returned is
    QDMA_OPERATION_SUCCESSFUL, the object is the last entry of the list,
    its handle is valid for the bus reference of the configuration, its
    offline flag is clear, the regions are held and the device is
    enabled; the configuration handed back to the caller is the one the
    object stores, which [qdma_device_get_config] returns; no other object
    is written. *)
Theorem qdma_device_open_success :
  forall (hdr : header) (build : build_cfg) (pf : platform)
         (mod_name : option (list ascii)) (c : qdma_dev_conf) (w : world),
    let r := qdma_device_open hdr build pf mod_name c w in
    let h := open_hndl (snd r) in
    h <> 0 ->
    h = kzalloc_rv pf
    /\ open_rv (snd r) = QDMA_OPERATION_SUCCESSFUL hdr
    /\ xdev_list (fst r) = xdev_list w ++ [h]
    /\ xdev_check_hndl (fst r) (pdev c) h = 0
    /\ offline hdr (fst r) h = false
    /\ pci_regions (fst r) = pdev c :: pci_regions w
    /\ pci_enabled (fst r) = pdev c :: pci_enabled w
    /\ open_conf (snd r) = conf (mem (fst r) h)
    /\ (forall c0, qdma_device_get_config h c0 (fst r)
                   = (0, conf (mem (fst r) h)))
    /\ (forall a, a <> h -> mem (fst r) a = mem w a).
Proof.
  intros hdr build pf mod_name c w r h Hsucc.
  destruct (open_success_inv hdr build pf mod_name c w Hsucc)
    as (w1 & Hx & Hheld & Hok & Hinit & Hopen).
  subst h r. rewrite Hopen. cbn [fst snd open_hndl open_rv open_conf].
  set (x := kzalloc_rv pf) in *.
  pose proof (qdma_device_online_only_flags hdr build pf (pdev c) x w1) as Hof.
  pose proof (held_online hdr build pf w (pdev c) x w1 (pdev c) Hheld)
    as (Hl & Hr & He & _ & Hm).
  set (w2 := fst (qdma_device_online hdr build pf (pdev c) x w1)) in *.
  assert (Hok2 : xdev_check_hndl w2 (pdev c) x = 0)
    by (now rewrite (only_flags_check x w1 w2 (pdev c) x Hof)).
  assert (Hconf : conf (mem w2 x) = conf (mem w1 x))
    by (now destruct (only_flags_conf x w1 w2 x Hof)).
  split; [reflexivity | split; [reflexivity | split; [exact Hl |]]].
  split; [exact Hok2 | split].
  { unfold offline, xdev_flag_check, w2.
    rewrite qdma_device_online_flags by assumption.
    now rewrite land_ldiff_same. }
  split; [exact Hr | split; [exact He | split]].
  { now rewrite Hconf. }
  split; [| exact Hm].
  intros c1. unfold qdma_device_get_config.
  destruct (check_hndl_registered w2 (pdev c) x Hok2)
    as (_ & _ & _ & _ & Hst & _).
  unfold stored_pdev in Hst. rewrite Hst, Hok2. reflexivity.
Qed.

Lemma qdma_device_open_success_witness :
  open_hndl (snd (qdma_device_open sample_header (QDMA_PF true)
                    (sample_platform 5000) (Some (chars "qdma_pf"))
                    (sample_conf 1000) empty_world)) = 5000
  /\ xdev_check_hndl one_device 1000 5000 = 0.
Proof.
  assert (Hsucc : open_hndl
                    (snd (qdma_device_open sample_header (QDMA_PF true)
                            (sample_platform 5000) (Some (chars "qdma_pf"))
                            (sample_conf 1000) empty_world)) <> 0).
  { vm_compute. discriminate. }
  destruct (qdma_device_open_success sample_header (QDMA_PF true)
              (sample_platform 5000) (Some (chars "qdma_pf"))
              (sample_conf 1000) empty_world Hsucc)
    as (Hh & _ & _ & Hok & _).
  split; [exact Hh |].
  rewrite Hh in Hok. exact Hok.
Defined.

(** X22: open and close undo each other.  When [qdma_device_open]
    succeeds with an object that was not on the list, closing the handle
    it returned gives back the list, the held regions, the enabled
    devices and the mappings of before the open, and every lookup by bus
    reference answers as before. *)
Theorem qdma_device_open_close :
  forall (hdr : header) (build : build_cfg) (pf : platform)
         (mod_name : option (list ascii)) (c : qdma_dev_conf) (w : world),
    let r := qdma_device_open hdr build pf mod_name c w in
    ~ In (kzalloc_rv pf) (xdev_list w) ->
    open_hndl (snd r) <> 0 ->
    let w' := qdma_device_close hdr build (pdev c) (open_hndl (snd r))
                                (fst r) in
    xdev_list w' = xdev_list w
    /\ pci_regions w' = pci_regions w
    /\ pci_enabled w' = pci_enabled w
    /\ iomapped w' = iomapped w
    /\ (forall q, xdev_find_by_pdev w' q = xdev_find_by_pdev w q).
Proof.
  intros hdr build pf mod_name c w r Hfresh Hsucc.
  destruct (open_success_inv hdr build pf mod_name c w Hsucc)
    as (w1 & Hx & Hheld & Hok & Hinit & Hopen).
  subst r. rewrite Hopen. cbn [fst snd open_hndl].
  set (x := kzalloc_rv pf) in *.
  pose proof (qdma_device_online_only_flags hdr build pf (pdev c) x w1) as Hof.
  pose proof (held_online hdr build pf w (pdev c) x w1 (pdev c) Hheld)
    as Hheld2.
  set (w2 := fst (qdma_device_online hdr build pf (pdev c) x w1)) in *.
  assert (Hok2 : xdev_check_hndl w2 (pdev c) x = 0)
    by (now rewrite (only_flags_check x w1 w2 (pdev c) x Hof)).
  pose proof (held_offline hdr build w (pdev c) x w2 (pdev c) Hheld2)
    as Hheld3.
  destruct (held_unmap_bars w (pdev c) x _ Hheld3)
    as ((Hl & Hr & He & Hi & Hm) & Hregs & Hstm).
  rewrite Hregs, Hstm in Hi. cbn in Hi.
  set (w' := qdma_device_close hdr build (pdev c) x w2).
  assert (Hw' : w' = kfree x
                  (xdev_list_remove x
                     (pci_disable_device (pdev c)
                        (pci_release_regions (pdev c)
                           (xdev_unmap_bars x (pdev c)
                              (qdma_device_offline hdr build (pdev c) x
                                                   w2)))))).
  { unfold w', qdma_device_close.
    destruct (Z.eqb_spec x 0) as [| _]; [contradiction |].
    now rewrite Hok2. }
  assert (Hres : restored w x w').
  { rewrite Hw'. unfold restored. cbn.
    rewrite Hl, Hr, He, !remove_one_head, remove_one_snoc by assumption.
    repeat split; assumption. }
  destruct Hres as (Rl & Rr & Re & Ri & Rm).
  split; [exact Rl | split; [exact Rr | split; [exact Re |]]].
  split; [exact Ri |].
  intros q. apply (restored_find w x w' q Hfresh).
  repeat split; assumption.
Qed.

Lemma qdma_device_open_close_witness :
  xdev_list (qdma_device_close sample_header (QDMA_PF true) 1001 6000
               two_devices) = [5000]
  /\ pci_regions (qdma_device_close sample_header (QDMA_PF true) 1001 6000
                    two_devices) = [1000].
Proof.
  assert (Hfresh : ~ In (kzalloc_rv (sample_platform 6000))
                        (xdev_list one_device)).
  { intros H. vm_compute in H. destruct H as [H | []]. discriminate. }
  assert (Hsucc : open_hndl
                    (snd (qdma_device_open sample_header (QDMA_PF true)
                            (sample_platform 6000) (Some (chars "qdma_pf"))
                            (sample_conf 1001) one_device)) <> 0).
  { vm_compute. discriminate. }
  destruct (qdma_device_open_close sample_header (QDMA_PF true)
              (sample_platform 6000) (Some (chars "qdma_pf"))
              (sample_conf 1001) one_device Hfresh Hsucc)
    as (Hl & Hr & _).
  assert (Hlist : xdev_list one_device = [5000]) by (vm_compute; reflexivity).
  assert (Hregs : pci_regions one_device = [1000])
    by (vm_compute; reflexivity).
  split; [rewrite <- Hlist; exact Hl | rewrite <- Hregs; exact Hr].
Defined.

Lemma qdma_device_open_success_inv_check hdr build pf mod_name c w :
  open_hndl (snd (qdma_device_open hdr build pf mod_name c w)) <> 0 ->
  pdev c <> NULL
  /\ xdev_find_by_pdev (fst (qdma_device_open hdr build pf mod_name c w))
                       (pdev c) <> NULL.
Proof.
  intros Hsucc.
  destruct (open_success_inv hdr build pf mod_name c w Hsucc)
    as (w1 & Hx & Hheld & Hok & Hinit & Hopen).
  rewrite Hopen. cbn [fst].
  pose proof (qdma_device_online_only_flags hdr build pf (pdev c)
                (kzalloc_rv pf) w1) as Hof.
  rewrite <- (only_flags_check _ _ _ (pdev c) (kzalloc_rv pf) Hof) in Hok.
  apply xdev_check_hndl_ok in Hok as (Hp & Hh & Hfind).
  split; [exact Hp | now rewrite Hfind].
Qed.

(** X23: a device that is open cannot be opened again.  After a
    successful open, an open for the same bus reference returns
    QDMA_ERR_PCI_DEVICE_ALREADY_ATTACHED with a null handle, whatever the
    platform would answer, and leaves the world exactly as it is; the
    caller's configuration comes back with both bar numbers at -1. *)
Theorem qdma_device_open_twice :
  forall (hdr : header) (build : build_cfg) (pf pf2 : platform)
         (mod_name : option (list ascii)) (mn2 : list ascii)
         (c c2 : qdma_dev_conf) (w : world),
    let r := qdma_device_open hdr build pf mod_name c w in
    open_hndl (snd r) <> 0 ->
    pdev c2 = pdev c ->
    qdma_device_open hdr build pf2 (Some mn2) c2 (fst r)
    = (fst r,
       mk_open_result (QDMA_ERR_PCI_DEVICE_ALREADY_ATTACHED hdr) 0
                      (conf_set_bars (-1) (-1) c2)).
Proof.
  intros hdr build pf pf2 mod_name mn2 c c2 w r Hsucc Hpdev.
  destruct (qdma_device_open_success_inv_check hdr build pf mod_name c w Hsucc)
    as (Hp & Hfind).
  fold r in Hp, Hfind.
  unfold qdma_device_open at 1. unfold open_setup. rewrite Hpdev.
  destruct (Z.eqb_spec (pdev c) NULL) as [| _]; [contradiction |].
  cbv zeta.
  destruct (Z.eqb_spec (xdev_find_by_pdev (fst r) (pdev c)) NULL)
    as [Hnull | _]; [contradiction |].
  reflexivity.
Qed.

Lemma qdma_device_open_twice_witness :
  open_rv (snd (qdma_device_open sample_header (QDMA_PF true)
                  (sample_platform 6000) (Some (chars "qdma_pf"))
                  (sample_conf 1000)
                  (fst (qdma_device_open sample_header (QDMA_PF true)
                          (sample_platform 5000) (Some (chars "qdma_pf"))
                          (sample_conf 1000) empty_world))))
  = QDMA_ERR_PCI_DEVICE_ALREADY_ATTACHED sample_header.
Proof.
  assert (Hsucc : open_hndl
                    (snd (qdma_device_open sample_header (QDMA_PF true)
                            (sample_platform 5000) (Some (chars "qdma_pf"))
                            (sample_conf 1000) empty_world)) <> 0).
  { vm_compute. discriminate. }
  assert (Hp : pdev (sample_conf 1000) = pdev (sample_conf 1000))
    by reflexivity.
  rewrite (qdma_device_open_twice sample_header (QDMA_PF true)
             (sample_platform 5000) (sample_platform 6000)
             (Some (chars "qdma_pf")) (chars "qdma_pf")
             (sample_conf 1000) (sample_conf 1000) empty_world Hsucc Hp).
  reflexivity.
Defined.

(** *** Configuration of an open device *)

(** X24: changing the configuration state and reading the configuration
    back.  For a valid handle and a state from 0 to CFG_USER,
    [qdma_device_set_cfg_state] returns 0 and [qdma_device_get_config]
    then returns the configuration of before with only the state
    replaced; the validity of every handle, the flag word of the object
    and every other object are as before.  A negative [int] given for the
    state is, read as unsigned, above a CFG_USER that fits an [int]: it is
    turned down with -EINVAL and nothing is stored. *)
Theorem set_cfg_state_get_config :
  forall (hdr : header) (p : ptr) (h s : Z) (c0 : qdma_dev_conf) (w : world),
    0 <= s <= CFG_USER hdr ->
    xdev_check_hndl w p h = 0 ->
    let r := qdma_device_set_cfg_state hdr h s w in
    snd r = 0
    /\ qdma_device_get_config h c0 (fst r)
       = (0, conf_set_cur_cfg_state s (conf (mem w h)))
    /\ (forall q k, xdev_check_hndl (fst r) q k = xdev_check_hndl w q k)
    /\ flags (mem (fst r) h) = flags (mem w h)
    /\ (forall a, a <> h -> mem (fst r) a = mem w a)
    /\ (forall t, - 2 ^ 31 <= t < 0 -> CFG_USER hdr < 2 ^ 31 ->
                  qdma_device_set_cfg_state hdr h t w = (w, - EINVAL)).
Proof.
  intros hdr p h s c0 w Hs Hok r.
  assert (Hneg : forall t, - 2 ^ 31 <= t < 0 -> CFG_USER hdr < 2 ^ 31 ->
                           qdma_device_set_cfg_state hdr h t w
                           = (w, - EINVAL)).
  { intros t Ht Hu. unfold qdma_device_set_cfg_state.
    rewrite enum_of_int_neg by lia.
    destruct (Z.gtb_spec (t + 2 ^ 32) (CFG_USER hdr)); [reflexivity | lia]. }
  destruct (check_hndl_registered w p h Hok)
    as (_ & _ & _ & _ & Hst & _).
  unfold stored_pdev in Hst.
  set (w' := store h
               (fun x => set_conf (conf_set_cur_cfg_state s (conf x)) x) w).
  assert (Hr : r = (w', 0)).
  { unfold r, qdma_device_set_cfg_state.
    rewrite enum_of_int_nonneg by lia.
    destruct (Z.gtb_spec s (CFG_USER hdr)) as [| _]; [lia |].
    rewrite Hst, Hok. reflexivity. }
  assert (Hpd : forall a, pdev (conf (mem w' a)) = pdev (conf (mem w a))).
  { intros a. unfold w'. rewrite mem_store.
    destruct (Z.eqb_spec a h) as [-> | _]; reflexivity. }
  assert (Hchk : forall q k, xdev_check_hndl w' q k = xdev_check_hndl w q k).
  { intros q k. unfold xdev_check_hndl, xdev_find_by_pdev.
    replace (xdev_list w') with (xdev_list w) by reflexivity.
    rewrite (find_by_pdev_from_stored (mem w) (mem w')) by assumption.
    now rewrite Hpd. }
  rewrite Hr. cbn [fst snd].
  split; [reflexivity | split; [| split; [exact Hchk | split; [| split]]]].
  - unfold qdma_device_get_config.
    rewrite Hpd, Hst, Hchk, Hok. unfold w'. rewrite mem_store_same.
    reflexivity.
  - unfold w'. rewrite mem_store_same. reflexivity.
  - intros a Ha. unfold w'. now rewrite mem_store_other.
  - exact Hneg.
Qed.

Lemma set_cfg_state_get_config_witness :
  qdma_device_get_config 5000 (sample_conf 0)
    (fst (qdma_device_set_cfg_state sample_header 5000
            (CFG_USER sample_header) one_device))
  = (0, conf_set_cur_cfg_state (CFG_USER sample_header)
          (conf (mem one_device 5000))).
Proof.
  assert (Hs : 0 <= CFG_USER sample_header <= CFG_USER sample_header)
    by (vm_compute; split; discriminate).
  assert (Hok : xdev_check_hndl one_device 1000 5000 = 0)
    by (vm_compute; reflexivity).
  destruct (set_cfg_state_get_config sample_header 1000 5000
              (CFG_USER sample_header) (sample_conf 0) one_device Hs Hok)
    as (_ & Hget & _).
  exact Hget.
Defined.

(** X25: [qdma_device_set_config] copies the whole snapshot, the bus
    reference included, so a snapshot that names another device takes the
    handle away from its own: the call returns 0, and from then on the
    handle is not valid for the bus reference it was opened with, so that
    [qdma_device_offline] and [qdma_device_close] called with that
    reference do nothing. *)
Theorem set_config_other_pdev :
  forall (hdr : header) (build : build_cfg) (p : ptr) (h : Z)
         (c : qdma_dev_conf) (w : world),
    xdev_check_hndl w p h = 0 ->
    pdev c <> p ->
    let r := qdma_device_set_config h (Some c) w in
    snd r = 0
    /\ conf (mem (fst r) h) = c
    /\ xdev_check_hndl (fst r) p h = - EINVAL
    /\ qdma_device_offline hdr build p h (fst r) = fst r
    /\ qdma_device_close hdr build p h (fst r) = fst r
    /\ In h (xdev_list (fst r)).
Proof.
  intros hdr build p h c w Hok Hc r.
  destruct (check_hndl_registered w p h Hok)
    as (_ & l1 & l2 & Hl & Hst & _).
  unfold stored_pdev in Hst.
  assert (Hr : r = (store h (set_conf c) w, 0)).
  { unfold r, qdma_device_set_config. rewrite Hst, Hok. reflexivity. }
  rewrite Hr. cbn [fst snd].
  set (w' := store h (set_conf c) w).
  assert (Hconf : conf (mem w' h) = c)
    by (unfold w'; now rewrite mem_store_same).
  assert (Hbad : xdev_check_hndl w' p h = - EINVAL).
  { destruct (xdev_check_hndl_values w' p h) as [H0 | H]; [| exact H].
    destruct (check_hndl_registered w' p h H0)
      as (_ & _ & _ & _ & Hst' & _).
    unfold stored_pdev in Hst'. rewrite Hconf in Hst'. contradiction. }
  split; [reflexivity | split; [exact Hconf | split; [exact Hbad |]]].
  split; [| split].
  - unfold qdma_device_offline. rewrite Hbad.
    destruct (h =? 0); reflexivity.
  - unfold qdma_device_close. rewrite Hbad.
    destruct (h =? 0); reflexivity.
  - replace (xdev_list w') with (xdev_list w) by reflexivity.
    rewrite Hl. apply in_or_app. right. now left.
Qed.

Lemma set_config_other_pdev_witness :
  xdev_check_hndl
    (fst (qdma_device_set_config 5000 (Some (sample_conf 1001)) one_device))
    1000 5000 = - EINVAL.
Proof.
  assert (Hok : xdev_check_hndl one_device 1000 5000 = 0)
    by (vm_compute; reflexivity).
  assert (Hc : pdev (sample_conf 1001) <> 1000).
  { vm_compute. discriminate. }
  destruct (set_config_other_pdev sample_header (QDMA_PF true) 1000 5000
              (sample_conf 1001) one_device Hok Hc)
    as (_ & _ & Hbad & _).
  exact Hbad.
Defined.
